(** * ArviZ plotting front ends: autocorrelation, joint, energy and
      bokeh distribution plots.

    A shallow embedding of
      - [arviz/plots/jointplot.py]            ([plot_joint]),
      - [arviz/plots/autocorrplot.py]         ([plot_autocorr]),
      - [arviz/plots/backends/matplotlib/mpl_energyplot.py] ([_plot_energy]),
      - [arviz/plots/backends/bokeh/bokeh_distplot.py]
        ([_plot_dist_bokeh], [_histplot_bokeh_op]),
    together with the properties of these functions.

    Python code is modelled in a state-and-exception monad over a [world]:
    a heap of dictionary objects (keyword bags are shared, mutable objects)
    and the trace of the calls the code makes to functions and methods it
    imports.  Functions of other modules are the fields of the class
    [Collaborators]. *)

From Stdlib Require Import QArith Qcanon.
From stdpp Require Import base option list strings gmap fin_maps pretty numbers.

Local Open Scope string_scope.
Local Open Scope Z_scope.
Local Open Scope list_scope.

(** ** Python values *)

(** Python exceptions, by class, with their message (or missing key). *)
Inductive exn :=
| ValueError (msg : string)
| TypeError (msg : string)
| PyException (msg : string)
| NotImplementedError (msg : string)
| AttributeError (msg : string)
| IndexError (msg : string)
| KeyError (key : string).

(** The outcome of a Python expression: a value, or a raised exception. *)
Inductive res (A : Type) :=
| Ok (a : A)
| Raise (e : exn).
Arguments Ok {A} a.
Arguments Raise {A} e.

(** Floating-point numbers.  Finite values are exact rationals (rounding is
    not modelled); the special values of IEEE arithmetic are kept, because
    numpy divisions by zero produce them instead of raising. *)
Inductive pyfloat :=
| Fin (q : Qc)
| PInf
| NInf
| NaN.

(** Addresses of dictionary objects, and handles of opaque objects (axes,
    figures, arbitrary inputs). *)
Definition loc := positive.
Definition handle := positive.

(** numpy's [dtype.kind] codes. *)
Inductive dtype_kind :=
| kind_b | kind_i | kind_u | kind_f | kind_c | kind_m | kind_M
| kind_O | kind_S | kind_U | kind_V.

#[export] Instance dtype_kind_eq_dec : EqDecision dtype_kind.
Proof. solve_decision. Defined.

(** A one-dimensional numpy array. *)
Record ndarray := NdArray { dtype : dtype_kind; elems : list pyfloat }.

(** One unit of plotting work: a label, the coordinate selection it was cut
    from, and the flattened samples. *)
Record PlotUnit := MkPlotUnit {
  label : string;
  selection : list (string * string);
  values : list pyfloat
}.

(** A variable of a dataset: its name, its dimensions other than chain and
    draw with their coordinate labels, and the samples (one list of draws
    per chain) found at each coordinate selection. *)
Record DataArray := MkDataArray {
  da_name : string;
  da_dims : list (string * list string);
  da_values : list (string * string) → list (list pyfloat)
}.

(** The labelled array a plotting call works on. *)
Record Dataset := MkDataset {
  ds_chains : nat;
  ds_draws : nat;
  data_vars : list DataArray
}.

#[local] Set Warnings "-register-all".

Inductive val :=
| VNone
| VBool (b : bool)
| VInt (n : Z)
| VFloat (x : pyfloat)
| VStr (s : string)
| VSeq (vs : list val)
| VDict (l : loc)
| VObj (o : handle)
| VArray (a : ndarray)
| VDataset (d : Dataset)
| VPlotters (ps : list PlotUnit).

Abbreviation dict := (gmap string val).
Abbreviation heap := (gmap loc (gmap string val)).

(** ** The world: dictionary objects and the trace of outgoing calls *)

(** A call of an imported function or of a method of an external object:
    its dotted name, its positional arguments (the receiver first, for a
    method) and its keyword arguments.  Arguments that are datasets or
    name lists are left out of the record. *)
Inductive event :=
| ECall (f : string) (args : list val) (kwargs : dict).

Record world := World { w_heap : heap; w_trace : list event }.

Definition M (A : Type) : Type := world → res A * world.

#[export] Instance M_ret : MRet M := λ A a w, (Ok a, w).

#[export] Instance M_bind : MBind M := λ A B k m w,
  match m w with
  | (Ok a, w') => k a w'
  | (Raise e, w') => (Raise e, w')
  end.

Definition raise {A} (e : exn) : M A := λ w, (Raise e, w).

Definition lift {A} (r : res A) : M A := λ w, (r, w).

Definition log (e : event) : M unit :=
  λ w, (Ok tt, World (w_heap w) (w_trace w ++ [e])%list).

(** Call of an imported function that works on its arguments only. *)
Definition call {A} (f : string) (args : list val) (kwargs : dict)
    (r : res A) : M A :=
  log (ECall f args kwargs);; lift r.

(** Call of an imported function that may also read and update the
    dictionary objects reachable from its arguments. *)
Definition call_st {A} (f : string) (args : list val) (kwargs : dict)
    (body : heap → res A * heap) : M A :=
  log (ECall f args kwargs);;
  ((λ w, let '(r, h) := body (w_heap w) in (r, World h (w_trace w))) : M A).

(** *** Dictionary objects *)

Definition dict_new : M loc :=
  λ w, let l := fresh (dom (w_heap w)) in
       (Ok l, World (<[l := ∅]> (w_heap w)) (w_trace w)).

(** Reading the object behind a reference.  A reference that is not a
    dictionary of the heap cannot be built by a Python program. *)
Definition dict_read (l : loc) : M dict :=
  λ w, match w_heap w !! l with
       | Some d => (Ok d, w)
       | None => (Raise (TypeError "not a dictionary object"), w)
       end.

Definition dict_write (l : loc) (d : dict) : M unit :=
  λ w, (Ok tt, World (<[l := d]> (w_heap w)) (w_trace w)).

(** [d[k]] *)
Definition dict_get (l : loc) (k : string) : M val :=
  d ← dict_read l;
  match d !! k with
  | Some v => mret v
  | None => raise (KeyError k)
  end.

(** [d[k] = v] *)
Definition dict_set (l : loc) (k : string) (v : val) : M unit :=
  d ← dict_read l; dict_write l (<[k := v]> d).

(** [d.pop(k)] *)
Definition dict_pop (l : loc) (k : string) : M val :=
  d ← dict_read l;
  match d !! k with
  | Some v => dict_write l (delete k d);; mret v
  | None => raise (KeyError k)
  end.

(** [d.pop(k, default)] *)
Definition dict_pop_default (l : loc) (k : string) (default : val) : M val :=
  d ← dict_read l;
  match d !! k with
  | Some v => dict_write l (delete k d);; mret v
  | None => mret default
  end.

(** [d.setdefault(k, v)], for a default [v] that is computed first. *)
Definition dict_setdefault (l : loc) (k : string) (v : val) : M val :=
  d ← dict_read l;
  match d !! k with
  | Some v' => mret v'
  | None => dict_write l (<[k := v]> d);; mret v
  end.

(** [target[k] = v] where [target] is any value: only dictionaries support
    item assignment here. *)
Definition setitem (target : val) (k : string) (v : val) : M unit :=
  match target with
  | VDict l => dict_set l k v
  | _ => raise (TypeError "object does not support item assignment")
  end.

(** [target.pop(k)] where [target] is any value. *)
Definition pop_of (target : val) (k : string) : M val :=
  match target with
  | VDict l => dict_pop l k
  | _ => raise (AttributeError "object has no attribute 'pop'")
  end.

(** Keyword arguments written out in a call, followed by [**extra]: Python
    refuses a keyword given twice. *)
Definition kw_merge (explicit extra : dict) : res dict :=
  if decide (explicit ##ₘ extra)
  then Ok (explicit ∪ extra)
  else Raise (TypeError "got multiple values for keyword argument").

(** Truth value of an object, as tested by [if]. *)
Definition truthy (h : heap) (v : val) : bool :=
  match v with
  | VNone => false
  | VBool b => b
  | VInt n => negb (n =? 0)
  | VFloat (Fin q) => negb (bool_decide (q = 0%Qc))
  | VFloat _ => true
  | VStr s => negb (bool_decide (s = ""))
  | VSeq vs => match vs with [] => false | _ => true end
  | VDict l => match h !! l with Some d => negb (bool_decide (size d = 0%nat)) | None => true end
  | VObj _ => true
  | VArray a => match elems a with [] => false | _ => true end
  | VDataset _ => true
  | VPlotters ps => match ps with [] => false | _ => true end
  end.

(** The truth test of [if v:]. *)
Definition py_bool (v : val) : M bool :=
  λ w, (Ok (truthy (w_heap w) v), w).

(** [v == s] for a string literal [s]. *)
Definition is_str (s : string) (v : val) : bool :=
  match v with
  | VStr s' => bool_decide (s' = s)
  | _ => false
  end.

(** [target[k]] where [target] is any value. *)
Definition getitem (target : val) (k : string) : M val :=
  match target with
  | VDict l => dict_get l k
  | _ => raise (TypeError "object is not subscriptable")
  end.

(** [d[k]] and [d.pop(k)] on a dictionary that is local to a call (built
    with [dict(...)] and never shared before it is handed on). *)
Definition local_get (d : dict) (k : string) : M val :=
  match d !! k with
  | Some v => mret v
  | None => raise (KeyError k)
  end.

Definition local_pop (d : dict) (k : string) : M (val * dict) :=
  match d !! k with
  | Some v => mret (v, delete k d)
  | None => raise (KeyError k)
  end.

(** [str(n)] of a non-negative integer, and [repr] of a list of strings. *)
Definition str_of_nat (n : nat) : string := pretty n.

Definition repr_str_list (l : list string) : string :=
  "[" +:+ String.concat ", " ((λ s, "'" +:+ s +:+ "'") <$> l) +:+ "]".

(** ** Collaborators

    Functions this code imports from the rest of the package and from its
    plotting and numeric libraries.  Their code is not part of the four
    modules; each is known here by its signature only. *)
Record scaled := Scaled {
  sc_figsize : val;
  sc_ax_labelsize : val;
  sc_titlesize : val;
  sc_xt_labelsize : val;
  sc_linewidth : val;
  sc_markersize : val
}.

Class Collaborators := {
  (** [arviz.data.convert_to_dataset(obj, group=...)] *)
  convert_to_dataset : val → string → res Dataset;
  (** [arviz.utils._var_names(var_names, data)] *)
  _var_names : option (list string) → Dataset → res (option (list string));
  (** [plot_utils.make_label(var_name, selection)] *)
  make_label : string → list (string * string) → string;
  (** [plot_utils._scale_fig_size(figsize, textsize, rows, cols)] *)
  _scale_fig_size : val → val → nat → nat → scaled;
  (** [plot_utils.default_grid(n_items)] *)
  default_grid : nat → nat * nat;
  (** [plot_utils.filter_plotters_list(plotters, plot_kind)] *)
  filter_plotters_list : list PlotUnit → string → list PlotUnit;
  (** [plot_utils._create_axes_grid(length_plotters, rows, cols, ...)] with its keyword arguments *)
  _create_axes_grid : nat → nat → nat → dict → res (val * val);
  (** [numpy.atleast_2d], and the [flatten] method of an array *)
  np_atleast_2d : val → val;
  np_flatten : val → val;
  (** the backends' entry points *)
  bokeh_plot_joint : dict → heap → res val * heap;
  mpl_plot_joint : dict → heap → res val * heap;
  bokeh_plot_autocorr : dict → heap → res val * heap;
  mpl_plot_autocorr : dict → heap → res val * heap;
  (** [matplotlib.pyplot.subplots] with its keyword arguments: the figure and its axes *)
  plt_subplots : dict → val * val;
  (** [bokeh.plotting.figure] with its keyword arguments *)
  bkp_figure : dict → val;
  (** [arviz.plots.kdeplot.plot_kde] with its positional and keyword arguments *)
  plot_kde : list val → dict → heap → res val * heap;
  (** [arviz.stats.bfmi(energy)]: one value per chain *)
  e_bfmi : val → res (list pyfloat);
  (** [format(x, ".2f")] *)
  format_2f : pyfloat → string;
  (** [plot_utils.get_bins(values)] *)
  get_bins : ndarray → res val;
  (** [numpy.histogram_bin_edges(a, bins)], for [bins] that is not itself
      a sequence of edges *)
  np_histogram_bin_edges : ndarray → val → res (list pyfloat)
}.

(** ** The variable iterator *)

Module plot_utils.

(** Modelled from the spec: the order of iteration of [xarray_var_iter]
    (spec 4.2).  All combinations of one element per axis, the first axis
    varying slowest (row-major order). *)
Fixpoint cartesian {A} (axes : list (list A)) : list (list A) :=
  match axes with
  | [] => [[]]
  | xs :: rest => x ← xs; (x ::.) <$> cartesian rest
  end.

(** Modelled from the spec: the coordinate selections of a variable, one
    coordinate per dimension (spec 4.2). *)
Definition selections (dims : list (string * list string))
    : list (list (string * string)) :=
  cartesian ((λ dc : string * list string, (dc.1,.) <$> dc.2) <$> dims).

Section iterator.
Context `{Collaborators}.

(** Modelled from the spec: the plot units of one variable (spec 4.2).
    With [combined] the chains are merged into the sample sequence;
    otherwise the chain is iterated as one more (leading) axis. *)
Definition units_of (chains : nat) (combined : bool) (v : DataArray)
    : list PlotUnit :=
  if combined then
    sel ← selections (da_dims v);
    [MkPlotUnit (make_label (da_name v) sel) sel (concat (da_values v sel))]
  else
    c ← seq 0 chains;
    sel ← selections (da_dims v);
    let sel' := ("chain", str_of_nat c) :: sel in
    [MkPlotUnit (make_label (da_name v) sel') sel'
                (default [] (da_values v sel !! c))].

(** Modelled from the spec: the lookup of a requested variable by name
    (spec 4.2). *)
Definition find_var (ds : Dataset) (name : string) : res DataArray :=
  match find (λ v, bool_decide (da_name v = name)) (data_vars ds) with
  | Some v => Ok v
  | None => Raise (KeyError name)
  end.

(** Modelled from the spec: the plot units of the requested variables, in
    the order requested (spec 4.2). *)
Fixpoint units_of_names (ds : Dataset) (combined : bool)
    (names : list string) : res (list PlotUnit) :=
  match names with
  | [] => Ok []
  | n :: rest =>
      match find_var ds n with
      | Raise e => Raise e
      | Ok v =>
          match units_of_names ds combined rest with
          | Raise e => Raise e
          | Ok us => Ok (units_of (ds_chains ds) combined v ++ us)%list
          end
      end
  end.

(** Modelled from the spec: [plot_utils.xarray_var_iter], whose code is not
    among the four modules (spec 4.2, VariableIterator).  For each requested
    variable, in the order requested (all variables in declaration order
    when [var_names] is unset), and for each combination of coordinates of
    its dimensions other than the sample dimensions, in row-major order,
    one plot unit; a name that is not a variable of the array fails with a
    [KeyError] naming it. *)
Definition xarray_var_iter (ds : Dataset) (var_names : option (list string))
    (combined : bool) : res (list PlotUnit) :=
  units_of_names ds combined
    (default (da_name <$> data_vars ds) var_names).

(** Modelled from the spec: [plot_utils.get_coords], whose code is not
    among the four modules (spec 4.2, coordinate restriction).  A dimension
    named by [coords] keeps only the allowed coordinate values; the other
    dimensions are unrestricted. *)
Definition get_coords (ds : Dataset) (coords : gmap string (list string))
    : Dataset :=
  MkDataset (ds_chains ds) (ds_draws ds)
    ((λ v, MkDataArray (da_name v)
             ((λ dc : string * list string,
                 (dc.1, match coords !! dc.1 with
                        | Some allowed => filter (λ c, c ∈ allowed) dc.2
                        | None => dc.2
                        end)) <$> da_dims v)
             (da_values v)) <$> data_vars ds).

(** A requested name that is a variable without dimensions of its own. *)
Definition scalar_in (ds : Dataset) (name : string) : Prop :=
  ∃ v, find_var ds name = Ok v ∧ da_dims v = [].

End iterator.
End plot_utils.

(** ** [arviz/plots/jointplot.py] *)

Module jointplot.

Record args := Args {
  data : val;
  var_names : option (list string);
  coords : option (gmap string (list string));
  figsize : val;
  textsize : val;
  kind : string;
  gridsize : val;
  contour : val;
  fill_last : val;
  joint_kwargs : option loc;
  marginal_kwargs : option loc;
  ax : val;
  backend : val;
  show : val
}.

Definition valid_kinds : list string := ["scatter"; "kde"; "hexbin"].

Definition kind_message (kind : string) : string :=
  "Plot type " +:+ kind +:+ " not recognized." +:+
  "Plot type must be in " +:+ repr_str_list valid_kinds.

Definition count_message (n : nat) : string :=
  "Number of variables to be plotted must 2 (you supplied " +:+
  str_of_nat n +:+ ")".

Section plot_joint.
Context `{Collaborators}.

(** Lines 118-160: validation, preparation of the plot units and of the
    keyword bundle [plot_joint_kwargs]. *)
Definition plot_joint_kwargs_of (a : args) : M dict :=
  if decide (kind a ∈ valid_kinds) then
    ds ← call "convert_to_dataset" [data a] {["group" := VStr "posterior"]}
           (convert_to_dataset (data a) "posterior");
    let coords := default ∅ (coords a) in
    var_names ← call "_var_names" [] ∅ (_var_names (var_names a) ds);
    sel ← call "get_coords" [] ∅ (Ok (plot_utils.get_coords ds coords));
    plotters ← call "xarray_var_iter" [] {["combined" := VBool true]}
                 (plot_utils.xarray_var_iter sel var_names true);
    if decide (length plotters ≠ 2%nat) then
      raise (PyException (count_message (length plotters)))
    else
      sc ← call "_scale_fig_size" [figsize a; textsize a] ∅
             (Ok (_scale_fig_size (figsize a) (textsize a) 1 1));
      joint_kwargs ← match joint_kwargs a with
                     | None => dict_new
                     | Some l => mret l
                     end;
      marginal_kwargs ← match marginal_kwargs a with
                        | None => dict_new
                        | Some l => mret l
                        end;
      empty ← dict_new;
      dict_setdefault marginal_kwargs "plot_kwargs" (VDict empty);;
      plot_kwargs ← dict_get marginal_kwargs "plot_kwargs";
      setitem plot_kwargs "linewidth" (sc_linewidth sc);;
      mret (<["ax" := ax a]>
            (<["figsize" := sc_figsize sc]>
            (<["plotters" := VPlotters plotters]>
            (<["ax_labelsize" := sc_ax_labelsize sc]>
            (<["xt_labelsize" := sc_xt_labelsize sc]>
            (<["kind" := VStr (kind a)]>
            (<["contour" := contour a]>
            (<["fill_last" := fill_last a]>
            (<["joint_kwargs" := VDict joint_kwargs]>
            (<["gridsize" := gridsize a]>
            (<["marginal_kwargs" := VDict marginal_kwargs]> ∅)))))))))))
  else
    raise (ValueError (kind_message (kind a))).

(** Lines 165-169: the bundle as the bokeh backend takes it. *)
Definition bokeh_joint_kwargs (kw : dict) (show : val) : M dict :=
  '(_, kw) ← local_pop kw "ax_labelsize";
  mk ← local_get kw "marginal_kwargs";
  pk ← getitem mk "plot_kwargs";
  linewidth ← pop_of pk "linewidth";
  mk ← local_get kw "marginal_kwargs";
  pk ← getitem mk "plot_kwargs";
  setitem pk "line_width" linewidth;;
  mret (<["show" := show]> kw).

Definition plot_joint (a : args) : M val :=
  plot_joint_kwargs ← plot_joint_kwargs_of a;
  if is_str "bokeh" (backend a) then
    plot_joint_kwargs ← bokeh_joint_kwargs plot_joint_kwargs (show a);
    call_st "bokeh_jointplot._plot_joint" [] plot_joint_kwargs
      (bokeh_plot_joint plot_joint_kwargs)
  else
    call_st "mpl_jointplot._plot_joint" [] plot_joint_kwargs
      (mpl_plot_joint plot_joint_kwargs).

End plot_joint.
End jointplot.

(** ** [arviz/plots/autocorrplot.py] *)

Module autocorrplot.

Record args := Args {
  data : val;
  var_names : option (list string);
  max_lag : val;
  combined : bool;
  figsize : val;
  textsize : val;
  ax : val;
  backend : val;
  show : val
}.

Section plot_autocorr.
Context `{Collaborators}.

(** Lines 92-133: preparation of the plot units, of the axes grid and of
    the keyword bundle [autocorr_plot_args]. *)
Definition autocorr_plot_args_of (a : args) : M dict :=
  ds ← call "convert_to_dataset" [data a] {["group" := VStr "posterior"]}
         (convert_to_dataset (data a) "posterior");
  var_names ← call "_var_names" [] ∅ (_var_names (var_names a) ds);
  let max_lag :=
    match max_lag a with
    | VNone => VInt (100 `min` Z.of_nat (ds_draws ds))
    | v => v
    end in
  units ← call "xarray_var_iter" [] {["combined" := VBool (combined a)]}
            (plot_utils.xarray_var_iter ds var_names (combined a));
  plotters ← call "filter_plotters_list" [VPlotters units; VStr "plot_autocorr"] ∅
               (Ok (filter_plotters_list units "plot_autocorr"));
  let length_plotters := length plotters in
  '(rows, cols) ← call "default_grid" [VInt (Z.of_nat length_plotters)] ∅
                    (Ok (default_grid length_plotters));
  sc ← call "_scale_fig_size" [figsize a; textsize a] ∅
         (Ok (_scale_fig_size (figsize a) (textsize a) rows cols));
  axes ← match ax a with
         | VNone =>
             let kw : dict :=
               <["figsize" := sc_figsize sc]>
               (<["squeeze" := VBool false]>
               (<["sharex" := VBool true]>
               (<["sharey" := VBool true]>
               (<["backend" := backend a]> ∅)))) in
             '(_, axes) ← call "_create_axes_grid" [] kw
                            (_create_axes_grid length_plotters rows cols kw);
             mret axes
         | ax => mret ax
         end;
  axes ← call "np.atleast_2d" [axes] ∅ (Ok (np_atleast_2d axes));
  mret (<["axes" := axes]>
        (<["plotters" := VPlotters plotters]>
        (<["max_lag" := max_lag]>
        (<["combined" := VBool (combined a)]>
        (<["linewidth" := sc_linewidth sc]>
        (<["xt_labelsize" := sc_xt_labelsize sc]>
        (<["titlesize" := sc_titlesize sc]> ∅))))))).

(** Lines 138-141: the bundle as the bokeh backend takes it. *)
Definition bokeh_autocorr_args (kw : dict) (show : val) : M dict :=
  '(_, kw) ← local_pop kw "xt_labelsize";
  '(_, kw) ← local_pop kw "titlesize";
  '(linewidth, kw) ← local_pop kw "linewidth";
  let kw := <["line_width" := linewidth]> kw in
  mret (<["show" := show]> kw).

Definition plot_autocorr (a : args) : M val :=
  autocorr_plot_args ← autocorr_plot_args_of a;
  if is_str "bokeh" (backend a) then
    autocorr_plot_args ← bokeh_autocorr_args autocorr_plot_args (show a);
    call_st "bokeh_autocorrplot._plot_autocorr" [] autocorr_plot_args
      (bokeh_plot_autocorr autocorr_plot_args)
  else
    call_st "mpl_autocorrplot._plot_autocorr" [] autocorr_plot_args
      (mpl_plot_autocorr autocorr_plot_args).

End plot_autocorr.
End autocorrplot.

(** ** Loops and string formatting *)

Fixpoint for_each {A} (l : list A) (body : A → M unit) : M unit :=
  match l with
  | [] => mret tt
  | x :: rest => body x;; for_each rest body
  end.

(** [enumerate(l)] *)
Definition enumerate {A} (l : list A) : list (nat * A) :=
  zip (seq 0 (length l)) l.

(** [format(n, ">2")]: right-aligned in a field two characters wide. *)
Definition format_right2 (n : nat) : string :=
  let s := str_of_nat n in
  if (String.length s <? 2)%nat then " " +:+ s else s.

(** The double-quote character. *)
Definition dq : string := String (Ascii.ascii_of_nat 34) EmptyString.

(** [target.setdefault(k, v)] and [**target] where [target] is any value. *)
Definition setdefault_of (target : val) (k : string) (v : val) : M val :=
  match target with
  | VDict l => dict_setdefault l k v
  | _ => raise (AttributeError "object has no attribute 'setdefault'")
  end.

Definition pop_default_of (target : val) (k : string) (default : val)
    : M val :=
  match target with
  | VDict l => dict_pop_default l k default
  | _ => raise (AttributeError "object has no attribute 'pop'")
  end.

Definition mapping_of (target : val) : M dict :=
  match target with
  | VDict l => dict_read l
  | _ => raise (TypeError "argument after ** must be a mapping")
  end.

(** A call [f(args, explicit keywords, **extra)]. *)
Definition call_kw (f : string) (args : list val) (explicit extra : dict)
    : M unit :=
  kw ← lift (kw_merge explicit extra);
  call f args kw (Ok tt).

(** ** [arviz/plots/backends/matplotlib/mpl_energyplot.py] *)

Module mpl_energyplot.

(** An element of [series]: the tuple [(alpha, color, label, value)]. *)
Record series_item := Series {
  s_alpha : val;
  s_color : val;
  s_label : val;
  s_value : val
}.

Section plot_energy.
Context `{Collaborators}.

Definition bfmi_label (idx : nat) (v : pyfloat) : string :=
  "chain " +:+ format_right2 idx +:+ " BFMI = " +:+ format_2f v.

Definition _plot_energy (ax : val) (series : list series_item)
    (energy : val) (kind : string) (bfmi : val) (figsize xt_labelsize
    linewidth fill_kwargs plot_kwargs bw legend : val) : M val :=
  ax ← match ax with
       | VNone =>
           let kw : dict :=
             <["figsize" := figsize]>
             (<["constrained_layout" := VBool true]> ∅) in
           '(_, ax) ← call "plt.subplots" [] kw (Ok (plt_subplots kw));
           mret ax
       | ax => mret ax
       end;
  (if decide (kind = "kde") then
     for_each series (λ s,
       setitem fill_kwargs "alpha" (s_alpha s);;
       setitem fill_kwargs "color" (s_color s);;
       setdefault_of plot_kwargs "color" (s_color s);;
       setdefault_of plot_kwargs "alpha" (VInt 0);;
       setdefault_of plot_kwargs "linewidth" linewidth;;
       let kw : dict :=
         <["bw" := bw]>
         (<["label" := s_label s]>
         (<["textsize" := xt_labelsize]>
         (<["fill_kwargs" := fill_kwargs]>
         (<["plot_kwargs" := plot_kwargs]>
         (<["ax" := ax]>
         (<["legend" := VBool false]> ∅)))))) in
       call_st "plot_kde" [s_value s] kw (plot_kde [s_value s] kw);;
       mret tt)
   else if decide (kind ∈ ["hist"; "histogram"]) then
     for_each series (λ s,
       flat ← call "flatten" [s_value s] ∅ (Ok (np_flatten (s_value s)));
       extra ← mapping_of plot_kwargs;
       call_kw "ax.hist" [ax; flat]
         (<["bins" := VStr "auto"]>
          (<["density" := VBool true]>
          (<["alpha" := s_alpha s]>
          (<["label" := s_label s]>
          (<["color" := s_color s]> ∅)))))
         extra)
   else
     raise (ValueError ("Plot type " +:+ kind +:+ " not recognized.")));;
  b ← py_bool bfmi;
  ((if b : bool then
     vals ← call "stats.bfmi" [energy] ∅ (e_bfmi energy);
     for_each (enumerate vals) (λ iv,
       call "ax.plot" [ax; VSeq []]
         (<["label" := VStr (bfmi_label iv.1 iv.2)]>
          (<["alpha" := VInt 0]> ∅))
         (Ok tt))
   else mret tt) : M unit);;
  b ← py_bool legend;
  ((if b : bool then call "ax.legend" [ax] ∅ (Ok tt) else mret tt) : M unit);;
  call "ax.set_xticks" [ax; VSeq []] ∅ (Ok tt);;
  call "ax.set_yticks" [ax; VSeq []] ∅ (Ok tt);;
  mret ax.

End plot_energy.
End mpl_energyplot.

(** ** numpy: histograms and cumulative sums *)

Module np.

Definition of_Z (n : Z) : pyfloat := Fin (Qc_of_Z n).

Definition of_nat (n : nat) : pyfloat := of_Z (Z.of_nat n).

Definition fneg (x : pyfloat) : pyfloat :=
  match x with
  | Fin q => Fin (- q)%Qc
  | PInf => NInf
  | NInf => PInf
  | NaN => NaN
  end.

Definition fadd (x y : pyfloat) : pyfloat :=
  match x, y with
  | NaN, _ | _, NaN => NaN
  | Fin p, Fin q => Fin (p + q)%Qc
  | PInf, NInf | NInf, PInf => NaN
  | PInf, _ | _, PInf => PInf
  | NInf, _ | _, NInf => NInf
  end.

Definition fsub (x y : pyfloat) : pyfloat := fadd x (fneg y).

(** [x / y] on arrays: a division by zero gives an infinity or NaN (with a
    warning) and never raises.  Signed zeros are not modelled. *)
Definition fdiv (x y : pyfloat) : pyfloat :=
  match x, y with
  | NaN, _ | _, NaN => NaN
  | Fin p, Fin q =>
      if decide (q = 0)%Qc then
        if decide (p = 0)%Qc then NaN
        else if decide (0 < p)%Qc then PInf else NInf
      else Fin (p / q)%Qc
  | Fin _, _ => Fin 0%Qc
  | _, Fin q =>
      if decide (0 ≤ q)%Qc then x else fneg x
  | _, _ => NaN
  end.

(** [x <= y] and [x < y]: false as soon as one side is NaN. *)
Definition fle (x y : pyfloat) : bool :=
  match x, y with
  | NaN, _ | _, NaN => false
  | Fin p, Fin q => bool_decide (p ≤ q)%Qc
  | NInf, _ | _, PInf => true
  | _, _ => false
  end.

Definition flt (x y : pyfloat) : bool :=
  match x, y with
  | NaN, _ | _, NaN => false
  | Fin p, Fin q => bool_decide (p < q)%Qc
  | PInf, _ | _, NInf => false
  | _, _ => true
  end.

(** The bins of a list of edges: consecutive pairs. *)
Definition bins_of (edges : list pyfloat) : list (pyfloat * pyfloat) :=
  zip edges (tail edges).

(** The number of samples in each bin.  Every bin is half-open
    [lo <= v < hi], except the last, which includes its right edge. *)
Fixpoint counts (values : list pyfloat) (bins : list (pyfloat * pyfloat))
    : list nat :=
  match bins with
  | [] => []
  | [(lo, hi)] =>
      [length (filter (λ v, fle lo v && fle v hi) values)]
  | (lo, hi) :: rest =>
      length (filter (λ v, fle lo v && flt v hi) values) :: counts values rest
  end.

(** [np.any(edges[:-1] > edges[1:])] *)
Definition decreasing_somewhere (edges : list pyfloat) : bool :=
  existsb (λ b, flt b.2 b.1) (bins_of edges).

(** [np.histogram(values, density=density, bins=edges)[0]] for [bins] given
    as the sequence of edges: the counts, or with [density] the counts
    divided by the bin widths and by the total count, [n / db / n.sum()]. *)
Definition histogram (values : list pyfloat) (density : bool)
    (edges : list pyfloat) : res ndarray :=
  if decreasing_somewhere edges then
    Raise (ValueError "`bins` must increase monotonically, when an array")
  else
    let n := counts values (bins_of edges) in
    if density then
      let db := (λ b, fsub b.2 b.1) <$> bins_of edges in
      let total := of_nat (foldr Nat.add 0%nat n) in
      Ok (NdArray kind_f
            ((λ nd, fdiv (fdiv (of_nat nd.1) nd.2) total) <$> zip n db))
    else
      Ok (NdArray kind_i (of_nat <$> n)).

(** [np.cumsum] *)
Fixpoint cumsum_from (acc : pyfloat) (l : list pyfloat) : list pyfloat :=
  match l with
  | [] => []
  | x :: rest => fadd acc x :: cumsum_from (fadd acc x) rest
  end.

Definition cumsum (a : ndarray) : ndarray :=
  NdArray (dtype a)
    (match elems a with
     | [] => []
     | x :: rest => x :: cumsum_from x rest
     end).

(** [hist /= hist[-1]]: division in place by the last element.  An array
    of integers cannot hold the quotients. *)
Definition idiv_last (a : ndarray) : res ndarray :=
  match list.last (elems a) with
  | None => Raise (IndexError "index -1 is out of bounds for axis 0 with size 0")
  | Some d =>
      match dtype a with
      | kind_f => Ok (NdArray kind_f ((λ x, fdiv x d) <$> elems a))
      | _ => Raise (TypeError "Cannot cast ufunc 'divide' output")
      end
  end.

(** A Python sequence of numbers read as an array of floats. *)
Fixpoint floats_of (vs : list val) : option (list pyfloat) :=
  match vs with
  | [] => Some []
  | VInt n :: rest => (of_Z n ::.) <$> floats_of rest
  | VFloat x :: rest => (x ::.) <$> floats_of rest
  | _ => None
  end.

End np.

(** ** [arviz/plots/backends/bokeh/bokeh_distplot.py] *)

Module bokeh_distplot.

Record args := Args {
  values : ndarray;
  values2 : option ndarray;
  color : val;
  kind : string;
  cumulative : val;
  label : val;
  rotated : val;
  rug : val;
  bw : val;
  quantiles : val;
  contour : val;
  fill_last : val;
  plot_kwargs : val;
  fill_kwargs : val;
  rug_kwargs : val;
  contour_kwargs : val;
  contourf_kwargs : val;
  pcolormesh_kwargs : val;
  hist_kwargs : val;
  ax : val;
  show : val
}.

Definition array_or_none (a : option ndarray) : val :=
  match a with
  | Some a => VArray a
  | None => VNone
  end.

Definition is_none (v : val) : bool :=
  match v with
  | VNone => true
  | _ => false
  end.

Definition tools : string :=
  String.concat ","
    ["pan"; "wheel_zoom"; "box_zoom"; "lasso_select"; "poly_select";
     "undo"; "redo"; "reset"; "save,hover"].

Definition kind_message (kind : string) : string :=
  "Invalid " +:+ dq +:+ "kind" +:+ dq +:+ ":" +:+ kind +:+
  ". Select from {" +:+ dq +:+ "auto" +:+ dq +:+ "," +:+
  dq +:+ "kde" +:+ dq +:+ "," +:+ dq +:+ "hist" +:+ dq +:+ "}".

Section plot_dist.
Context `{Collaborators}.

(** The edges [np.histogram] works with: [bins] itself when it is a
    sequence of edges, what numpy derives from it otherwise. *)
Definition bin_edges (values : ndarray) (bins : val) : res (list pyfloat) :=
  match bins with
  | VArray a => Ok (elems a)
  | VSeq vs =>
      match np.floats_of vs with
      | Some es => Ok es
      | None => np_histogram_bin_edges values bins
      end
  | _ => np_histogram_bin_edges values bins
  end.

(** [np.histogram(values, density=density, bins=bins)] *)
Definition np_histogram (values : ndarray) (density : bool) (bins : val)
    : res (ndarray * list pyfloat) :=
  match bin_edges values bins with
  | Raise e => Raise e
  | Ok edges =>
      match np.histogram (elems values) density edges with
      | Raise e => Raise e
      | Ok hist => Ok (hist, edges)
      end
  end.

Definition _histplot_bokeh_op (values : ndarray) (values2 : option ndarray)
    (rotated ax hist_kwargs : val) : M val :=
  match values2 with
  | Some _ => raise (NotImplementedError "Insert hexbin plot here")
  | None =>
      legend_label ← pop_default_of hist_kwargs "label" VNone;
      b ← py_bool legend_label;
      ((if b : bool then setitem hist_kwargs "legend_label" legend_label
        else mret tt) : M unit);;
      color ← pop_default_of hist_kwargs "color" (VBool false);
      b ← py_bool color;
      ((if b : bool then
          setitem hist_kwargs "fill_color" color;;
          setitem hist_kwargs "line_color" color
        else mret tt) : M unit);;
      pop_default_of hist_kwargs "rwidth" VNone;;
      pop_default_of hist_kwargs "align" VNone;;
      pop_default_of hist_kwargs "density" VNone;;
      pop_default_of hist_kwargs "orientation" VNone;;
      bins ← pop_default_of hist_kwargs "bins" VNone;
      bins ← match bins with
             | VNone => call "get_bins" [VArray values] ∅ (get_bins values)
             | bins => mret bins
             end;
      density ← pop_default_of hist_kwargs "density" (VBool true);
      d ← py_bool density;
      '(hist, edges) ← call "np.histogram" [VArray values]
                         (<["density" := density]> (<["bins" := bins]> ∅))
                         (np_histogram values d bins);
      cumulative ← pop_default_of hist_kwargs "cumulative" (VBool false);
      b ← py_bool cumulative;
      hist ← (if b : bool then
                hist ← call "np.cumsum" [VArray hist] ∅ (Ok (np.cumsum hist));
                lift (np.idiv_last hist)
              else mret hist);
      extra ← mapping_of hist_kwargs;
      r ← py_bool rotated;
      ((if r : bool then
          call_kw "ax.quad" [ax]
            (<["top" := VArray (NdArray kind_f (removelast edges))]>
             (<["bottom" := VArray (NdArray kind_f (tail edges))]>
             (<["left" := VInt 0]>
             (<["right" := VArray hist]> ∅))))
            extra
        else
          call_kw "ax.quad" [ax]
            (<["top" := VArray hist]>
             (<["bottom" := VInt 0]>
             (<["left" := VArray (NdArray kind_f (removelast edges))]>
             (<["right" := VArray (NdArray kind_f (tail edges))]> ∅))))
            extra) : M unit);;
      mret ax
  end.

Definition _plot_dist_bokeh (a : args) : M val :=
  ax ← match ax a with
       | VNone =>
           let kw : dict :=
             <["width" := VInt 500]>
             (<["height" := VInt 500]>
             (<["output_backend" := VStr "webgl"]>
             (<["tools" := VStr tools]> ∅))) in
           call "bkp.figure" [] kw (Ok (bkp_figure kw))
       | ax => mret ax
       end;
  let kind :=
    if decide (kind a = "auto") then
      if decide (dtype (values a) = kind_i) then "hist" else "kde"
    else kind a in
  ((if decide (kind = "hist") then
      _histplot_bokeh_op (values a) (values2 a) (rotated a) ax (hist_kwargs a);;
      mret tt
    else if decide (kind = "kde") then
      plot_kwargs ← match plot_kwargs a with
                    | VNone => l ← dict_new; mret (VDict l)
                    | v => mret v
                    end;
      setdefault_of plot_kwargs "line_color" (color a);;
      let legend := VBool (negb (is_none (label a))) in
      let kw : dict :=
        <["cumulative" := cumulative a]>
        (<["rug" := rug a]>
        (<["label" := label a]>
        (<["bw" := bw a]>
        (<["quantiles" := quantiles a]>
        (<["rotated" := rotated a]>
        (<["contour" := contour a]>
        (<["legend" := legend]>
        (<["fill_last" := fill_last a]>
        (<["plot_kwargs" := plot_kwargs]>
        (<["fill_kwargs" := fill_kwargs a]>
        (<["rug_kwargs" := rug_kwargs a]>
        (<["contour_kwargs" := contour_kwargs a]>
        (<["contourf_kwargs" := contourf_kwargs a]>
        (<["pcolormesh_kwargs" := pcolormesh_kwargs a]>
        (<["ax" := ax]>
        (<["backend" := VStr "bokeh"]>
        (<["show" := VBool false]> ∅))))))))))))))))) in
      let pos := [VArray (values a); array_or_none (values2 a)] in
      call_st "plot_kde" pos kw (plot_kde pos kw);;
      mret tt
    else
      raise (TypeError (kind_message kind))) : M unit);;
  b ← py_bool (show a);
  ((if b : bool then
      call "bkp.show" [ax] (<["toolbar_location" := VStr "above"]> ∅) (Ok tt)
    else mret tt) : M unit);;
  mret ax.

End plot_dist.
End bokeh_distplot.

(** ** A concrete set of collaborators, to run the functions on examples *)

Definition example_sizes : scaled :=
  Scaled (VSeq [VInt 6; VInt 6]) (VInt 14) (VInt 16) (VInt 12) (VInt 2) (VInt 4).

Definition stubs : Collaborators := {|
  convert_to_dataset v _ :=
    match v with
    | VDataset d => Ok d
    | _ => Raise (ValueError "cannot convert")
    end;
  _var_names vn _ := Ok vn;
  make_label n sel := String.concat "," (n :: (snd <$> sel));
  _scale_fig_size _ _ _ _ := example_sizes;
  default_grid n := (1%nat, n);
  filter_plotters_list ps _ := ps;
  _create_axes_grid _ _ _ _ := Ok (VObj 1%positive, VObj 2%positive);
  np_atleast_2d v := v;
  np_flatten v := v;
  bokeh_plot_joint kw h := (Ok (VObj 3%positive), h);
  mpl_plot_joint kw h := (Ok (VObj 4%positive), h);
  bokeh_plot_autocorr kw h := (Ok (VObj 5%positive), h);
  mpl_plot_autocorr kw h := (Ok (VObj 6%positive), h);
  plt_subplots _ := (VObj 7%positive, VObj 8%positive);
  bkp_figure _ := VObj 9%positive;
  plot_kde _ kw h := (Ok (VObj 10%positive), h);
  e_bfmi _ := Ok [np.of_Z 1; np.of_Z 2];
  format_2f x := "?";
  get_bins _ := Ok (VSeq [VInt 0; VInt 1]);
  np_histogram_bin_edges _ _ := Raise (ValueError "unsupported bins")
|}.

(** A dataset with two scalar variables and one variable over two schools,
    one chain of [draws] draws. *)
Definition example_samples (draws : nat) : list (list pyfloat) :=
  [np.of_nat <$> seq 0 draws].

Definition example_dataset (draws : nat) : Dataset :=
  MkDataset 1 draws
    [MkDataArray "mu" [] (λ _, example_samples draws);
     MkDataArray "tau" [] (λ _, example_samples draws);
     MkDataArray "theta" [("school", ["Choate"; "Phillips Andover"])]
       (λ _, example_samples draws)].

(** A heap holding one caller-owned dictionary, [{"color": "k"}]. *)
Definition example_world : world :=
  World (<[1%positive := <["color" := VStr "k"]> ∅]> ∅) [].

Definition example_joint (kind : string) (var_names : list string)
    (marginal_kwargs : option loc) (backend : val) : jointplot.args :=
  jointplot.Args (VDataset (example_dataset 4)) (Some var_names) None
    VNone VNone kind (VStr "auto") (VBool true) (VBool true)
    None marginal_kwargs VNone backend (VBool true).

Definition example_autocorr (draws : nat) (max_lag backend : val)
    : autocorrplot.args :=
  autocorrplot.Args (VDataset (example_dataset draws)) None max_lag false
    VNone VNone VNone backend (VBool true).

(** * Properties *)

(** ** Runs of the monad *)

Lemma bind_ok {A B} (m : M A) (k : A → M B) w a w' :
  m w = (Ok a, w') → (m ≫= k) w = k a w'.
Proof. intros E. unfold mbind, M_bind. by rewrite E. Qed.

Lemma bind_raise {A B} (m : M A) (k : A → M B) w e w' :
  m w = (Raise e, w') → (m ≫= k) w = (Raise e, w').
Proof. intros E. unfold mbind, M_bind. by rewrite E. Qed.

Lemma call_ok {A} f args kw (a : A) w :
  call f args kw (Ok a) w
  = (Ok a, World (w_heap w) (w_trace w ++ [ECall f args kw])).
Proof. reflexivity. Qed.

Lemma call_raise {A} f args kw e w :
  call (A := A) f args kw (Raise e) w
  = (Raise e, World (w_heap w) (w_trace w ++ [ECall f args kw])).
Proof. reflexivity. Qed.

Lemma call_st_run {A} f args kw (body : heap → res A * heap) w :
  call_st f args kw body w
  = ((body (w_heap w)).1,
     World (body (w_heap w)).2 (w_trace w ++ [ECall f args kw])).
Proof.
  unfold call_st, mbind, M_bind, log. simpl. by destruct (body (w_heap w)).
Qed.

(** The name of the function or method called. *)
Definition call_name (e : event) : string :=
  match e with
  | ECall f _ _ => f
  end.

(** A computation only adds events to the trace, all of them in [P]. *)
Definition emits (P : event → Prop) {A} (m : M A) : Prop :=
  ∀ w, ∃ t, w_trace (m w).2 = w_trace w ++ t ∧ Forall P t.

(** The trace only grows: no operation of the monad removes an event. *)
Abbreviation grows := (emits (λ _, True)).

Lemma emits_run P {A} (m : M A) w r w' :
  emits P m → m w = (r, w') →
  ∃ t, w_trace w' = w_trace w ++ t ∧ Forall P t.
Proof. intros Hm E. specialize (Hm w). by rewrite E in Hm. Qed.

Lemma emits_silent P {A} (m : M A) :
  (∀ w, w_trace (m w).2 = w_trace w) → emits P m.
Proof. intros E w. exists []. rewrite E. by rewrite app_nil_r. Qed.

Lemma emits_ret P {A} (a : A) : emits P (mret a).
Proof. by apply emits_silent. Qed.

Lemma emits_raise P {A} e : emits P (raise (A := A) e).
Proof. by apply emits_silent. Qed.

Lemma emits_lift P {A} (r : res A) : emits P (lift r).
Proof. by apply emits_silent. Qed.

Lemma emits_bind P {A B} (m : M A) (k : A → M B) :
  emits P m → (∀ a, emits P (k a)) → emits P (m ≫= k).
Proof.
  intros Hm Hk w. destruct (Hm w) as (t & Ht & Pt).
  unfold mbind, M_bind. destruct (m w) as [[a|e] w1]; simpl in *.
  - destruct (Hk a w1) as (t' & Ht' & Pt'). exists (t ++ t').
    rewrite Ht', Ht, app_assoc. split; [done|]. by apply Forall_app.
  - by exists t.
Qed.

Lemma emits_call (P : event → Prop) {A} f args kw (r : res A) :
  P (ECall f args kw) → emits P (call f args kw r).
Proof. intros HP w. exists [ECall f args kw]. split; [done|]. by constructor. Qed.

Lemma emits_call_st (P : event → Prop) {A} f args kw
    (body : heap → res A * heap) :
  P (ECall f args kw) → emits P (call_st f args kw body).
Proof.
  intros HP w. rewrite call_st_run. exists [ECall f args kw].
  split; [done|]. by constructor.
Qed.

Lemma emits_dict_new P : emits P dict_new.
Proof. by apply emits_silent. Qed.

Lemma emits_dict_read P l : emits P (dict_read l).
Proof. apply emits_silent. intros w. unfold dict_read. by case_match. Qed.

Lemma emits_dict_write P l d : emits P (dict_write l d).
Proof. by apply emits_silent. Qed.

Lemma emits_py_bool P v : emits P (py_bool v).
Proof. by apply emits_silent. Qed.

Ltac emits_step :=
  first
    [ apply emits_ret | apply emits_raise | apply emits_lift
    | apply emits_dict_new | apply emits_dict_read | apply emits_dict_write
    | apply emits_py_bool
    | apply emits_call; first [exact I | compute_done]
    | apply emits_call_st; first [exact I | compute_done]
    | apply emits_bind; [| intros ?]
    | case_match | case_decide ].

Ltac solve_emits := repeat emits_step.

Lemma emits_dict_get P l k : emits P (dict_get l k).
Proof. unfold dict_get. solve_emits. Qed.

Lemma emits_dict_set P l k v : emits P (dict_set l k v).
Proof. unfold dict_set. solve_emits. Qed.

Lemma emits_dict_pop P l k : emits P (dict_pop l k).
Proof. unfold dict_pop. solve_emits. Qed.

Lemma emits_dict_pop_default P l k v : emits P (dict_pop_default l k v).
Proof. unfold dict_pop_default. solve_emits. Qed.

Lemma emits_dict_setdefault P l k v : emits P (dict_setdefault l k v).
Proof. unfold dict_setdefault. solve_emits. Qed.

Lemma emits_setitem P t k v : emits P (setitem t k v).
Proof. unfold setitem. destruct t; first [apply emits_dict_set | apply emits_raise]. Qed.

Lemma emits_getitem P t k : emits P (getitem t k).
Proof. unfold getitem. destruct t; first [apply emits_dict_get | apply emits_raise]. Qed.

Lemma emits_pop_of P t k : emits P (pop_of t k).
Proof. unfold pop_of. destruct t; first [apply emits_dict_pop | apply emits_raise]. Qed.

Lemma emits_pop_default_of P t k v : emits P (pop_default_of t k v).
Proof.
  unfold pop_default_of.
  destruct t; first [apply emits_dict_pop_default | apply emits_raise].
Qed.

Lemma emits_setdefault_of P t k v : emits P (setdefault_of t k v).
Proof.
  unfold setdefault_of.
  destruct t; first [apply emits_dict_setdefault | apply emits_raise].
Qed.

Lemma emits_mapping_of P t : emits P (mapping_of t).
Proof.
  unfold mapping_of. destruct t; first [apply emits_dict_read | apply emits_raise].
Qed.

Lemma emits_local_get P d k : emits P (local_get d k).
Proof. unfold local_get. solve_emits. Qed.

Lemma emits_local_pop P d k : emits P (local_pop d k).
Proof. unfold local_pop. solve_emits. Qed.

Lemma emits_call_kw (P : event → Prop) f args explicit extra :
  (∀ kw, P (ECall f args kw)) → emits P (call_kw f args explicit extra).
Proof.
  intros HP. unfold call_kw. apply emits_bind; [apply emits_lift|].
  intros kw. by apply emits_call.
Qed.

Lemma emits_for_each P {A} (l : list A) (body : A → M unit) :
  (∀ x, emits P (body x)) → emits P (for_each l body).
Proof.
  intros Hb. induction l as [|x l IH]; simpl; [apply emits_ret|].
  apply emits_bind; [apply Hb|]. intros _. apply IH.
Qed.

Ltac emits_ops :=
  first
    [ apply emits_dict_get | apply emits_dict_set | apply emits_dict_pop
    | apply emits_dict_pop_default | apply emits_dict_setdefault
    | apply emits_setitem | apply emits_getitem | apply emits_pop_of
    | apply emits_pop_default_of | apply emits_setdefault_of
    | apply emits_mapping_of | apply emits_local_get | apply emits_local_pop
    | emits_step ].

(** A computation that begins with the call [e]. *)
Definition begins {A} (e : event) (m : M A) : Prop :=
  ∀ w, ∃ t, w_trace (m w).2 = w_trace w ++ e :: t.

Lemma begins_call_bind {A B} f args kw (r : res A) (k : A → M B) :
  (∀ a, grows (k a)) → begins (ECall f args kw) (call f args kw r ≫= k).
Proof.
  intros Hk w. destruct r as [a|e].
  - erewrite bind_ok by apply call_ok.
    destruct (Hk a (World (w_heap w) (w_trace w ++ [ECall f args kw])))
      as (t & Ht & _).
    exists t. rewrite Ht. simpl. by rewrite <- app_assoc.
  - erewrite bind_raise by apply call_raise. by exists [].
Qed.

Lemma begins_bind {A B} e (m : M A) (k : A → M B) :
  begins e m → (∀ a, grows (k a)) → begins e (m ≫= k).
Proof.
  intros Hm Hk w. destruct (Hm w) as [t Ht].
  unfold mbind, M_bind. destruct (m w) as [[a|x] w1]; simpl in *.
  - destruct (Hk a w1) as (t' & Ht' & _). exists (t ++ t').
    rewrite Ht', Ht. by rewrite <- !app_assoc.
  - by exists t.
Qed.

Lemma begins_changes {A} e (m : M A) w r :
  begins e m → m w ≠ (r, w).
Proof.
  intros Hb E. destruct (Hb w) as [t Ht]. rewrite E in Ht. simpl in Ht.
  apply (f_equal length) in Ht. rewrite length_app in Ht. simpl in Ht. lia.
Qed.

Section joint_properties.
Context `{Collaborators}.
Import jointplot.

Lemma grows_bokeh_joint_kwargs kw show : grows (bokeh_joint_kwargs kw show).
Proof. unfold bokeh_joint_kwargs. repeat emits_ops. Qed.

Lemma grows_joint_dispatch a kw :
  grows (if is_str "bokeh" (backend a)
         then kw' ← bokeh_joint_kwargs kw (show a);
              call_st "bokeh_jointplot._plot_joint" [] kw' (bokeh_plot_joint kw')
         else call_st "mpl_jointplot._plot_joint" [] kw (mpl_plot_joint kw)).
Proof.
  destruct (is_str _ _); [|by apply emits_call_st].
  apply emits_bind; [apply grows_bokeh_joint_kwargs|].
  intros; by apply emits_call_st.
Qed.

(** The first thing [plot_joint] does with a valid [kind] is to convert
    its input. *)
Lemma plot_joint_begins a :
  kind a ∈ valid_kinds →
  begins (ECall "convert_to_dataset" [data a] {["group" := VStr "posterior"]})
         (plot_joint a).
Proof.
  intros Hk. unfold plot_joint, plot_joint_kwargs_of.
  rewrite decide_True by done.
  apply begins_bind; [|intros; apply grows_joint_dispatch].
  apply begins_call_bind. intros ds. repeat emits_ops.
Qed.

(** C2. A [kind] outside "scatter", "kde", "hexbin" makes [plot_joint] raise
    [ValueError] (the InvalidArgument condition) at once: the world is the
    one the call started in, so no dictionary was touched and no function
    was called, the conversion of the data included.  Conversely the call
    ends this way for no other [kind]: with a valid one the data is
    converted first, which the trace records. *)
Theorem plot_joint_invalid_kind (a : args) (w : world) :
  kind a ∉ valid_kinds
  ↔ plot_joint a w = (Raise (ValueError (kind_message (kind a))), w).
Proof.
  split.
  - intros Hk. unfold plot_joint, plot_joint_kwargs_of.
    by rewrite decide_False.
  - intros E Hk. by eapply begins_changes; [apply plot_joint_begins|].
Qed.

(** *** Counting plot units *)

Lemma find_var_get_coords ds coords name v :
  plot_utils.find_var ds name = Ok v →
  ∃ v', plot_utils.find_var (plot_utils.get_coords ds coords) name = Ok v'
        ∧ da_name v' = da_name v
        ∧ (da_dims v = [] → da_dims v' = []).
Proof.
  unfold plot_utils.find_var, plot_utils.get_coords. simpl.
  induction (data_vars ds) as [|x xs IH]; simpl; [done|].
  case_bool_decide as Hn; simpl.
  - intros [= <-]. eexists. split; [done|]. simpl. split; [done|].
    by intros ->.
  - apply IH.
Qed.

Lemma units_of_names_scalars ds names ps :
  plot_utils.units_of_names ds true names = Ok ps →
  Forall (plot_utils.scalar_in ds) names →
  length ps = length names.
Proof.
  revert ps. induction names as [|n names IH]; intros ps; simpl.
  - by intros [= <-].
  - intros E Hs. inversion Hs as [|n' names' (v & Hv & Hd) Hs']; subst.
    rewrite Hv in E.
    destruct (plot_utils.units_of_names ds true names) as [us|]; [|done].
    injection E as <-. rewrite length_app, Hd. simpl. f_equal. by apply IH.
Qed.

Lemma scalar_in_get_coords ds coords name :
  plot_utils.scalar_in ds name →
  plot_utils.scalar_in (plot_utils.get_coords ds coords) name.
Proof.
  intros (v & Hv & Hd).
  destruct (find_var_get_coords ds coords name v Hv) as (v' & Hv' & _ & Hd').
  exists v'. auto.
Qed.

(** *** Runs of [plot_joint] *)

(** The events of lines 124-131. *)
Definition resolve_events (a : args) : list event :=
  [ECall "convert_to_dataset" [data a] {["group" := VStr "posterior"]};
   ECall "_var_names" [] ∅;
   ECall "get_coords" [] ∅;
   ECall "xarray_var_iter" [] {["combined" := VBool true]}].

Lemma plot_joint_kwargs_few_units a w ds vn ps :
  kind a ∈ valid_kinds →
  convert_to_dataset (data a) "posterior" = Ok ds →
  _var_names (var_names a) ds = Ok vn →
  plot_utils.xarray_var_iter
    (plot_utils.get_coords ds (default ∅ (coords a))) vn true = Ok ps →
  length ps ≠ 2%nat →
  plot_joint_kwargs_of a w
  = (Raise (PyException (count_message (length ps))),
     World (w_heap w) (w_trace w ++ resolve_events a)).
Proof.
  intros Hk Hc Hv Hi Hn. unfold plot_joint_kwargs_of.
  rewrite decide_True by done.
  rewrite Hc. erewrite bind_ok by apply call_ok. cbv beta zeta.
  rewrite Hv. erewrite bind_ok by apply call_ok. cbv beta.
  erewrite bind_ok by apply call_ok. cbv beta.
  rewrite Hi. erewrite bind_ok by apply call_ok. cbv beta.
  rewrite decide_True by done. unfold raise. simpl.
  by rewrite <- !app_assoc.
Qed.

Lemma plot_joint_few_units a w ds vn ps :
  kind a ∈ valid_kinds →
  convert_to_dataset (data a) "posterior" = Ok ds →
  _var_names (var_names a) ds = Ok vn →
  plot_utils.xarray_var_iter
    (plot_utils.get_coords ds (default ∅ (coords a))) vn true = Ok ps →
  length ps ≠ 2%nat →
  plot_joint a w
  = (Raise (PyException (count_message (length ps))),
     World (w_heap w) (w_trace w ++ resolve_events a)).
Proof.
  intros Hk Hc Hv Hi Hn. unfold plot_joint.
  erewrite bind_raise; [done|]. by eapply plot_joint_kwargs_few_units.
Qed.

(** The dictionary of an optional keyword bag: the caller's, or a new one. *)
Lemma default_dict_run (o : option loc) (w : world) :
  ∃ l h1,
    (match o with None => dict_new | Some l => mret l end) w
    = (Ok l, World h1 (w_trace w))
    ∧ w_heap w ⊆ h1
    ∧ match o with
      | Some l0 => l = l0 ∧ h1 = w_heap w
      | None => w_heap w !! l = None ∧ h1 = <[l := ∅]> (w_heap w)
      end.
Proof.
  destruct o as [l0|].
  - exists l0, (w_heap w). by destruct w.
  - exists (fresh (dom (w_heap w))), (<[fresh (dom (w_heap w)) := ∅]> (w_heap w)).
    assert (w_heap w !! fresh (dom (w_heap w)) = None) as Hf
      by (apply not_elem_of_dom, is_fresh).
    split; [done|]. split; [by apply insert_subseteq|done].
Qed.

Lemma dict_read_run l d w :
  w_heap w !! l = Some d → dict_read l w = (Ok d, w).
Proof. intros E. unfold dict_read. by rewrite E. Qed.

Lemma dict_get_run l k d v w :
  w_heap w !! l = Some d → d !! k = Some v → dict_get l k w = (Ok v, w).
Proof.
  intros E Ek. unfold dict_get.
  erewrite bind_ok by by apply dict_read_run. by rewrite Ek.
Qed.

Lemma dict_set_run l k v d w :
  w_heap w !! l = Some d →
  dict_set l k v w
  = (Ok tt, World (<[l := <[k := v]> d]> (w_heap w)) (w_trace w)).
Proof.
  intros E. unfold dict_set. by erewrite bind_ok by by apply dict_read_run.
Qed.

Lemma dict_pop_run l k v d w :
  w_heap w !! l = Some d → d !! k = Some v →
  dict_pop l k w
  = (Ok v, World (<[l := delete k d]> (w_heap w)) (w_trace w)).
Proof.
  intros E Ek. unfold dict_pop.
  erewrite bind_ok by by apply dict_read_run. by rewrite Ek.
Qed.

(** [d.setdefault(k, v)] leaves [d] with an entry for [k]: the one it had,
    or [v]. *)
Lemma dict_setdefault_run l k v d w :
  w_heap w !! l = Some d →
  dict_setdefault l k v w
  = (Ok (default v (d !! k)),
     World (<[l := <[k := default v (d !! k)]> d]> (w_heap w)) (w_trace w)).
Proof.
  intros E. unfold dict_setdefault.
  erewrite bind_ok by by apply dict_read_run.
  destruct (d !! k) as [v'|] eqn:Ek; simpl; [|done].
  unfold mret, M_ret. rewrite (insert_id d) by done.
  rewrite insert_id by done. by destruct w.
Qed.

(** The sizes [plot_joint] asks for, the events of lines 124-138, and the
    keyword bundle of lines 148-160. *)
Definition joint_sizes (a : args) : scaled :=
  _scale_fig_size (figsize a) (textsize a) 1 1.

Definition prepare_events (a : args) : list event :=
  resolve_events a ++ [ECall "_scale_fig_size" [figsize a; textsize a] ∅].

Definition joint_bundle (a : args) (ps : list PlotUnit) (jk mk : loc) : dict :=
  <["ax" := ax a]>
  (<["figsize" := sc_figsize (joint_sizes a)]>
  (<["plotters" := VPlotters ps]>
  (<["ax_labelsize" := sc_ax_labelsize (joint_sizes a)]>
  (<["xt_labelsize" := sc_xt_labelsize (joint_sizes a)]>
  (<["kind" := VStr (kind a)]>
  (<["contour" := contour a]>
  (<["fill_last" := fill_last a]>
  (<["joint_kwargs" := VDict jk]>
  (<["gridsize" := gridsize a]>
  (<["marginal_kwargs" := VDict mk]> ∅)))))))))).

(** A caller-supplied [marginal_kwargs] is a dictionary whose "plot_kwargs"
    entry, when it has one, is a dictionary too. *)
Definition marginal_ok (h : heap) (o : option loc) : Prop :=
  match o with
  | None => True
  | Some l =>
      ∃ d, h !! l = Some d ∧
           match d !! "plot_kwargs" with
           | None => True
           | Some (VDict pk) => is_Some (h !! pk)
           | Some _ => False
           end
  end.

(** What lines 118-160 leave behind when they succeed: the bundle, and a
    heap [h'] in which [marginal_kwargs] ([mk], with content [d] before)
    has a "plot_kwargs" entry [pk] whose dictionary ([dpk] before) holds
    the line width. *)
Record prepared (a : args) (w : world) (ps : list PlotUnit)
    (jk mk pk : loc) (d dpk : dict) (h2 : heap) : Prop := Prepared {
  prep_sub : w_heap w ⊆ h2;
  prep_fresh : h2 !! fresh (dom h2) = None;
  prep_mk : h2 !! mk = Some d;
  prep_pk :
    <[mk := <["plot_kwargs" := VDict pk]> d]> (<[fresh (dom h2) := ∅]> h2) !! pk
    = Some dpk;
  prep_marginal :
    match marginal_kwargs a with
    | Some l => mk = l ∧ w_heap w !! l = Some d
    | None => w_heap w !! mk = None ∧ d = ∅
    end;
  prep_joint :
    match joint_kwargs a with
    | Some l => jk = l
    | None => w_heap w !! jk = None
    end;
  prep_entry :
    match d !! "plot_kwargs" with
    | None => pk = fresh (dom h2)
    | Some v => v = VDict pk ∧ is_Some (w_heap w !! pk)
    end
}.

Definition prepared_heap (a : args) (mk pk : loc) (d dpk : dict) (h2 : heap)
    : heap :=
  <[pk := <["linewidth" := sc_linewidth (joint_sizes a)]> dpk]>
    (<[mk := <["plot_kwargs" := VDict pk]> d]> (<[fresh (dom h2) := ∅]> h2)).

Lemma plot_joint_kwargs_run a w ds vn ps :
  kind a ∈ valid_kinds →
  convert_to_dataset (data a) "posterior" = Ok ds →
  _var_names (var_names a) ds = Ok vn →
  plot_utils.xarray_var_iter
    (plot_utils.get_coords ds (default ∅ (coords a))) vn true = Ok ps →
  length ps = 2%nat →
  marginal_ok (w_heap w) (marginal_kwargs a) →
  ∃ jk mk pk d dpk h2,
    prepared a w ps jk mk pk d dpk h2 ∧
    plot_joint_kwargs_of a w
    = (Ok (joint_bundle a ps jk mk),
       World (prepared_heap a mk pk d dpk h2) (w_trace w ++ prepare_events a)).
Proof.
  intros Hk Hc Hv Hi Hn Hm. unfold plot_joint_kwargs_of.
  rewrite decide_True by done.
  rewrite Hc. erewrite bind_ok by apply call_ok. cbv beta zeta.
  rewrite Hv. erewrite bind_ok by apply call_ok. cbv beta.
  erewrite bind_ok by apply call_ok. cbv beta.
  rewrite Hi. erewrite bind_ok by apply call_ok. cbv beta.
  rewrite decide_False by (by intros ?).
  erewrite bind_ok by apply call_ok. cbv beta. simpl w_heap. simpl w_trace.
  assert (∀ e1 e2 e3 e4 e5 : event,
            ((((w_trace w ++ [e1]) ++ [e2]) ++ [e3]) ++ [e4]) ++ [e5]
            = w_trace w ++ [e1; e2; e3; e4; e5]) as Et
    by (intros; by rewrite <- !app_assoc).
  rewrite Et. clear Et.
  change (w_trace w ++ [_; _; _; _; _]) with (w_trace w ++ prepare_events a).
  set (t := w_trace w ++ _).
  destruct (default_dict_run (joint_kwargs a) (World (w_heap w) t))
    as (jk & h1 & E1 & Hs1 & Hj). simpl in E1, Hs1, Hj.
  erewrite bind_ok by exact E1. cbv beta.
  destruct (default_dict_run (marginal_kwargs a) (World h1 t))
    as (mk & h2 & E2 & Hs2 & Hmk). simpl in E2, Hs2, Hmk.
  erewrite bind_ok by exact E2. cbv beta.
  set (l3 := fresh (dom h2)).
  assert (h2 !! l3 = None) as Hl3 by apply not_elem_of_dom, is_fresh.
  erewrite bind_ok by reflexivity. cbv beta. simpl w_heap. simpl w_trace.
  fold l3.
  (* the content of marginal_kwargs *)
  assert (∃ d, h2 !! mk = Some d ∧
               match marginal_kwargs a with
               | Some l => mk = l ∧ w_heap w !! l = Some d
               | None => w_heap w !! mk = None ∧ d = ∅
               end ∧
               match d !! "plot_kwargs" with
               | None => True
               | Some (VDict pk) => is_Some (w_heap w !! pk)
               | Some _ => False
               end) as (d & Hd & Hdm & Hdp).
  { unfold marginal_ok in Hm. destruct (marginal_kwargs a) as [l|].
    - destruct Hmk as [-> ->]. destruct Hm as (d & Hl & Hp).
      exists d. split; [|done].
      eapply lookup_weaken; [exact Hl|]. done.
    - destruct Hmk as [Hnone ->]. exists ∅. rewrite lookup_insert_eq.
      split; [done|]. split; [|done]. split; [|done].
      destruct (w_heap w !! mk) eqn:E; [|done].
      eapply lookup_weaken in E; [|exact Hs1]. congruence. }
  assert (mk ≠ l3) as Hne by congruence.
  erewrite bind_ok; cycle 1.
  { apply dict_setdefault_run. simpl. by rewrite lookup_insert_ne. }
  cbv beta. simpl w_heap. simpl w_trace.
  set (v := default (VDict l3) (d !! "plot_kwargs")).
  erewrite bind_ok; cycle 1.
  { eapply dict_get_run; simpl.
    - apply lookup_insert_eq.
    - apply lookup_insert_eq. }
  cbv beta.
  assert (∃ pk, v = VDict pk ∧
                match d !! "plot_kwargs" with
                | None => pk = l3
                | Some v => v = VDict pk ∧ is_Some (w_heap w !! pk)
                end) as (pk & Hv' & Hpk).
  { subst v. destruct (d !! "plot_kwargs") as [[]|]; simpl; try done;
      eexists; eauto. }
  clearbody v. subst v.
  set (h4 := <[mk := _]> (<[l3 := ∅]> h2)).
  assert (∃ dpk, h4 !! pk = Some dpk) as [dpk Hdpk].
  { subst h4. destruct (decide (mk = pk)) as [->|Hne'].
    - rewrite lookup_insert_eq. eauto.
    - rewrite lookup_insert_ne by done.
      destruct (d !! "plot_kwargs") as [u|].
      + destruct Hpk as [_ [x Hx]]. exists x.
        rewrite lookup_insert_ne.
        * eapply lookup_weaken; [exact Hx|]. by etrans.
        * intros <-. eapply lookup_weaken in Hx; [|by etrans]. congruence.
      + subst pk. rewrite lookup_insert_eq. eauto. }
  erewrite bind_ok; cycle 1.
  { simpl. eapply dict_set_run. simpl. exact Hdpk. }
  exists jk, mk, pk, d, dpk, h2. split; [|done].
  split; try done.
  - by etrans.
  - destruct (joint_kwargs a); [by destruct Hj|]. by destruct Hj.
Qed.

Lemma prepared_heap_pk a w ps jk mk pk d dpk h2 :
  prepared a w ps jk mk pk d dpk h2 →
  prepared_heap a mk pk d dpk h2 !! pk
  = Some (<["linewidth" := sc_linewidth (joint_sizes a)]> dpk).
Proof. intros _. unfold prepared_heap. apply lookup_insert_eq. Qed.

Lemma prepared_heap_mk a w ps jk mk pk d dpk h2 :
  prepared a w ps jk mk pk d dpk h2 →
  ∃ dmk, prepared_heap a mk pk d dpk h2 !! mk = Some dmk
         ∧ dmk !! "plot_kwargs" = Some (VDict pk)
         ∧ (mk ≠ pk → dmk = <["plot_kwargs" := VDict pk]> d).
Proof.
  intros P. unfold prepared_heap. destruct (decide (mk = pk)) as [->|Hne].
  - eexists. rewrite lookup_insert_eq. split; [done|]. split; [|done].
    pose proof (prep_pk _ _ _ _ _ _ _ _ _ P) as E.
    rewrite lookup_insert_eq in E. injection E as <-.
    rewrite lookup_insert_ne by done. apply lookup_insert_eq.
  - eexists. rewrite lookup_insert_ne by done. rewrite lookup_insert_eq.
    split; [done|]. split; [|done]. apply lookup_insert_eq.
Qed.

(** The heap the bokeh backend is called in. *)
Definition bokeh_heap (a : args) (mk pk : loc) (d dpk : dict) (h2 : heap)
    : heap :=
  <[pk := <["line_width" := sc_linewidth (joint_sizes a)]>
            (delete "linewidth" dpk)]>
    (<[mk := <["plot_kwargs" := VDict pk]> d]> (<[fresh (dom h2) := ∅]> h2)).

Lemma bokeh_joint_kwargs_run a w ps jk mk pk d dpk h2 t :
  prepared a w ps jk mk pk d dpk h2 →
  bokeh_joint_kwargs (joint_bundle a ps jk mk) (show a)
    (World (prepared_heap a mk pk d dpk h2) t)
  = (Ok (<["show" := show a]> (delete "ax_labelsize" (joint_bundle a ps jk mk))),
     World (bokeh_heap a mk pk d dpk h2) t).
Proof.
  intros P. unfold bokeh_joint_kwargs.
  destruct (prepared_heap_mk _ _ _ _ _ _ _ _ _ P) as (dmk & Hmk & Hpk & _).
  pose proof (prepared_heap_pk _ _ _ _ _ _ _ _ _ P) as Hlw.
  erewrite bind_ok by reflexivity. cbv beta iota.
  erewrite bind_ok by reflexivity. cbv beta.
  erewrite bind_ok by (eapply dict_get_run; [exact Hmk|exact Hpk]). cbv beta.
  erewrite bind_ok; cycle 1.
  { eapply dict_pop_run; [exact Hlw|]. apply lookup_insert_eq. }
  cbv beta. rewrite delete_insert_eq.
  set (h' := <[pk := delete "linewidth" dpk]> (prepared_heap a mk pk d dpk h2)).
  erewrite bind_ok by reflexivity. cbv beta.
  assert (∃ dmk', h' !! mk = Some dmk' ∧ dmk' !! "plot_kwargs" = Some (VDict pk))
    as (dmk' & Hmk' & Hpk').
  { subst h'. destruct (decide (mk = pk)) as [->|Hne].
    - rewrite lookup_insert_eq. eexists. split; [done|].
      rewrite lookup_delete_ne by done.
      rewrite Hmk in Hlw. injection Hlw as ->.
      by rewrite lookup_insert_ne in Hpk by done.
    - rewrite lookup_insert_ne by done. eauto. }
  erewrite bind_ok by (eapply dict_get_run; [exact Hmk'|exact Hpk']). cbv beta.
  erewrite bind_ok; cycle 1.
  { eapply dict_set_run. subst h'. apply lookup_insert_eq. }
  cbv beta. simpl. unfold mret, M_ret. f_equal. f_equal.
  subst h'. unfold bokeh_heap, prepared_heap. by rewrite !insert_insert_eq.
Qed.

(** C1, as the code has it.  When [kind] is valid and the request resolves
    to a number of plot units other than two, [plot_joint] raises
    [Exception] (the CardinalityError condition) with the message
    "Number of variables to be plotted must 2 (you supplied n)", [n] being
    the number of plot units, and leaves every dictionary as it was.  A
    plot unit is a variable together with one combination of its
    coordinates, so for scalar variables [n] is the number of names
    requested: one name reports 1, three names report 3. *)
Theorem plot_joint_cardinality (a : args) (w : world) ds vn ps :
  kind a ∈ valid_kinds →
  convert_to_dataset (data a) "posterior" = Ok ds →
  _var_names (var_names a) ds = Ok vn →
  plot_utils.xarray_var_iter
    (plot_utils.get_coords ds (default ∅ (coords a))) vn true = Ok ps →
  length ps ≠ 2%nat →
  (plot_joint a w).1 = Raise (PyException (count_message (length ps)))
  ∧ w_heap (plot_joint a w).2 = w_heap w
  ∧ (∀ names, vn = Some names →
       Forall (plot_utils.scalar_in ds) names → length ps = length names).
Proof.
  intros Hk Hc Hv Hi Hn.
  rewrite (plot_joint_few_units a w ds vn ps) by done.
  split; [done|]. split; [done|].
  intros names -> Hs. unfold plot_utils.xarray_var_iter in Hi. simpl in Hi.
  apply (units_of_names_scalars _ _ _ Hi).
  eapply Forall_impl; [|exact Hs]. intros n. apply scalar_in_get_coords.
Qed.

(** *** The call of the backend *)

(** The request resolves: [kind] is valid and the collaborators turn the
    input into the plot units [ps]. *)
Definition joint_resolves (a : args) (ds : Dataset)
    (vn : option (list string)) (ps : list PlotUnit) : Prop :=
  kind a ∈ valid_kinds ∧
  convert_to_dataset (data a) "posterior" = Ok ds ∧
  _var_names (var_names a) ds = Ok vn ∧
  plot_utils.xarray_var_iter
    (plot_utils.get_coords ds (default ∅ (coords a))) vn true = Ok ps.

Definition is_bokeh (v : val) : bool := is_str "bokeh" v.

Definition joint_backend_name (a : args) : string :=
  if is_bokeh (backend a) then "bokeh_jointplot._plot_joint"
  else "mpl_jointplot._plot_joint".

Definition joint_backend (a : args) : dict → heap → res val * heap :=
  if is_bokeh (backend a) then bokeh_plot_joint else mpl_plot_joint.

(** The bundle and the heap the backend is called with. *)
Definition joint_backend_kwargs (a : args) (ps : list PlotUnit)
    (jk mk : loc) : dict :=
  if is_bokeh (backend a)
  then <["show" := show a]> (delete "ax_labelsize" (joint_bundle a ps jk mk))
  else joint_bundle a ps jk mk.

Definition joint_backend_heap (a : args) (mk pk : loc) (d dpk : dict)
    (h2 : heap) : heap :=
  if is_bokeh (backend a) then bokeh_heap a mk pk d dpk h2
  else prepared_heap a mk pk d dpk h2.

Lemma plot_joint_reaches a w ds vn ps :
  joint_resolves a ds vn ps →
  length ps = 2%nat →
  marginal_ok (w_heap w) (marginal_kwargs a) →
  ∃ jk mk pk d dpk h2,
    prepared a w ps jk mk pk d dpk h2 ∧
    plot_joint a w
    = call_st (joint_backend_name a) [] (joint_backend_kwargs a ps jk mk)
        (joint_backend a (joint_backend_kwargs a ps jk mk))
        (World (joint_backend_heap a mk pk d dpk h2)
               (w_trace w ++ prepare_events a)).
Proof.
  intros (Hk & Hc & Hv & Hi) Hn Hm.
  destruct (plot_joint_kwargs_run a w ds vn ps Hk Hc Hv Hi Hn Hm)
    as (jk & mk & pk & d & dpk & h2 & P & E).
  exists jk, mk, pk, d, dpk, h2. split; [done|].
  unfold plot_joint. erewrite bind_ok by exact E. cbv beta.
  unfold joint_backend_name, joint_backend, joint_backend_kwargs,
    joint_backend_heap, is_bokeh.
  destruct (is_str "bokeh" (backend a)); [|done].
  by erewrite bind_ok by by eapply bokeh_joint_kwargs_run.
Qed.

(** Dictionaries of the caller other than [marginal_kwargs] and its
    "plot_kwargs" entry are as they were when the backend is called. *)
Lemma joint_backend_heap_frame a w ps jk mk pk d dpk h2 l :
  prepared a w ps jk mk pk d dpk h2 →
  is_Some (w_heap w !! l) → l ≠ mk → l ≠ pk →
  joint_backend_heap a mk pk d dpk h2 !! l = w_heap w !! l.
Proof.
  intros P [x Hx] Hmk Hpk.
  assert (h2 !! l = Some x) as Hx2
    by (eapply lookup_weaken; [exact Hx|apply (prep_sub _ _ _ _ _ _ _ _ _ P)]).
  assert (l ≠ fresh (dom h2)) as Hf.
  { intros ->. rewrite (prep_fresh _ _ _ _ _ _ _ _ _ P) in Hx2. done. }
  unfold joint_backend_heap, bokeh_heap, prepared_heap.
  destruct (is_bokeh _); rewrite !lookup_insert_ne by done; congruence.
Qed.

(** Without a caller-supplied [marginal_kwargs], both dictionaries written
    are new ones. *)
Lemma prepared_fresh a w ps jk mk pk d dpk h2 :
  prepared a w ps jk mk pk d dpk h2 →
  marginal_kwargs a = None →
  w_heap w !! mk = None ∧ w_heap w !! pk = None.
Proof.
  intros P E. pose proof (prep_marginal _ _ _ _ _ _ _ _ _ P) as Hm.
  pose proof (prep_entry _ _ _ _ _ _ _ _ _ P) as He.
  rewrite E in Hm. destruct Hm as [Hmk ->]. split; [done|].
  rewrite lookup_empty in He. subst pk.
  destruct (w_heap w !! fresh (dom h2)) eqn:Ef; [|done].
  eapply lookup_weaken in Ef; [|apply (prep_sub _ _ _ _ _ _ _ _ _ P)].
  rewrite (prep_fresh _ _ _ _ _ _ _ _ _ P) in Ef. done.
Qed.

(** What the backend finds in [marginal_kwargs]: a "plot_kwargs" entry
    whose dictionary holds the line width under the backend's key. *)
Lemma joint_backend_heap_marginal a w ps jk mk pk d dpk h2 :
  prepared a w ps jk mk pk d dpk h2 →
  ∃ dmk dpk',
    joint_backend_heap a mk pk d dpk h2 !! mk = Some dmk ∧
    dmk !! "plot_kwargs" = Some (VDict pk) ∧
    joint_backend_heap a mk pk d dpk h2 !! pk = Some dpk' ∧
    if is_bokeh (backend a)
    then dpk' !! "line_width" = Some (sc_linewidth (joint_sizes a)) ∧
         dpk' !! "linewidth" = None
    else dpk' !! "linewidth" = Some (sc_linewidth (joint_sizes a)).
Proof.
  intros P. unfold joint_backend_heap.
  destruct (prepared_heap_mk _ _ _ _ _ _ _ _ _ P) as (dmk & Hmk & Hpk & Hd).
  destruct (is_bokeh (backend a)).
  - unfold bokeh_heap. destruct (decide (mk = pk)) as [->|Hne].
    + eexists _, _. rewrite lookup_insert_eq. split; [done|].
      pose proof (prep_pk _ _ _ _ _ _ _ _ _ P) as E.
      rewrite lookup_insert_eq in E. injection E as <-.
      rewrite lookup_insert_ne by done. rewrite lookup_delete_ne by done.
      rewrite lookup_insert_eq. split; [done|]. split; [done|].
      rewrite lookup_insert_eq. rewrite lookup_insert_ne by done.
      by rewrite lookup_delete_eq.
    + exists (<["plot_kwargs" := VDict pk]> d),
        (<["line_width" := sc_linewidth (joint_sizes a)]> (delete "linewidth" dpk)).
      rewrite lookup_insert_ne by done. rewrite !lookup_insert_eq.
      split; [done|]. split; [done|]. split; [done|]. split; [done|].
      rewrite lookup_insert_ne by done. by rewrite lookup_delete_eq.
  - exists dmk, (<["linewidth" := sc_linewidth (joint_sizes a)]> dpk).
    split; [done|]. split; [done|].
    split; [by eapply prepared_heap_pk|]. apply lookup_insert_eq.
Qed.

End joint_properties.

Section autocorr_properties.
Context `{Collaborators}.
Import autocorrplot.

(** The lag bound in force: the caller's, or [min(100, draws)]. *)
Definition effective_max_lag (a : args) (ds : Dataset) : val :=
  match max_lag a with
  | VNone => VInt (100 `min` Z.of_nat (ds_draws ds))
  | v => v
  end.

Definition autocorr_plotters (us : list PlotUnit) : list PlotUnit :=
  filter_plotters_list us "plot_autocorr".

Definition autocorr_sizes (a : args) (us : list PlotUnit) : scaled :=
  _scale_fig_size (figsize a) (textsize a)
    (default_grid (length (autocorr_plotters us))).1
    (default_grid (length (autocorr_plotters us))).2.

(** The keyword bundle of lines 125-133. *)
Definition autocorr_bundle (a : args) (ds : Dataset) (us : list PlotUnit)
    (axes : val) : dict :=
  <["axes" := axes]>
  (<["plotters" := VPlotters (autocorr_plotters us)]>
  (<["max_lag" := effective_max_lag a ds]>
  (<["combined" := VBool (combined a)]>
  (<["linewidth" := sc_linewidth (autocorr_sizes a us)]>
  (<["xt_labelsize" := sc_xt_labelsize (autocorr_sizes a us)]>
  (<["titlesize" := sc_titlesize (autocorr_sizes a us)]> ∅)))))).

(** The keywords of the [_create_axes_grid] call of lines 110-119, and
    that call: the grid made for the plot units [us]. *)
Definition grid_kwargs (a : args) (us : list PlotUnit) : dict :=
  <["figsize" := sc_figsize (autocorr_sizes a us)]>
  (<["squeeze" := VBool false]>
  (<["sharex" := VBool true]>
  (<["sharey" := VBool true]>
  (<["backend" := backend a]> ∅)))).

Definition grid_of (a : args) (us : list PlotUnit) : res (val * val) :=
  _create_axes_grid (length (autocorr_plotters us))
    (default_grid (length (autocorr_plotters us))).1
    (default_grid (length (autocorr_plotters us))).2
    (grid_kwargs a us).

Lemma axes_run a us w :
  (ax a = VNone → ∃ fa, grid_of a us = Ok fa) →
  ∃ axes t,
    (match ax a with
     | VNone =>
         '(_, axes) ← call "_create_axes_grid" [] (grid_kwargs a us)
                        (grid_of a us);
         mret axes
     | ax => mret ax
     end) w = (Ok axes, World (w_heap w) (w_trace w ++ t)).
Proof.
  intros Hfa.
  destruct (ax a) eqn:Eax;
    try (eexists _, []; unfold mret, M_ret; rewrite app_nil_r; by destruct w).
  destruct (Hfa eq_refl) as [[fig axes] E].
  eexists _, _. rewrite E. erewrite bind_ok by apply call_ok. reflexivity.
Qed.

Lemma autocorr_plot_args_run a w ds vn us :
  convert_to_dataset (data a) "posterior" = Ok ds →
  _var_names (var_names a) ds = Ok vn →
  plot_utils.xarray_var_iter ds vn (combined a) = Ok us →
  (ax a = VNone → ∃ fa, grid_of a us = Ok fa) →
  ∃ axes t,
    autocorr_plot_args_of a w
    = (Ok (autocorr_bundle a ds us axes), World (w_heap w) (w_trace w ++ t)).
Proof.
  intros Hc Hv Hi Hax. unfold autocorr_plot_args_of.
  rewrite Hc. erewrite bind_ok by apply call_ok. cbv beta zeta.
  rewrite Hv. erewrite bind_ok by apply call_ok. cbv beta.
  rewrite Hi. erewrite bind_ok by apply call_ok. cbv beta.
  erewrite bind_ok by apply call_ok. cbv beta.
  erewrite bind_ok by apply call_ok. cbv beta.
  pose proof (λ w1, axes_run a us w1 Hax) as Hrun.
  unfold grid_of, grid_kwargs, autocorr_bundle, autocorr_sizes,
    autocorr_plotters in *.
  destruct (default_grid _) as [rows cols]. cbn [fst snd] in *.
  erewrite bind_ok by apply call_ok. cbv beta. simpl w_heap. simpl w_trace.
  match goal with
  | |- context [(_ ≫= _) ?w1] => destruct (Hrun w1) as (axes & t & E)
  end.
  erewrite bind_ok by exact E. cbv beta.
  erewrite bind_ok by apply call_ok. cbv beta. simpl.
  eexists _, _. unfold mret, M_ret. rewrite <- !app_assoc. reflexivity.
Qed.

(** Lines 138-141 on the bundle of lines 125-133. *)
Lemma bokeh_autocorr_args_run a ds us axes w :
  bokeh_autocorr_args (autocorr_bundle a ds us axes) (show a) w
  = (Ok (<["show" := show a]>
         (<["line_width" := sc_linewidth (autocorr_sizes a us)]>
         (delete "linewidth" (delete "titlesize" (delete "xt_labelsize"
            (autocorr_bundle a ds us axes)))))), w).
Proof. reflexivity. Qed.

(** The request resolves: the collaborators turn the input into plot
    units and, when the caller passed no axes, the grid of lines 110-119
    can be made for them. *)
Definition autocorr_resolves (a : args) (ds : Dataset)
    (vn : option (list string)) (us : list PlotUnit) : Prop :=
  convert_to_dataset (data a) "posterior" = Ok ds ∧
  _var_names (var_names a) ds = Ok vn ∧
  plot_utils.xarray_var_iter ds vn (combined a) = Ok us ∧
  (ax a = VNone → ∃ fa, grid_of a us = Ok fa).

Definition autocorr_backend_name (a : args) : string :=
  if is_bokeh (backend a) then "bokeh_autocorrplot._plot_autocorr"
  else "mpl_autocorrplot._plot_autocorr".

Definition autocorr_backend (a : args) : dict → heap → res val * heap :=
  if is_bokeh (backend a) then bokeh_plot_autocorr else mpl_plot_autocorr.

(** The bundle the backend is called with. *)
Definition autocorr_backend_kwargs (a : args) (ds : Dataset)
    (us : list PlotUnit) (axes : val) : dict :=
  if is_bokeh (backend a)
  then <["show" := show a]>
       (<["line_width" := sc_linewidth (autocorr_sizes a us)]>
       (delete "linewidth" (delete "titlesize" (delete "xt_labelsize"
          (autocorr_bundle a ds us axes)))))
  else autocorr_bundle a ds us axes.

Lemma plot_autocorr_reaches a w ds vn us :
  autocorr_resolves a ds vn us →
  ∃ axes t,
    plot_autocorr a w
    = call_st (autocorr_backend_name a) []
        (autocorr_backend_kwargs a ds us axes)
        (autocorr_backend a (autocorr_backend_kwargs a ds us axes))
        (World (w_heap w) (w_trace w ++ t)).
Proof.
  intros (Hc & Hv & Hi & Hax).
  destruct (autocorr_plot_args_run a w ds vn us Hc Hv Hi Hax) as (axes & t & E).
  exists axes, t. unfold plot_autocorr. erewrite bind_ok by exact E. cbv beta.
  unfold autocorr_backend_name, autocorr_backend, autocorr_backend_kwargs,
    is_bokeh.
  destruct (is_str "bokeh" (backend a)); [|done].
  by erewrite bind_ok by apply bokeh_autocorr_args_run.
Qed.

Lemma last_call_st {A} f kw (body : heap → res A * heap) w :
  list.last (w_trace (call_st f [] kw body w).2) = Some (ECall f [] kw).
Proof. rewrite call_st_run. simpl. apply last_snoc. Qed.

(** C3. Whichever backend draws, the bundle [plot_autocorr] calls it with
    carries under "max_lag" the caller's value when one was given, and
    [min(100, draws)] of the converted data when [max_lag] is [None]: 50
    for 50 draws, 100 for 500 draws. *)
Theorem plot_autocorr_max_lag (a : args) (w : world) ds vn us :
  autocorr_resolves a ds vn us →
  ∃ kw,
    list.last (w_trace (plot_autocorr a w).2)
    = Some (ECall (autocorr_backend_name a) [] kw) ∧
    kw !! "max_lag"
    = Some (match max_lag a with
            | VNone => VInt (100 `min` Z.of_nat (ds_draws ds))
            | v => v
            end) ∧
    (max_lag a = VNone → ds_draws ds = 50%nat →
     kw !! "max_lag" = Some (VInt 50)) ∧
    (max_lag a = VNone → ds_draws ds = 500%nat →
     kw !! "max_lag" = Some (VInt 100)).
Proof.
  intros R. destruct (plot_autocorr_reaches a w ds vn us R) as (axes & t & E).
  exists (autocorr_backend_kwargs a ds us axes). rewrite E.
  split; [apply last_call_st|].
  assert (autocorr_backend_kwargs a ds us axes !! "max_lag"
          = Some (effective_max_lag a ds)) as Hl.
  { unfold autocorr_backend_kwargs. by destruct (is_bokeh _). }
  rewrite Hl. unfold effective_max_lag.
  split; [done|]. split; intros -> ->; done.
Qed.

End autocorr_properties.

Lemma plot_autocorr_max_lag_witness :
  autocorr_resolves (H := stubs) (example_autocorr 50 VNone VNone)
    (example_dataset 50) None
    (data_vars (example_dataset 50) ≫= plot_utils.units_of (H := stubs) 1 false) ∧
  ∃ kw,
    list.last (w_trace (autocorrplot.plot_autocorr (H := stubs)
                          (example_autocorr 50 VNone VNone) example_world).2)
    = Some (ECall "mpl_autocorrplot._plot_autocorr" [] kw) ∧
    kw !! "max_lag" = Some (VInt 50).
Proof.
  assert (autocorr_resolves (H := stubs) (example_autocorr 50 VNone VNone)
            (example_dataset 50) None
            (data_vars (example_dataset 50)
               ≫= plot_utils.units_of (H := stubs) 1 false)) as R.
  { split; [reflexivity|]. split; [reflexivity|]. split; [by vm_compute|].
    intros. eexists. reflexivity. }
  split; [exact R|].
  destruct (plot_autocorr_max_lag (H := stubs)
              (example_autocorr 50 VNone VNone) example_world _ _ _ R)
    as (kw & Hl & Hm & _).
  exists kw. split; [exact Hl|exact Hm].
Defined.

Section dispatch_properties.
Context `{Collaborators}.

Lemma is_bokeh_false v : v ≠ VStr "bokeh" → is_bokeh v = false.
Proof.
  intros Hv. unfold is_bokeh, is_str. destruct v; try done.
  case_bool_decide; [|done]. congruence.
Qed.

(** C9. A backend selector other than the string "bokeh" ([None], or any
    other string or object) sends [plot_joint] and [plot_autocorr] to the
    matplotlib entry point, with the bundle as prepared: each function is
    its preparation followed by that call.  So when the preparation goes
    through, the outcome is the one of the matplotlib entry point, and
    the selector's value makes no call fail. *)
Theorem other_backends_use_matplotlib
    (ja : jointplot.args) (aa : autocorrplot.args) :
  jointplot.backend ja ≠ VStr "bokeh" →
  autocorrplot.backend aa ≠ VStr "bokeh" →
  jointplot.plot_joint ja
  = (kw ← jointplot.plot_joint_kwargs_of ja;
     call_st "mpl_jointplot._plot_joint" [] kw (mpl_plot_joint kw)) ∧
  autocorrplot.plot_autocorr aa
  = (kw ← autocorrplot.autocorr_plot_args_of aa;
     call_st "mpl_autocorrplot._plot_autocorr" [] kw (mpl_plot_autocorr kw)) ∧
  (∀ w ds vn ps,
     joint_resolves ja ds vn ps → length ps = 2%nat →
     marginal_ok (w_heap w) (jointplot.marginal_kwargs ja) →
     ∃ kw h,
       (jointplot.plot_joint ja w).1 = (mpl_plot_joint kw h).1 ∧
       list.last (w_trace (jointplot.plot_joint ja w).2)
       = Some (ECall "mpl_jointplot._plot_joint" [] kw)) ∧
  (∀ w ds vn us,
     autocorr_resolves aa ds vn us →
     ∃ kw h,
       (autocorrplot.plot_autocorr aa w).1 = (mpl_plot_autocorr kw h).1 ∧
       list.last (w_trace (autocorrplot.plot_autocorr aa w).2)
       = Some (ECall "mpl_autocorrplot._plot_autocorr" [] kw)).
Proof.
  intros Hj Ha. apply is_bokeh_false in Hj, Ha. unfold is_bokeh in *.
  split; [|split; [|split]].
  - unfold jointplot.plot_joint. by rewrite Hj.
  - unfold autocorrplot.plot_autocorr. by rewrite Ha.
  - intros w ds vn ps R Hn Hm.
    destruct (plot_joint_reaches ja w ds vn ps R Hn Hm)
      as (jk & mk & pk & d & dpk & h2 & _ & E).
    rewrite E. unfold joint_backend_name, joint_backend, is_bokeh.
    rewrite Hj. eexists _, _. rewrite call_st_run. simpl.
    split; [reflexivity|]. apply last_snoc.
  - intros w ds vn us R.
    destruct (plot_autocorr_reaches aa w ds vn us R) as (axes & t & E).
    rewrite E. unfold autocorr_backend_name, autocorr_backend, is_bokeh.
    rewrite Ha. eexists _, _. rewrite call_st_run. simpl.
    split; [reflexivity|]. apply last_snoc.
Qed.

End dispatch_properties.

Lemma other_backends_use_matplotlib_witness :
  (jointplot.plot_joint (H := stubs)
     (example_joint "kde" ["mu"; "tau"] None (VStr "bogus")) example_world).1
  = Ok (VObj 4%positive) ∧
  (autocorrplot.plot_autocorr (H := stubs)
     (example_autocorr 50 VNone VNone) example_world).1
  = Ok (VObj 6%positive) ∧
  jointplot.plot_joint (H := stubs)
    (example_joint "kde" ["mu"; "tau"] None (VStr "bogus"))
  = (kw ← jointplot.plot_joint_kwargs_of (H := stubs)
            (example_joint "kde" ["mu"; "tau"] None (VStr "bogus"));
     call_st "mpl_jointplot._plot_joint" [] kw (mpl_plot_joint (Collaborators := stubs) kw)).
Proof.
  split; [by vm_compute|]. split; [by vm_compute|].
  refine (proj1 (other_backends_use_matplotlib (H := stubs)
            (example_joint "kde" ["mu"; "tau"] None (VStr "bogus"))
            (example_autocorr 50 VNone VNone) _ _)); done.
Defined.

Section joint_effects.
Context `{Collaborators}.
Import jointplot.

(** C8, as the code has it.  When [plot_joint] reaches its backend it has
    written to two dictionaries only: [marginal_kwargs] ([mk]: the
    caller's when one was passed, in which case it is updated in place)
    now has a "plot_kwargs" entry, and the dictionary [pk] of that entry
    holds the line width, under "linewidth" for matplotlib and under
    "line_width" for bokeh.  Every other dictionary of the caller,
    [joint_kwargs] included unless it is one of these two objects, is as
    it was; and without a caller-supplied [marginal_kwargs] the two
    dictionaries written are new, so nothing of the caller's changed. *)
Theorem plot_joint_kwargs_effects (a : args) (w : world) ds vn ps :
  joint_resolves a ds vn ps →
  length ps = 2%nat →
  marginal_ok (w_heap w) (marginal_kwargs a) →
  ∃ kw h jk mk pk dmk dpk,
    plot_joint a w
    = call_st (joint_backend_name a) [] kw (joint_backend a kw)
        (World h (w_trace w ++ prepare_events a)) ∧
    kw !! "joint_kwargs" = Some (VDict jk) ∧
    kw !! "marginal_kwargs" = Some (VDict mk) ∧
    match joint_kwargs a with
    | Some l => jk = l
    | None => w_heap w !! jk = None
    end ∧
    match marginal_kwargs a with
    | Some l => mk = l
    | None => w_heap w !! mk = None ∧ w_heap w !! pk = None
    end ∧
    h !! mk = Some dmk ∧
    dmk !! "plot_kwargs" = Some (VDict pk) ∧
    h !! pk = Some dpk ∧
    dpk !! (if is_bokeh (backend a) then "line_width" else "linewidth")
    = Some (sc_linewidth (joint_sizes a)) ∧
    (∀ l, is_Some (w_heap w !! l) → l ≠ mk → l ≠ pk →
          h !! l = w_heap w !! l).
Proof.
  intros R Hn Hm.
  destruct (plot_joint_reaches a w ds vn ps R Hn Hm)
    as (jk & mk & pk & d & dpk & h2 & P & E).
  destruct (joint_backend_heap_marginal _ _ _ _ _ _ _ _ _ P)
    as (dmk & dpk' & Hmk & Hpk & Hdpk & Hlw).
  exists (joint_backend_kwargs a ps jk mk),
    (joint_backend_heap a mk pk d dpk h2), jk, mk, pk, dmk, dpk'.
  split; [exact E|].
  split; [unfold joint_backend_kwargs; by destruct (is_bokeh _)|].
  split; [unfold joint_backend_kwargs; by destruct (is_bokeh _)|].
  split; [apply (prep_joint _ _ _ _ _ _ _ _ _ P)|].
  split.
  { pose proof (prep_marginal _ _ _ _ _ _ _ _ _ P) as Hma.
    destruct (marginal_kwargs a) eqn:Ema; [by destruct Hma|].
    exact (prepared_fresh _ _ _ _ _ _ _ _ _ P Ema). }
  split; [exact Hmk|]. split; [exact Hpk|]. split; [exact Hdpk|].
  split; [by destruct (is_bokeh _); [destruct Hlw|]|].
  intros l. apply (joint_backend_heap_frame a w ps jk mk pk d dpk h2 l P).
Qed.

End joint_effects.

(** A caller's [marginal_kwargs], [{"color": "k"}], has a "plot_kwargs"
    entry once [plot_joint] has returned. *)
Lemma plot_joint_changes_marginal_kwargs :
  w_heap example_world !! 1%positive = Some (<["color" := VStr "k"]> ∅) ∧
  (jointplot.plot_joint (H := stubs)
     (example_joint "kde" ["mu"; "tau"] (Some 1%positive) VNone)
     example_world).1 = Ok (VObj 4%positive) ∧
  w_heap (jointplot.plot_joint (H := stubs)
            (example_joint "kde" ["mu"; "tau"] (Some 1%positive) VNone)
            example_world).2 !! 1%positive
  = Some (<["plot_kwargs" := VDict 3%positive]> (<["color" := VStr "k"]> ∅)).
Proof. split; [|split]; by vm_compute. Qed.

Lemma plot_joint_kwargs_effects_witness :
  ∃ kw h mk pk dmk dpk,
    jointplot.plot_joint (H := stubs)
      (example_joint "kde" ["mu"; "tau"] (Some 1%positive) (VStr "bokeh"))
      example_world
    = call_st "bokeh_jointplot._plot_joint" [] kw
        (bokeh_plot_joint (Collaborators := stubs) kw)
        (World h (prepare_events
                    (example_joint "kde" ["mu"; "tau"] (Some 1%positive)
                       (VStr "bokeh")))) ∧
    mk = 1%positive ∧
    h !! mk = Some dmk ∧ dmk !! "plot_kwargs" = Some (VDict pk) ∧
    h !! pk = Some dpk ∧ dpk !! "line_width" = Some (VInt 2).
Proof.
  destruct (plot_joint_kwargs_effects (H := stubs)
              (example_joint "kde" ["mu"; "tau"] (Some 1%positive) (VStr "bokeh"))
              example_world (example_dataset 4) (Some ["mu"; "tau"])
              ([MkDataArray "mu" [] (λ _, example_samples 4);
                MkDataArray "tau" [] (λ _, example_samples 4)]
                 ≫= plot_utils.units_of (H := stubs) 1 true))
    as (kw & h & jk & mk & pk & dmk & dpk & E & _ & _ & _ & Hmk & H1 & H2 & H3 & H4 & _).
  - split; [compute_done|]. split; [reflexivity|]. split; [reflexivity|].
    by vm_compute.
  - reflexivity.
  - exists (<["color" := VStr "k"]> ∅). split; [by vm_compute|]. by vm_compute.
  - exists kw, h, mk, pk, dmk, dpk. simpl in Hmk.
    split; [exact E|]. split; [exact Hmk|]. split; [exact H1|].
    split; [exact H2|]. split; [exact H3|exact H4].
Defined.

Section bundle_properties.
Context `{Collaborators}.

(** C7, as the code has it.  For bokeh, [plot_autocorr] renames the
    bundle's "linewidth" to "line_width", leaves "xt_labelsize" and
    "titlesize" out and adds "show"; [plot_joint] leaves "ax_labelsize"
    out and adds "show", but keeps "xt_labelsize" in the bundle, and its
    renaming of "linewidth" to "line_width" takes place inside the
    "plot_kwargs" dictionary of [marginal_kwargs], not in the bundle.  For
    any other backend both bundles go through as prepared.  All other
    entries are those of the prepared bundle. *)
Theorem backend_keyword_bundles
    (ja : jointplot.args) (aa : autocorrplot.args) (w : world)
    dsj vnj ps dsa vna us :
  (autocorr_resolves aa dsa vna us →
   ∃ kw axes,
     list.last (w_trace (autocorrplot.plot_autocorr aa w).2)
     = Some (ECall (autocorr_backend_name aa) [] kw) ∧
     (∀ k, k ≠ "show" → k ≠ "line_width" → k ≠ "linewidth" →
           k ≠ "titlesize" → k ≠ "xt_labelsize" →
           kw !! k = autocorr_bundle aa dsa us axes !! k) ∧
     if is_bokeh (autocorrplot.backend aa) then
       kw !! "line_width" = Some (sc_linewidth (autocorr_sizes aa us)) ∧
       kw !! "linewidth" = None ∧
       kw !! "xt_labelsize" = None ∧
       kw !! "titlesize" = None ∧
       kw !! "show" = Some (autocorrplot.show aa)
     else
       kw !! "linewidth" = Some (sc_linewidth (autocorr_sizes aa us)) ∧
       kw !! "xt_labelsize" = Some (sc_xt_labelsize (autocorr_sizes aa us)) ∧
       kw !! "titlesize" = Some (sc_titlesize (autocorr_sizes aa us)) ∧
       kw !! "line_width" = None ∧
       kw !! "show" = None) ∧
  (joint_resolves ja dsj vnj ps →
   length ps = 2%nat →
   marginal_ok (w_heap w) (jointplot.marginal_kwargs ja) →
   ∃ kw h jk mk pk dmk dpk,
     jointplot.plot_joint ja w
     = call_st (joint_backend_name ja) [] kw (joint_backend ja kw)
         (World h (w_trace w ++ prepare_events ja)) ∧
     (∀ k, k ≠ "show" → k ≠ "ax_labelsize" →
           kw !! k = joint_bundle ja ps jk mk !! k) ∧
     kw !! "marginal_kwargs" = Some (VDict mk) ∧
     h !! mk = Some dmk ∧
     dmk !! "plot_kwargs" = Some (VDict pk) ∧
     h !! pk = Some dpk ∧
     if is_bokeh (jointplot.backend ja) then
       kw !! "ax_labelsize" = None ∧
       kw !! "xt_labelsize" = Some (sc_xt_labelsize (joint_sizes ja)) ∧
       kw !! "show" = Some (jointplot.show ja) ∧
       kw !! "line_width" = None ∧
       dpk !! "line_width" = Some (sc_linewidth (joint_sizes ja)) ∧
       dpk !! "linewidth" = None
     else
       kw !! "ax_labelsize" = Some (sc_ax_labelsize (joint_sizes ja)) ∧
       kw !! "xt_labelsize" = Some (sc_xt_labelsize (joint_sizes ja)) ∧
       kw !! "show" = None ∧
       dpk !! "linewidth" = Some (sc_linewidth (joint_sizes ja))).
Proof.
  split.
  - intros Ra.
    destruct (plot_autocorr_reaches aa w dsa vna us Ra) as (axes & t & E).
    exists (autocorr_backend_kwargs aa dsa us axes), axes. rewrite E.
    split; [apply last_call_st|].
    unfold autocorr_backend_kwargs. destruct (is_bokeh _).
    + split; [|done]. intros k ? ? ? ? ?.
      by rewrite !lookup_insert_ne, !lookup_delete_ne by done.
    + split; done.
  - intros Rj Hn Hm.
    destruct (plot_joint_reaches ja w dsj vnj ps Rj Hn Hm)
      as (jk & mk & pk & d & dpk & h2 & P & E).
    destruct (joint_backend_heap_marginal _ _ _ _ _ _ _ _ _ P)
      as (dmk & dpk' & Hmk & Hpk & Hdpk & Hlw).
    exists (joint_backend_kwargs ja ps jk mk),
      (joint_backend_heap ja mk pk d dpk h2), jk, mk, pk, dmk, dpk'.
    split; [exact E|].
    unfold joint_backend_kwargs in *. destruct (is_bokeh _).
    + split.
      { intros k ? ?. by rewrite lookup_insert_ne, lookup_delete_ne by done. }
      destruct Hlw. repeat (split; [done|]). done.
    + split; [done|]. repeat (split; [done|]). done.
Qed.

End bundle_properties.

(** With bokeh, the bundle [plot_joint] hands over still has
    "xt_labelsize" and has no "line_width". *)
Lemma bokeh_joint_bundle_keeps_xt_labelsize :
  ∃ kw,
    list.last (w_trace (jointplot.plot_joint (H := stubs)
                          (example_joint "kde" ["mu"; "tau"] None (VStr "bokeh"))
                          example_world).2)
    = Some (ECall "bokeh_jointplot._plot_joint" [] kw) ∧
    kw !! "xt_labelsize" = Some (VInt 12) ∧
    kw !! "ax_labelsize" = None ∧
    kw !! "line_width" = None.
Proof. eexists. split; [by vm_compute|]. split; [|split]; by vm_compute. Qed.

Lemma backend_keyword_bundles_witness :
  (∃ kw,
     list.last (w_trace (autocorrplot.plot_autocorr (H := stubs)
                           (example_autocorr 50 VNone (VStr "bokeh"))
                           example_world).2)
     = Some (ECall "bokeh_autocorrplot._plot_autocorr" [] kw) ∧
     kw !! "line_width" = Some (VInt 2) ∧
     kw !! "linewidth" = None ∧
     kw !! "xt_labelsize" = None ∧
     kw !! "titlesize" = None) ∧
  (∃ kw h pk dpk,
     jointplot.plot_joint (H := stubs)
       (example_joint "kde" ["mu"; "tau"] None (VStr "bokeh")) example_world
     = call_st "bokeh_jointplot._plot_joint" [] kw
         (bokeh_plot_joint (Collaborators := stubs) kw)
         (World h (prepare_events
                     (example_joint "kde" ["mu"; "tau"] None (VStr "bokeh")))) ∧
     kw !! "ax_labelsize" = None ∧
     kw !! "xt_labelsize" = Some (VInt 12) ∧
     h !! pk = Some dpk ∧
     dpk !! "line_width" = Some (VInt 2)).
Proof.
  destruct (backend_keyword_bundles (H := stubs)
              (example_joint "kde" ["mu"; "tau"] None (VStr "bokeh"))
              (example_autocorr 50 VNone (VStr "bokeh"))
              example_world (example_dataset 4) (Some ["mu"; "tau"])
              ([MkDataArray "mu" [] (λ _, example_samples 4);
                MkDataArray "tau" [] (λ _, example_samples 4)]
                 ≫= plot_utils.units_of (H := stubs) 1 true)
              (example_dataset 50) None
              (data_vars (example_dataset 50)
                 ≫= plot_utils.units_of (H := stubs) 1 false))
    as [Ha Hj].
  split.
  - destruct Ha as (kw & axes & Hl & _ & H1 & H2 & H3 & H4 & _).
    { split; [reflexivity|]. split; [reflexivity|]. split; [by vm_compute|].
      intros _. eexists. reflexivity. }
    exists kw. split; [exact Hl|]. split; [exact H1|]. split; [exact H2|].
    split; [exact H3|exact H4].
  - destruct Hj as (kw & h & jk & mk & pk & dmk & dpk & E & _ & _ & _ & _
                    & Hp & H1 & H2 & _ & _ & H5 & _).
    { split; [compute_done|]. split; [reflexivity|]. split; [reflexivity|].
      by vm_compute. }
    { reflexivity. }
    { exact I. }
    exists kw, h, pk, dpk. split; [exact E|]. split; [exact H1|].
    split; [exact H2|]. split; [exact Hp|exact H5].
Defined.

(** Two requests for a single variable name that do not end in the count
    error: with an invalid [kind] the call fails on the kind before the
    request is resolved; and the one name "theta", a variable over two
    schools, resolves to two plot units and is plotted. *)
Lemma plot_joint_one_name_not_count_error :
  (∃ u, plot_utils.xarray_var_iter (H := stubs) (example_dataset 4)
          (Some ["mu"]) true = Ok [u]) ∧
  (jointplot.plot_joint (H := stubs)
     (example_joint "bogus" ["mu"] None VNone) example_world).1
  = Raise (ValueError (jointplot.kind_message "bogus")) ∧
  (∃ u1 u2, plot_utils.xarray_var_iter (H := stubs) (example_dataset 4)
              (Some ["theta"]) true = Ok [u1; u2]) ∧
  (jointplot.plot_joint (H := stubs)
     (example_joint "scatter" ["theta"] None VNone) example_world).1
  = Ok (VObj 4%positive).
Proof.
  split; [eexists; by vm_compute|]. split; [by vm_compute|].
  split; [eexists _, _; by vm_compute|]. by vm_compute.
Qed.

Lemma plot_joint_cardinality_witness :
  (jointplot.plot_joint (H := stubs)
     (example_joint "scatter" ["mu"] None VNone) example_world).1
  = Raise (PyException
             "Number of variables to be plotted must 2 (you supplied 1)") ∧
  (jointplot.plot_joint (H := stubs)
     (example_joint "scatter" ["mu"; "tau"; "mu"] None VNone) example_world).1
  = Raise (PyException
             "Number of variables to be plotted must 2 (you supplied 3)").
Proof.
  split.
  - refine (proj1 (plot_joint_cardinality (H := stubs)
              (example_joint "scatter" ["mu"] None VNone) example_world
              (example_dataset 4) (Some ["mu"])
              ([MkDataArray "mu" [] (λ _, example_samples 4)]
                 ≫= plot_utils.units_of (H := stubs) 1 true) _ _ _ _ _)).
    + compute_done.
    + reflexivity.
    + reflexivity.
    + by vm_compute.
    + simpl. lia.
  - refine (proj1 (plot_joint_cardinality (H := stubs)
              (example_joint "scatter" ["mu"; "tau"; "mu"] None VNone)
              example_world (example_dataset 4) (Some ["mu"; "tau"; "mu"])
              ([MkDataArray "mu" [] (λ _, example_samples 4);
                MkDataArray "tau" [] (λ _, example_samples 4);
                MkDataArray "mu" [] (λ _, example_samples 4)]
                 ≫= plot_utils.units_of (H := stubs) 1 true) _ _ _ _ _)).
    + compute_done.
    + reflexivity.
    + reflexivity.
    + by vm_compute.
    + simpl. lia.
Defined.

(** ** The energy plot *)

Lemma bind_inv_ok {A B} (m : M A) (k : A → M B) w b w' :
  (m ≫= k) w = (Ok b, w') →
  ∃ a w1, m w = (Ok a, w1) ∧ k a w1 = (Ok b, w').
Proof.
  unfold mbind, M_bind. destruct (m w) as [[a|e] w1]; [eauto|done].
Qed.

Lemma for_each_call {A} (l : list A) f (args : A → list val)
    (kw : A → dict) w :
  for_each l (λ x, call f (args x) (kw x) (Ok tt)) w
  = (Ok tt, World (w_heap w)
              (w_trace w ++ ((λ x, ECall f (args x) (kw x)) <$> l))).
Proof.
  revert w. induction l as [|x l IH]; intros w; simpl.
  - unfold mret, M_ret. rewrite app_nil_r. by destruct w.
  - erewrite bind_ok by apply call_ok. rewrite IH. simpl.
    by rewrite <- app_assoc.
Qed.

Section energy_properties.
Context `{Collaborators}.
Import mpl_energyplot.

(** The invisible lines that carry the BFMI values into the legend: one
    per element of the sequence, labelled with its index and value. *)
Definition bfmi_annotations (ax : val) (vals : list pyfloat) : list event :=
  (λ iv : nat * pyfloat,
     ECall "ax.plot" [ax; VSeq []]
       (<["label" := VStr (bfmi_label iv.1 iv.2)]>
        (<["alpha" := VInt 0]> ∅))) <$> enumerate vals.

(** An event that is neither an annotation nor the BFMI call. *)
Definition not_bfmi (e : event) : Prop :=
  call_name e ∉ ["ax.plot"; "stats.bfmi"].

(** C4. [_plot_energy] does no arithmetic on the energy: when the [bfmi]
    flag is set it calls the imported [stats.bfmi] once on the [energy]
    it was given, and what it draws for the diagnostic is exactly one
    invisible line per element of the sequence that call returned, in
    order, labelled with the element's index and its value formatted to
    two decimals.  These are the only "ax.plot" calls it makes, and when
    the flag is not set it makes neither them nor the [stats.bfmi] call. *)
Theorem plot_energy_bfmi (ax : val) (series : list series_item)
    (energy : val) (kind : string) (bfmi : val)
    (figsize xt_labelsize linewidth fill_kwargs plot_kwargs bw legend : val)
    (w w' : world) (r : val) :
  _plot_energy ax series energy kind bfmi figsize xt_labelsize linewidth
    fill_kwargs plot_kwargs bw legend w = (Ok r, w') →
  ∃ pre mid post,
    w_trace w' = w_trace w ++ pre ++ mid ++ post ∧
    Forall not_bfmi pre ∧ Forall not_bfmi post ∧
    ((∀ h, truthy h bfmi = true) →
     ∃ vals, e_bfmi energy = Ok vals ∧
             mid = ECall "stats.bfmi" [energy] ∅ :: bfmi_annotations r vals) ∧
    ((∀ h, truthy h bfmi = false) → mid = []).
Proof.
  unfold _plot_energy. intros E.
  apply bind_inv_ok in E as (ax' & w1 & E1 & E).
  apply bind_inv_ok in E as ([] & w2 & E2 & E).
  apply bind_inv_ok in E as (b & w3 & E3 & E).
  apply bind_inv_ok in E as ([] & w4 & E4 & E).
  apply bind_inv_ok in E as (b' & w5 & E5 & E).
  apply bind_inv_ok in E as ([] & w6 & E6 & E).
  erewrite bind_ok in E by apply call_ok.
  erewrite bind_ok in E by apply call_ok.
  injection E as <- <-. simpl.
  eapply (emits_run not_bfmi) in E1 as (t1 & Ht1 & P1); cycle 1.
  { repeat emits_ops. }
  eapply (emits_run not_bfmi) in E2 as (t2 & Ht2 & P2); cycle 1.
  { case_decide; [|case_decide; [|apply emits_raise]].
    - apply emits_for_each. intros s. repeat emits_ops.
    - apply emits_for_each. intros s.
      apply emits_bind; [apply emits_call; compute_done|]. intros flat.
      apply emits_bind; [apply emits_mapping_of|]. intros extra.
      apply emits_call_kw. intros kw. compute_done. }
  injection E3 as <- <-.
  eapply (emits_run not_bfmi) in E6 as (t6 & Ht6 & P6); cycle 1.
  { repeat emits_ops. }
  injection E5 as _ <-.
  exists (t1 ++ t2).
  destruct (truthy (w_heap w2) bfmi) eqn:Eb.
  - destruct (e_bfmi energy) as [vals|e] eqn:Ev;
      [|by erewrite bind_raise in E4 by apply call_raise].
    erewrite bind_ok in E4 by apply call_ok. rewrite for_each_call in E4.
    injection E4 as <-. simpl in Ht6.
    exists (ECall "stats.bfmi" [energy] ∅ :: bfmi_annotations ax' vals),
      (t6 ++ [ECall "ax.set_xticks" [ax'; VSeq []] ∅;
              ECall "ax.set_yticks" [ax'; VSeq []] ∅]).
    split.
    { rewrite Ht6, Ht2, Ht1. unfold bfmi_annotations.
      rewrite <- !app_assoc. simpl. by rewrite <- ?app_assoc. }
    split; [by apply Forall_app|]. split.
    { apply Forall_app. split; [done|]. repeat constructor; compute_done. }
    split; [eauto|]. intros Hf. by rewrite Hf in Eb.
  - injection E4 as <-.
    exists [], (t6 ++ [ECall "ax.set_xticks" [ax'; VSeq []] ∅;
                       ECall "ax.set_yticks" [ax'; VSeq []] ∅]).
    split.
    { rewrite Ht6, Ht2, Ht1. rewrite <- !app_assoc. simpl.
      by rewrite <- ?app_assoc. }
    split; [by apply Forall_app|]. split.
    { apply Forall_app. split; [done|]. repeat constructor; compute_done. }
    split; [|done]. intros Ht. by rewrite Ht in Eb.
Qed.

(** For a [kind] other than "kde", "hist" and "histogram",
    [_plot_energy] raises [ValueError] with the message
    "Plot type <kind> not recognized.", which names the rejected kind and
    nothing else. *)
Lemma plot_energy_invalid_kind (ax : val) (series : list series_item)
    (energy : val) (kind : string) (bfmi : val)
    (figsize xt_labelsize linewidth fill_kwargs plot_kwargs bw legend : val)
    (w : world) :
  kind ∉ ["kde"; "hist"; "histogram"] →
  (_plot_energy ax series energy kind bfmi figsize xt_labelsize linewidth
     fill_kwargs plot_kwargs bw legend w).1
  = Raise (ValueError ("Plot type " +:+ kind +:+ " not recognized.")).
Proof.
  intros Hk. unfold _plot_energy.
  assert (kind ≠ "kde") as Hkde by (intros ->; apply Hk; by left).
  assert (kind ∉ ["hist"; "histogram"]) as Hhist
    by (intros Hin; apply Hk; by right).
  destruct ax;
    try (erewrite bind_ok by reflexivity; cbv beta;
         by rewrite !decide_False by done).
  destruct (plt_subplots _) as [fig ax'] eqn:Es.
  erewrite bind_ok by (erewrite bind_ok by apply call_ok; reflexivity).
  cbv beta. by rewrite !decide_False by done.
Qed.

End energy_properties.

Lemma plot_energy_bfmi_witness :
  ∃ pre post,
    w_trace (mpl_energyplot._plot_energy (H := stubs) VNone
               [mpl_energyplot.Series (VInt 1) (VStr "C0") (VStr "Energy")
                  (VArray (NdArray kind_f [np.of_Z 1; np.of_Z 3]))]
               (VObj 11%positive) "hist" (VBool true) VNone (VInt 12) (VInt 2)
               (VDict 1%positive) (VDict 1%positive) (VFloat (np.of_Z 4))
               (VBool true) (World (<[1%positive := ∅]> ∅) [])).2
    = pre ++ ECall "stats.bfmi" [VObj 11%positive] ∅
          :: bfmi_annotations (H := stubs) (VObj 8%positive)
               [np.of_Z 1; np.of_Z 2] ++ post.
Proof.
  destruct (plot_energy_bfmi (H := stubs) VNone
              [mpl_energyplot.Series (VInt 1) (VStr "C0") (VStr "Energy")
                 (VArray (NdArray kind_f [np.of_Z 1; np.of_Z 3]))]
              (VObj 11%positive) "hist" (VBool true) VNone (VInt 12) (VInt 2)
              (VDict 1%positive) (VDict 1%positive) (VFloat (np.of_Z 4))
              (VBool true) (World (<[1%positive := ∅]> ∅) [])
              (mpl_energyplot._plot_energy (H := stubs) VNone
                 [mpl_energyplot.Series (VInt 1) (VStr "C0") (VStr "Energy")
                    (VArray (NdArray kind_f [np.of_Z 1; np.of_Z 3]))]
                 (VObj 11%positive) "hist" (VBool true) VNone (VInt 12) (VInt 2)
                 (VDict 1%positive) (VDict 1%positive) (VFloat (np.of_Z 4))
                 (VBool true) (World (<[1%positive := ∅]> ∅) [])).2
              (VObj 8%positive))
    as (pre & mid & post & Ht & _ & _ & Hset & _).
  - by vm_compute.
  - destruct (Hset (λ _, eq_refl)) as (vals & Hv & ->).
    injection Hv as <-. exists pre, post. exact Ht.
Defined.

(** ** Error messages *)

(** [k] occurs in [s]. *)
Definition mentions (k s : string) : Prop :=
  ∃ pre post, s = pre +:+ k +:+ post.

Fixpoint is_prefix (p s : string) : bool :=
  match p, s with
  | EmptyString, _ => true
  | String a p', String b s' => bool_decide (a = b) && is_prefix p' s'
  | String _ _, EmptyString => false
  end.

Fixpoint contains (k s : string) : bool :=
  is_prefix k s ||
  match s with
  | EmptyString => false
  | String _ s' => contains k s'
  end.

Lemma is_prefix_spec p s : is_prefix p s = true ↔ ∃ post, s = p +:+ post.
Proof.
  revert s. induction p as [|a p IH]; intros s; simpl.
  - split; [by exists s|done].
  - destruct s as [|b s]; simpl.
    + split; [done|]. by intros [post ?].
    + rewrite andb_true_iff, bool_decide_eq_true, IH. split.
      * intros [-> [post ->]]. by exists post.
      * intros [post [= -> ->]]. eauto.
Qed.

Lemma contains_spec k s : contains k s = true ↔ mentions k s.
Proof.
  unfold mentions. induction s as [|b s IH]; simpl.
  - rewrite orb_false_r, is_prefix_spec. split.
    + intros [post E]. by exists "", post.
    + intros ([|c pre] & post & E); [by exists post|done].
  - rewrite orb_true_iff, is_prefix_spec, IH. split.
    + intros [[post E]|(pre & post & ->)].
      * by exists "", post.
      * by exists (String b pre), post.
    + intros ([|c pre] & post & E).
      * left. by exists post.
      * right. injection E as -> ->. by exists pre, post.
Qed.

Lemma append_assoc s1 s2 s3 : s1 +:+ (s2 +:+ s3) = (s1 +:+ s2) +:+ s3.
Proof.
  induction s1 as [|a s1 IH]; [done|].
  change (String a (s1 +:+ (s2 +:+ s3)) = String a ((s1 +:+ s2) +:+ s3)).
  by rewrite IH.
Qed.

Lemma mentions_app_r k s1 s2 : mentions k s2 → mentions k (s1 +:+ s2).
Proof.
  intros (pre & post & ->). exists (s1 +:+ pre), post. apply append_assoc.
Qed.

(** ** The bokeh distribution plot *)

Section dist_properties.
Context `{Collaborators}.
Import bokeh_distplot.

(** The drawing surface of a call: the given one, or a new figure. *)
Lemma dist_axes_ok (a : args) w :
  ∃ ax' w1,
    (match ax a with
     | VNone =>
         let kw : dict :=
           <["width" := VInt 500]>
           (<["height" := VInt 500]>
           (<["output_backend" := VStr "webgl"]>
           (<["tools" := VStr tools]> ∅))) in
         call "bkp.figure" [] kw (Ok (bkp_figure kw))
     | ax => mret ax
     end) w = (Ok ax', w1).
Proof.
  destruct (ax a); eexists _, _; first [reflexivity | cbv zeta; apply call_ok].
Qed.

Lemma plot_dist_invalid_kind (a : args) (w : world) :
  kind a ∉ ["auto"; "kde"; "hist"] →
  (_plot_dist_bokeh a w).1 = Raise (TypeError (kind_message (kind a))).
Proof.
  intros Hk. unfold _plot_dist_bokeh.
  assert (kind a ≠ "auto") as Hauto by (intros E; apply Hk; rewrite E; by left).
  assert (kind a ≠ "hist") as Hhist
    by (intros E; apply Hk; rewrite E; by do 2 right; left).
  assert (kind a ≠ "kde") as Hkde
    by (intros E; apply Hk; rewrite E; by right; left).
  destruct (dist_axes_ok a w) as (ax' & w1 & E).
  erewrite bind_ok by exact E. cbv beta zeta.
  rewrite (decide_False (P := kind a = "auto")) by done.
  by rewrite !decide_False by done.
Qed.

Lemma kind_message_mentions (kind k : string) :
  k ∈ ["auto"; "kde"; "hist"] → mentions k (kind_message kind).
Proof.
  intros Hk. unfold kind_message.
  do 5 apply mentions_app_r. apply mentions_app_r.
  apply contains_spec.
  repeat (apply elem_of_cons in Hk as [->|Hk]; [by vm_compute|]).
  by apply elem_of_nil in Hk.
Qed.

(** C6, as the code has it.  A [kind] other than "auto", "kde" and "hist"
    makes the bokeh distribution plot raise [TypeError] with a message
    in which each of the three accepted kinds occurs.  A [kind] other
    than "kde", "hist" and "histogram" makes the energy plot raise
    [ValueError] with the message "Plot type <kind> not recognized.",
    which names the rejected kind only. *)
Theorem invalid_kind_messages (a : args) (w : world)
    (ax : val) (series : list mpl_energyplot.series_item)
    (energy : val) (kind_e : string)
    (bfmi figsize xt_labelsize linewidth fill_kwargs plot_kwargs bw
     legend : val) :
  kind a ∉ ["auto"; "kde"; "hist"] →
  kind_e ∉ ["kde"; "hist"; "histogram"] →
  (_plot_dist_bokeh a w).1 = Raise (TypeError (kind_message (kind a))) ∧
  (∀ k, k ∈ ["auto"; "kde"; "hist"] → mentions k (kind_message (kind a))) ∧
  (mpl_energyplot._plot_energy ax series energy kind_e bfmi figsize
     xt_labelsize linewidth fill_kwargs plot_kwargs bw legend w).1
  = Raise (ValueError ("Plot type " +:+ kind_e +:+ " not recognized.")).
Proof.
  intros Hd He. split; [by apply plot_dist_invalid_kind|].
  split; [intros k; apply kind_message_mentions|].
  by apply plot_energy_invalid_kind.
Qed.




End dist_properties.

(** The energy plot's message for the kind "bogus" mentions none of the
    kinds it accepts. *)
Lemma plot_energy_message_names_no_kind :
  (mpl_energyplot._plot_energy (H := stubs) VNone [] VNone "bogus"
     (VBool true) VNone VNone VNone VNone VNone VNone VNone example_world).1
  = Raise (ValueError "Plot type bogus not recognized.") ∧
  contains "kde" "Plot type bogus not recognized." = false ∧
  contains "hist" "Plot type bogus not recognized." = false ∧
  contains "histogram" "Plot type bogus not recognized." = false ∧
  (mentions "kde" "Plot type bogus not recognized." → False).
Proof.
  split; [by vm_compute|]. split; [by vm_compute|]. split; [by vm_compute|].
  split; [by vm_compute|]. intros Hm. apply contains_spec in Hm.
  by vm_compute in Hm.
Qed.

Definition example_dist (kind : string) (dt : dtype_kind) (hist_kwargs : val)
    : bokeh_distplot.args :=
  bokeh_distplot.Args (NdArray dt [np.of_Z 1; np.of_Z 2; np.of_Z 3]) None
    (VStr "C0") kind (VBool false) VNone (VBool false) (VBool false)
    (VFloat (np.of_Z 4)) VNone (VBool true) (VBool true)
    VNone VNone VNone VNone VNone VNone hist_kwargs (VObj 12%positive)
    (VBool false).

Lemma invalid_kind_messages_witness :
  (bokeh_distplot._plot_dist_bokeh (H := stubs)
     (example_dist "bogus" kind_f VNone) example_world).1
  = Raise (TypeError (bokeh_distplot.kind_message "bogus")) ∧
  mentions "auto" (bokeh_distplot.kind_message "bogus") ∧
  mentions "kde" (bokeh_distplot.kind_message "bogus") ∧
  mentions "hist" (bokeh_distplot.kind_message "bogus").
Proof.
  destruct (invalid_kind_messages (H := stubs)
              (example_dist "bogus" kind_f VNone) example_world
              VNone [] VNone "bogus" (VBool true) VNone VNone VNone VNone
              VNone VNone VNone) as (Hr & Hm & _).
  - compute_done.
  - compute_done.
  - split; [exact Hr|].
    split; [apply Hm; compute_done|]. split; apply Hm; compute_done.
Defined.


(** ** Cumulative histograms *)

Section cumulative.
Local Open Scope Qc_scope.


Definition total (l : list Qc) : Qc := foldr Qcplus 0 l.










End cumulative.

Section histogram.
Local Open Scope Qc_scope.

Definition Qc_of_nat (n : nat) : Qc := Qc_of_Z (Z.of_nat n).










(** A density: the count over the width of the bin and the total count. *)
Definition density (t : nat) (n : nat) (b : Qc * Qc) : Qc :=
  Qc_of_nat n / (b.2 - b.1) / Qc_of_nat t.






End histogram.

Section covered.
Local Open Scope Qc_scope.

Lemma counts_cons vals b b' bins :
  np.counts vals (b :: b' :: bins)
  = length (filter (λ v, np.fle b.1 v && np.flt v b.2) vals)
    :: np.counts vals (b' :: bins).
Proof. by destruct b. Qed.

Lemma counts_last vals b :
  np.counts vals [b]
  = [length (filter (λ v, np.fle b.1 v && np.fle v b.2) vals)].
Proof. by destruct b. Qed.

Lemma counts_length vals bins :
  length (np.counts vals bins) = length bins.
Proof.
  induction bins as [|b bins IH]; [done|].
  destruct bins as [|b' bins]; [by rewrite counts_last|].
  rewrite counts_cons. simpl length in *. by rewrite IH.
Qed.







End covered.

Section histplot.
Context `{Collaborators}.
Import bokeh_distplot.

Lemma pop_default_run l k dflt d w :
  w_heap w !! l = Some d →
  pop_default_of (VDict l) k dflt w
  = (Ok (default dflt (d !! k)),
     World (<[l := delete k d]> (w_heap w)) (w_trace w)).
Proof.
  intros E. unfold pop_default_of, dict_pop_default.
  erewrite bind_ok by by apply dict_read_run.
  destruct (d !! k) as [v|] eqn:Ek; simpl; [done|].
  unfold mret, M_ret. rewrite delete_id by done.
  rewrite insert_id by done. by destruct w.
Qed.





(** The bins a call works with: the caller's "bins" entry, or what
    [get_bins] derives from the sample when there is none. *)
Definition requested_bins (d : dict) (values : ndarray) : res val :=
  match d !! "bins" with
  | None | Some VNone => get_bins values
  | Some bins => Ok bins
  end.


Lemma maybe_set_run (b : bool) l k v d w :
  w_heap w !! l = Some d →
  ((if b then setitem (VDict l) k v else mret tt) : M unit) w
  = (Ok tt, World (<[l := if b then <[k := v]> d else d]> (w_heap w))
              (w_trace w)).
Proof.
  intros E. destruct b; [by apply dict_set_run|].
  unfold mret, M_ret. rewrite insert_id by done. by destruct w.
Qed.

Lemma maybe_set2_run (b : bool) l k1 k2 v d w :
  w_heap w !! l = Some d →
  ((if b then setitem (VDict l) k1 v;; setitem (VDict l) k2 v
    else mret tt) : M unit) w
  = (Ok tt,
     World (<[l := if b then <[k2 := v]> (<[k1 := v]> d) else d]> (w_heap w))
       (w_trace w)).
Proof.
  intros E. destruct b.
  - erewrite bind_ok by by apply dict_set_run.
    cbv beta. cbn [setitem].
    erewrite dict_set_run by apply lookup_insert_eq. simpl.
    by rewrite insert_insert_eq.
  - unfold mret, M_ret. rewrite insert_id by done. by destruct w.
Qed.



(** The bag after the pops and renamings of lines 98-111, for the truth
    values [b1] of its "label" and [b2] of its "color". *)
Definition cleaned (b1 b2 : bool) (d : dict) : dict :=
  let d1 := delete "label" d in
  let d2 := if b1 then <["legend_label" := default VNone (d !! "label")]> d1
            else d1 in
  let d3 := delete "color" d2 in
  let d4 := if b2
            then <["line_color" := default (VBool false) (d2 !! "color")]>
                 (<["fill_color" := default (VBool false) (d2 !! "color")]> d3)
            else d3 in
  delete "orientation" (delete "density" (delete "align" (delete "rwidth" d4))).

Lemma cleaned_lookup b1 b2 d k :
  k ∉ ["label"; "legend_label"; "color"; "line_color"; "fill_color";
       "orientation"; "density"; "align"; "rwidth"] →
  cleaned b1 b2 d !! k = d !! k.
Proof.
  intros Hk. unfold cleaned.
  assert (∀ k', k' ∈ ["label"; "legend_label"; "color"; "line_color";
                      "fill_color"; "orientation"; "density"; "align";
                      "rwidth"] → k' ≠ k) as Hne by (intros k' ? ->; done).
  destruct b1, b2;
    repeat first
      [ rewrite lookup_delete_ne by (apply Hne; compute_done)
      | rewrite lookup_insert_ne by (apply Hne; compute_done) ];
    done.
Qed.

Lemma cleaned_density b1 b2 d : cleaned b1 b2 d !! "density" = None.
Proof.
  unfold cleaned. rewrite lookup_delete_ne by done. apply lookup_delete_eq.
Qed.




End histplot.


Definition example_values : ndarray :=
  NdArray kind_f [np.of_Z 1; np.of_Z 2; np.of_Z 3].



(** * Further properties

    What the four modules do beyond the properties above: their failures,
    what they write into the dictionaries they are given, and what they
    hand to the functions they call. *)

Lemma bind_same {A B} (m m' : M A) (k : A → M B) w w1 :
  m w = m' w1 → (m ≫= k) w = (m' ≫= k) w1.
Proof. intros E. unfold mbind, M_bind. by rewrite E. Qed.

(** ** [plot_joint] and [plot_autocorr]: failures and reuse *)

(** A call other than the entry point of a backend. *)
Definition not_backend (e : event) : Prop :=
  call_name e ∉ ["bokeh_jointplot._plot_joint"; "mpl_jointplot._plot_joint";
                 "bokeh_autocorrplot._plot_autocorr";
                 "mpl_autocorrplot._plot_autocorr"].

Section joint_failures.
Context `{Collaborators}.
Import jointplot.



End joint_failures.

Section joint_reuse.
Context `{Collaborators}.
Import jointplot.

(** X2. The line width [plot_joint] writes into the "plot_kwargs" of
    [marginal_kwargs] stays there after the call.  When a dictionary that
    went through a bokeh call (whose backend leaves dictionaries alone) is
    passed again to a call with another backend, the matplotlib entry
    point finds in "plot_kwargs" both its own "linewidth" and the
    "line_width" of the earlier call. *)
Theorem plot_joint_backend_switch (ab am : args) (w : world) (mk : loc)
    dsb vnb psb dsm vnm psm :
  backend ab = VStr "bokeh" →
  backend am ≠ VStr "bokeh" →
  marginal_kwargs ab = Some mk →
  marginal_kwargs am = Some mk →
  joint_resolves ab dsb vnb psb → length psb = 2%nat →
  joint_resolves am dsm vnm psm → length psm = 2%nat →
  marginal_ok (w_heap w) (Some mk) →
  (∀ kw h, (bokeh_plot_joint kw h).2 = h) →
  ∃ kw h t pk dmk dpk,
    plot_joint am (plot_joint ab w).2
    = call_st "mpl_jointplot._plot_joint" [] kw (mpl_plot_joint kw)
        (World h t) ∧
    kw !! "marginal_kwargs" = Some (VDict mk) ∧
    h !! mk = Some dmk ∧
    dmk !! "plot_kwargs" = Some (VDict pk) ∧
    h !! pk = Some dpk ∧
    dpk !! "linewidth" = Some (sc_linewidth (joint_sizes am)) ∧
    dpk !! "line_width" = Some (sc_linewidth (joint_sizes ab)).
Proof.
  intros Hb Hm Hmb Hmm Rb Hnb Rm Hnm Hok Hframe.
  assert (is_bokeh (backend ab) = true) as Bb by (by rewrite Hb).
  pose proof (is_bokeh_false _ Hm) as Bm.
  destruct (plot_joint_reaches ab w dsb vnb psb Rb Hnb) as
    (jk & mk1 & pk & d & dpk & h2 & P & E); [by rewrite Hmb|].
  pose proof (prep_marginal _ _ _ _ _ _ _ _ _ P) as Hma.
  rewrite Hmb in Hma. destruct Hma as [-> Hd].
  destruct (joint_backend_heap_marginal _ _ _ _ _ _ _ _ _ P)
    as (dmk & dpk1 & Hmk1 & Hpk1 & Hdpk1 & Hlw1).
  rewrite Bb in Hlw1. destruct Hlw1 as [Hlw1 _].
  set (h1 := joint_backend_heap ab mk pk d dpk h2) in *.
  assert (w_heap (plot_joint ab w).2 = h1) as Hh1.
  { rewrite E, call_st_run. cbn [snd w_heap]. unfold joint_backend.
    rewrite Bb. apply Hframe. }
  set (w1 := (plot_joint ab w).2) in *.
  destruct (plot_joint_reaches am w1 dsm vnm psm Rm Hnm) as
    (jk' & mk' & pk' & d' & dpk' & h2' & P' & E').
  { rewrite Hmm, Hh1. exists dmk. split; [done|]. rewrite Hpk1. by eexists. }
  pose proof (prep_marginal _ _ _ _ _ _ _ _ _ P') as Hma.
  rewrite Hmm, Hh1 in Hma. destruct Hma as [-> Hd'].
  assert (d' = dmk) as -> by congruence.
  pose proof (prep_entry _ _ _ _ _ _ _ _ _ P') as He.
  rewrite Hpk1 in He. destruct He as [[= <-] _].
  pose proof (prep_pk _ _ _ _ _ _ _ _ _ P') as Hp.
  assert (dpk' !! "line_width" = Some (sc_linewidth (joint_sizes ab))) as Hlw.
  { destruct (decide (mk = pk)) as [->|Hne].
    - rewrite lookup_insert_eq in Hp. injection Hp as <-.
      rewrite lookup_insert_ne by done. congruence.
    - rewrite lookup_insert_ne in Hp by done.
      assert (h2' !! pk = Some dpk1) as Hw.
      { eapply lookup_weaken; [|apply (prep_sub _ _ _ _ _ _ _ _ _ P')].
        by rewrite Hh1. }
      rewrite lookup_insert_ne in Hp.
      + congruence.
      + intros Ef. rewrite <- Ef in Hw.
        rewrite (prep_fresh _ _ _ _ _ _ _ _ _ P') in Hw. done. }
  destruct (prepared_heap_mk _ _ _ _ _ _ _ _ _ P') as (dmk' & Hmk' & Hpk' & _).
  exists (joint_backend_kwargs am psm jk' mk),
    (prepared_heap am mk pk dmk dpk' h2'), (w_trace w1 ++ prepare_events am),
    pk, dmk', (<["linewidth" := sc_linewidth (joint_sizes am)]> dpk').
  split.
  { rewrite E'. unfold joint_backend_name, joint_backend, joint_backend_heap.
    by rewrite Bm. }
  split; [unfold joint_backend_kwargs; by rewrite Bm|].
  split; [done|]. split; [done|].
  split; [by eapply prepared_heap_pk|].
  split; [apply lookup_insert_eq|]. by rewrite lookup_insert_ne.
Qed.

End joint_reuse.

Section autocorr_effects.
Context `{Collaborators}.
Import autocorrplot.

(** The axes before [np.atleast_2d]: the caller's, or those of the grid. *)
Definition chosen_axes (a : args) (us : list PlotUnit) : res val :=
  match ax a with
  | VNone =>
      match grid_of a us with
      | Ok fa => Ok fa.2
      | Raise e => Raise e
      end
  | v => Ok v
  end.

Definition grid_events (a : args) (us : list PlotUnit) : list event :=
  match ax a with
  | VNone => [ECall "_create_axes_grid" [] (grid_kwargs a us)]
  | _ => []
  end.

(** The events of lines 92-107. *)
Definition layout_events (a : args) (us : list PlotUnit) : list event :=
  [ECall "convert_to_dataset" [data a] {["group" := VStr "posterior"]};
   ECall "_var_names" [] ∅;
   ECall "xarray_var_iter" [] {["combined" := VBool (combined a)]};
   ECall "filter_plotters_list" [VPlotters us; VStr "plot_autocorr"] ∅;
   ECall "default_grid" [VInt (Z.of_nat (length (autocorr_plotters us)))] ∅;
   ECall "_scale_fig_size" [figsize a; textsize a] ∅].

Lemma chosen_axes_run (a : args) (us : list PlotUnit) (w : world) :
  (match ax a with
   | VNone =>
       '(_, axes) ← call "_create_axes_grid" [] (grid_kwargs a us)
                      (grid_of a us);
       mret axes
   | ax => mret ax
   end) w
  = (chosen_axes a us, World (w_heap w) (w_trace w ++ grid_events a us)).
Proof.
  unfold chosen_axes, grid_events.
  destruct (ax a); try (unfold mret, M_ret; rewrite app_nil_r; by destruct w).
  destruct (grid_of a us) as [[fig axes]|e].
  - by erewrite bind_ok by apply call_ok.
  - by erewrite bind_raise by apply call_raise.
Qed.

Lemma autocorr_plot_args_exact (a : args) (w : world) ds vn us :
  convert_to_dataset (data a) "posterior" = Ok ds →
  _var_names (var_names a) ds = Ok vn →
  plot_utils.xarray_var_iter ds vn (combined a) = Ok us →
  autocorr_plot_args_of a w
  = match chosen_axes a us with
    | Ok axes =>
        (Ok (autocorr_bundle a ds us (np_atleast_2d axes)),
         World (w_heap w)
           (w_trace w ++ layout_events a us ++ grid_events a us
            ++ [ECall "np.atleast_2d" [axes] ∅]))
    | Raise e =>
        (Raise e,
         World (w_heap w) (w_trace w ++ layout_events a us ++ grid_events a us))
    end.
Proof.
  intros Hc Hv Hi. unfold autocorr_plot_args_of.
  rewrite Hc. erewrite bind_ok by apply call_ok. cbv beta zeta.
  rewrite Hv. erewrite bind_ok by apply call_ok. cbv beta.
  rewrite Hi. erewrite bind_ok by apply call_ok. cbv beta.
  erewrite bind_ok by apply call_ok. cbv beta.
  erewrite bind_ok by apply call_ok. cbv beta.
  pose proof (chosen_axes_run a us) as Hax.
  unfold grid_of, grid_kwargs, autocorr_bundle, autocorr_sizes,
    autocorr_plotters in *.
  destruct (default_grid _) as [rows cols]. cbn [fst snd] in *.
  erewrite bind_ok by apply call_ok. cbv beta. cbn [w_heap w_trace].
  destruct (chosen_axes a us) as [axes|e].
  - erewrite bind_ok by apply Hax. cbv beta.
    erewrite bind_ok by apply call_ok. cbv beta. cbn [w_heap w_trace].
    unfold mret, M_ret. unfold layout_events, autocorr_plotters.
    by rewrite <- !app_assoc.
  - erewrite bind_raise by apply Hax. cbn [w_heap w_trace].
    unfold layout_events, autocorr_plotters. by rewrite <- !app_assoc.
Qed.


Lemma layout_events_not_backend a us : Forall not_backend (layout_events a us).
Proof. repeat constructor; compute_done. Qed.

Lemma grid_events_not_backend a us : Forall not_backend (grid_events a us).
Proof. unfold grid_events. case_match; repeat constructor; compute_done. Qed.

(** X3. [plot_autocorr] writes to no dictionary: either it calls the entry
    point of its backend, once and last, in the heap the call started in,
    or it raises with that heap unchanged and no backend called. *)
Theorem plot_autocorr_backend_or_untouched (a : args) (w : world) :
  (∃ kw t,
     plot_autocorr a w
     = call_st (autocorr_backend_name a) [] kw (autocorr_backend a kw)
         (World (w_heap w) (w_trace w ++ t)) ∧
     Forall not_backend t) ∨
  (∃ e t,
     plot_autocorr a w = (Raise e, World (w_heap w) (w_trace w ++ t)) ∧
     Forall not_backend t).
Proof.
  destruct (convert_to_dataset (data a) "posterior") as [ds|e] eqn:Ec; cycle 1.
  { right. exists e, [ECall "convert_to_dataset" [data a] {["group" := VStr "posterior"]}].
    split; [|repeat constructor; compute_done].
    unfold plot_autocorr, autocorr_plot_args_of. rewrite Ec.
    by erewrite bind_raise
      by (erewrite bind_raise by apply call_raise; reflexivity). }
  destruct (_var_names (var_names a) ds) as [vn|e] eqn:Ev; cycle 1.
  { right. exists e, [ECall "convert_to_dataset" [data a] {["group" := VStr "posterior"]};
                      ECall "_var_names" [] ∅].
    split; [|repeat constructor; compute_done].
    unfold plot_autocorr, autocorr_plot_args_of. rewrite Ec.
    erewrite bind_raise; [reflexivity|].
    erewrite bind_ok by apply call_ok. cbv beta zeta. rewrite Ev.
    erewrite bind_raise by apply call_raise. cbn [w_heap w_trace].
    by rewrite <- app_assoc. }
  destruct (plot_utils.xarray_var_iter ds vn (combined a)) as [us|e] eqn:Ei;
    cycle 1.
  { right. exists e, [ECall "convert_to_dataset" [data a] {["group" := VStr "posterior"]};
                      ECall "_var_names" [] ∅;
                      ECall "xarray_var_iter" [] {["combined" := VBool (combined a)]}].
    split; [|repeat constructor; compute_done].
    unfold plot_autocorr, autocorr_plot_args_of. rewrite Ec.
    erewrite bind_raise; [reflexivity|].
    erewrite bind_ok by apply call_ok. cbv beta zeta. rewrite Ev.
    erewrite bind_ok by apply call_ok. cbv beta. rewrite Ei.
    erewrite bind_raise by apply call_raise. cbn [w_heap w_trace].
    by rewrite <- !app_assoc. }
  pose proof (autocorr_plot_args_exact a w ds vn us Ec Ev Ei) as E.
  destruct (chosen_axes a us) as [axes|e].
  - left. unfold plot_autocorr. erewrite bind_ok by exact E. cbv beta.
    exists (autocorr_backend_kwargs a ds us (np_atleast_2d axes)).
    eexists. split.
    + unfold autocorr_backend_name, autocorr_backend,
        autocorr_backend_kwargs, is_bokeh.
      destruct (is_str "bokeh" (backend a)); [|reflexivity].
      by erewrite bind_ok by apply bokeh_autocorr_args_run.
    + apply Forall_app. split; [apply layout_events_not_backend|].
      apply Forall_app. split; [apply grid_events_not_backend|].
      repeat constructor; compute_done.
  - right. exists e. eexists. split.
    + unfold plot_autocorr. by erewrite bind_raise by exact E.
    + apply Forall_app. split; [apply layout_events_not_backend|].
      apply grid_events_not_backend.
Qed.

(** X4. Axes passed by the caller are used as they are: no grid is
    created and the backend gets [np.atleast_2d(ax)].  Without them one
    grid is created for the filtered plot units, in the shape
    [default_grid] gives, with the scaled figure size, [squeeze=False],
    shared x and y axes and the backend selector; the backend gets
    [np.atleast_2d] of its axes, and when the grid cannot be made the call
    fails with that error, no dictionary written. *)
Theorem plot_autocorr_axes (a : args) (w : world) ds vn us :
  convert_to_dataset (data a) "posterior" = Ok ds →
  _var_names (var_names a) ds = Ok vn →
  plot_utils.xarray_var_iter ds vn (combined a) = Ok us →
  match ax a with
  | VNone =>
      match grid_of a us with
      | Ok fa =>
          ∃ kw t,
            plot_autocorr a w
            = call_st (autocorr_backend_name a) [] kw (autocorr_backend a kw)
                (World (w_heap w) (w_trace w ++ t)) ∧
            kw !! "axes" = Some (np_atleast_2d fa.2) ∧
            ECall "_create_axes_grid" [] (grid_kwargs a us) ∈ t
      | Raise e =>
          ∃ t, plot_autocorr a w
               = (Raise e, World (w_heap w) (w_trace w ++ t))
      end
  | given =>
      ∃ kw t,
        plot_autocorr a w
        = call_st (autocorr_backend_name a) [] kw (autocorr_backend a kw)
            (World (w_heap w) (w_trace w ++ t)) ∧
        kw !! "axes" = Some (np_atleast_2d given) ∧
        Forall (λ e, call_name e ≠ "_create_axes_grid") t
  end.
Proof.
  intros Ec Ev Ei.
  pose proof (autocorr_plot_args_exact a w ds vn us Ec Ev Ei) as E.
  assert (∀ axes w1,
            autocorr_plot_args_of a w
            = (Ok (autocorr_bundle a ds us (np_atleast_2d axes)), w1) →
            plot_autocorr a w
            = call_st (autocorr_backend_name a) []
                (autocorr_backend_kwargs a ds us (np_atleast_2d axes))
                (autocorr_backend a
                   (autocorr_backend_kwargs a ds us (np_atleast_2d axes)))
                w1 ∧
            autocorr_backend_kwargs a ds us (np_atleast_2d axes) !! "axes"
            = Some (np_atleast_2d axes)) as Hgo.
  { intros axes w1 E'. split.
    - unfold plot_autocorr. erewrite bind_ok by exact E'. cbv beta.
      unfold autocorr_backend_name, autocorr_backend,
        autocorr_backend_kwargs, is_bokeh.
      destruct (is_str "bokeh" (backend a)); [|reflexivity].
      by erewrite bind_ok by apply bokeh_autocorr_args_run.
    - unfold autocorr_backend_kwargs. by destruct (is_bokeh _). }
  unfold chosen_axes, grid_events in E.
  destruct (ax a) eqn:Eax;
    try (destruct (Hgo _ _ E) as [Hrun Hax]; eexists _, _;
         split; [exact Hrun|]; split; [exact Hax|];
         rewrite app_nil_l; repeat constructor; done).
  destruct (grid_of a us) as [fa|e].
  - destruct (Hgo _ _ E) as [Hrun Hax]. eexists _, _.
    split; [exact Hrun|]. split; [exact Hax|].
    apply elem_of_app. right. apply elem_of_app. left. by left.
  - eexists. unfold plot_autocorr. by erewrite bind_raise by exact E.
Qed.

End autocorr_effects.


Lemma plot_joint_backend_switch_witness :
  ∃ kw h t pk dpk,
    jointplot.plot_joint (H := stubs)
      (example_joint "kde" ["mu"; "tau"] (Some 1%positive) VNone)
      (jointplot.plot_joint (H := stubs)
         (example_joint "kde" ["mu"; "tau"] (Some 1%positive) (VStr "bokeh"))
         example_world).2
    = call_st "mpl_jointplot._plot_joint" [] kw
        (mpl_plot_joint (Collaborators := stubs) kw) (World h t) ∧
    h !! pk = Some dpk ∧
    dpk !! "linewidth" = Some (VInt 2) ∧
    dpk !! "line_width" = Some (VInt 2).
Proof.
  destruct (plot_joint_backend_switch (H := stubs)
              (example_joint "kde" ["mu"; "tau"] (Some 1%positive) (VStr "bokeh"))
              (example_joint "kde" ["mu"; "tau"] (Some 1%positive) VNone)
              example_world 1%positive
              (example_dataset 4) (Some ["mu"; "tau"])
              ([MkDataArray "mu" [] (λ _, example_samples 4);
                MkDataArray "tau" [] (λ _, example_samples 4)]
                 ≫= plot_utils.units_of (H := stubs) 1 true)
              (example_dataset 4) (Some ["mu"; "tau"])
              ([MkDataArray "mu" [] (λ _, example_samples 4);
                MkDataArray "tau" [] (λ _, example_samples 4)]
                 ≫= plot_utils.units_of (H := stubs) 1 true))
    as (kw & h & t & pk & dmk & dpk & E & _ & _ & _ & Hp & H1 & H2).
  - reflexivity.
  - done.
  - reflexivity.
  - reflexivity.
  - split; [compute_done|]. split; [reflexivity|]. split; [reflexivity|].
    by vm_compute.
  - reflexivity.
  - split; [compute_done|]. split; [reflexivity|]. split; [reflexivity|].
    by vm_compute.
  - reflexivity.
  - exists (<["color" := VStr "k"]> ∅). split; reflexivity.
  - intros kw h. reflexivity.
  - exists kw, h, t, pk, dpk. split; [exact E|]. split; [exact Hp|].
    split; [exact H1|exact H2].
Defined.

Lemma plot_autocorr_axes_witness :
  ∃ kw t,
    autocorrplot.plot_autocorr (H := stubs)
      (example_autocorr 50 VNone VNone) example_world
    = call_st "mpl_autocorrplot._plot_autocorr" [] kw
        (mpl_plot_autocorr (Collaborators := stubs) kw)
        (World (w_heap example_world) t) ∧
    kw !! "axes" = Some (VObj 2%positive) ∧
    ∃ gk, ECall "_create_axes_grid" [] gk ∈ t ∧
          gk !! "squeeze" = Some (VBool false) ∧
          gk !! "backend" = Some VNone.
Proof.
  pose proof (plot_autocorr_axes (H := stubs)
                (example_autocorr 50 VNone VNone) example_world
                (example_dataset 50) None
                (data_vars (example_dataset 50)
                   ≫= plot_utils.units_of (H := stubs) 1 false)
                eq_refl eq_refl) as Hx.
  cbn [autocorrplot.ax example_autocorr] in Hx.
  destruct Hx as (kw & t & E & Hax & Hin); [by vm_compute|].
  exists kw, t. split; [exact E|]. split; [exact Hax|].
  eexists. split; [exact Hin|]. split; reflexivity.
Defined.

(** ** The energy plot: what the loops write and call *)


Section energy_effects.
Context `{Collaborators}.
Import mpl_energyplot.

(** The keywords of line 23, the axes a call draws on (the ones given, or
    those of a new figure) and the call that makes them. *)
Definition subplots_kwargs (figsize : val) : dict :=
  <["figsize" := figsize]> (<["constrained_layout" := VBool true]> ∅).

Definition energy_axes (ax figsize : val) : val :=
  match ax with
  | VNone => (plt_subplots (subplots_kwargs figsize)).2
  | v => v
  end.

Definition subplots_events (ax figsize : val) : list event :=
  match ax with
  | VNone => [ECall "plt.subplots" [] (subplots_kwargs figsize)]
  | _ => []
  end.

Lemma energy_axes_run (ax figsize : val) w :
  (match ax with
   | VNone =>
       let kw : dict :=
         <["figsize" := figsize]>
         (<["constrained_layout" := VBool true]> ∅) in
       '(_, ax) ← call "plt.subplots" [] kw (Ok (plt_subplots kw));
       mret ax
   | ax => mret ax
   end) w
  = (Ok (energy_axes ax figsize),
     World (w_heap w) (w_trace w ++ subplots_events ax figsize)).
Proof.
  unfold energy_axes, subplots_events, subplots_kwargs.
  destruct ax; try (unfold mret, M_ret; rewrite app_nil_r; by destruct w).
  cbv zeta. erewrite bind_ok by apply call_ok.
  by destruct (plt_subplots _).
Qed.

(** Lines 57-66: the annotations, the legend, the ticks. *)
Definition finish_plot (ax energy bfmi legend : val) : M val :=
  b ← py_bool bfmi;
  ((if b : bool then
     vals ← call "stats.bfmi" [energy] ∅ (e_bfmi energy);
     for_each (enumerate vals) (λ iv,
       call "ax.plot" [ax; VSeq []]
         (<["label" := VStr (bfmi_label iv.1 iv.2)]>
          (<["alpha" := VInt 0]> ∅))
         (Ok tt))
   else mret tt) : M unit);;
  b ← py_bool legend;
  ((if b : bool then call "ax.legend" [ax] ∅ (Ok tt) else mret tt) : M unit);;
  call "ax.set_xticks" [ax; VSeq []] ∅ (Ok tt);;
  call "ax.set_yticks" [ax; VSeq []] ∅ (Ok tt);;
  mret ax.

(** The part of [_plot_energy] after the loops writes no dictionary. *)
Lemma finish_heap ax energy bfmi legend w :
  w_heap (finish_plot ax energy bfmi legend w).2 = w_heap w.
Proof.
  unfold finish_plot. erewrite bind_ok by reflexivity. cbv beta.
  destruct (truthy (w_heap w) bfmi).
  - destruct (e_bfmi energy) as [vals|e].
    + erewrite bind_ok; cycle 1.
      { erewrite bind_ok by apply call_ok. apply for_each_call. }
      cbv beta. erewrite bind_ok by reflexivity. cbv beta. cbn [w_heap].
      by destruct (truthy (w_heap w) legend).
    + by erewrite bind_raise
        by (erewrite bind_raise by apply call_raise; reflexivity).
  - erewrite bind_ok by reflexivity. cbv beta.
    erewrite bind_ok by reflexivity. cbv beta.
    by destruct (truthy (w_heap w) legend).
Qed.














(** The keywords [ax.hist] is given explicitly for an element of [series]
    (lines 46-50), and the two calls made for it. *)
Definition hist_kwargs_of (s : series_item) : dict :=
  <["bins" := VStr "auto"]>
  (<["density" := VBool true]>
  (<["alpha" := s_alpha s]>
  (<["label" := s_label s]>
  (<["color" := s_color s]> ∅)))).

Definition hist_events (ax : val) (extra : dict) (s : series_item)
    : list event :=
  [ECall "flatten" [s_value s] ∅;
   ECall "ax.hist" [ax; np_flatten (s_value s)] (hist_kwargs_of s ∪ extra)].

Lemma kind_hist_not_kde (kind : string) :
  kind ∈ ["hist"; "histogram"] → kind ≠ "kde".
Proof. intros Hk ->. by repeat (apply elem_of_cons in Hk as [?|Hk]; [done|]);
  apply elem_of_nil in Hk. Qed.

(** X6. In "hist" mode the entries of [plot_kwargs] go to [ax.hist]
    beside the keywords bins, density, alpha, label and color.  A
    [plot_kwargs] holding one of these five makes the call raise
    [TypeError] at the first element of [series]: its values have been
    flattened, no histogram was drawn and no dictionary written. *)
Theorem plot_energy_hist_keyword_clash (ax : val) (s0 : series_item)
    (rest : list series_item) (energy : val) (kind : string)
    (bfmi figsize xt_labelsize linewidth fill_kwargs : val) (lp : loc)
    (bw legend : val) (dp : dict) (k : string) (w : world) :
  kind ∈ ["hist"; "histogram"] →
  w_heap w !! lp = Some dp →
  k ∈ ["bins"; "density"; "alpha"; "label"; "color"] →
  is_Some (dp !! k) →
  ∃ msg,
    _plot_energy ax (s0 :: rest) energy kind bfmi figsize xt_labelsize
      linewidth fill_kwargs (VDict lp) bw legend w
    = (Raise (TypeError msg),
       World (w_heap w)
         (w_trace w ++ subplots_events ax figsize
          ++ [ECall "flatten" [s_value s0] ∅])).
Proof.
  intros Hkind Hlp Hk [v Hv]. unfold _plot_energy.
  erewrite bind_ok by apply energy_axes_run. cbv beta.
  rewrite decide_False by by apply kind_hist_not_kde.
  rewrite decide_True by done.
  eexists. erewrite bind_raise; [reflexivity|].
  cbn [for_each]. erewrite bind_raise; [reflexivity|].
  erewrite bind_ok by apply call_ok. cbv beta.
  erewrite bind_ok by (by apply dict_read_run). cbv beta.
  unfold call_kw. erewrite bind_raise; [reflexivity|].
  unfold kw_merge. rewrite decide_False; cycle 1.
  { intros Hd. pose proof (proj1 (map_disjoint_spec _ _) Hd) as Hd'.
    assert (is_Some (hist_kwargs_of s0 !! k)) as [v' Hv'].
    { unfold hist_kwargs_of.
      repeat (apply elem_of_cons in Hk as [->|Hk]; [by eexists|]).
      by apply elem_of_nil in Hk. }
    by apply (Hd' k v' v). }
  unfold lift. cbn [w_heap w_trace]. by rewrite <- app_assoc.
Qed.


Lemma emits_finish P ax energy bfmi legend :
  (∀ f args kw,
     f ∈ ["stats.bfmi"; "ax.plot"; "ax.legend"; "ax.set_xticks";
          "ax.set_yticks"] → P (ECall f args kw)) →
  emits P (finish_plot ax energy bfmi legend).
Proof.
  intros HP. unfold finish_plot.
  repeat first
    [ apply emits_py_bool | apply emits_ret
    | apply emits_call; apply HP; compute_done
    | apply emits_for_each; intros ?
    | apply emits_bind; [|intros ?]
    | case_match ].
Qed.

Lemma foldl_snoc_bind {A B} (f : A → list B) (l : list A) (acc : list B) :
  foldl (λ st x, st ++ f x) acc l = acc ++ (l ≫= f).
Proof.
  revert acc. induction l as [|x l IH]; intros acc; simpl.
  - by rewrite app_nil_r.
  - rewrite IH. by rewrite <- app_assoc.
Qed.

(** A call other than those of the histogram loop. *)
Definition not_hist (e : event) : Prop :=
  call_name e ∉ ["flatten"; "ax.hist"].

Lemma hist_loop_inv (ax : val) (lp : loc) (dp : dict)
    (series : list series_item) (w w2 : world) :
  w_heap w !! lp = Some dp →
  for_each series (λ s,
    flat ← call "flatten" [s_value s] ∅ (Ok (np_flatten (s_value s)));
    extra ← mapping_of (VDict lp);
    call_kw "ax.hist" [ax; flat]
      (<["bins" := VStr "auto"]>
       (<["density" := VBool true]>
       (<["alpha" := s_alpha s]>
       (<["label" := s_label s]>
       (<["color" := s_color s]> ∅)))))
      extra) w = (Ok tt, w2) →
  w_heap w2 = w_heap w ∧
  (∀ s, s ∈ series → hist_kwargs_of s ##ₘ dp) ∧
  w_trace w2 = w_trace w ++ (series ≫= hist_events ax dp).
Proof.
  revert w. induction series as [|s series IH]; intros w Hlp E.
  - injection E as <-. split; [done|]. split; [by intros s ?%elem_of_nil|].
    simpl. by rewrite app_nil_r.
  - cbn [for_each] in E. apply bind_inv_ok in E as ([] & w1 & E1 & E).
    revert E1. erewrite bind_ok by apply call_ok. cbv beta.
    cbn [mapping_of]. erewrite bind_ok by (by apply dict_read_run). cbv beta.
    unfold call_kw, kw_merge. fold (hist_kwargs_of s).
    destruct (decide (hist_kwargs_of s ##ₘ dp)) as [Hd|Hd]; [|done].
    erewrite bind_ok by reflexivity. cbv beta. rewrite call_ok.
    intros [= <-].
    apply IH in E as (Hh & Hds & Ht); [|done].
    split; [done|]. split.
    + intros s' [->|Hs']%elem_of_cons; [done|by apply Hds].
    + rewrite Ht. cbn [w_trace]. unfold hist_events at 2.
      rewrite <- !app_assoc. reflexivity.
Qed.

(** X7. In "hist" mode a call that returns has made, for each element of
    [series] in order, one [flatten] call and one [ax.hist] call with
    bins "auto", density [True], the element's alpha, label and colour
    and the entries of [plot_kwargs], which shares no key with these.  It
    returns the axes it drew on and has written to no dictionary. *)
Theorem plot_energy_hist_calls (ax : val) (series : list series_item)
    (energy : val) (kind : string)
    (bfmi figsize xt_labelsize linewidth fill_kwargs : val) (lp : loc)
    (bw legend : val) (dp : dict) (w w' : world) (r : val) :
  kind ∈ ["hist"; "histogram"] →
  w_heap w !! lp = Some dp →
  _plot_energy ax series energy kind bfmi figsize xt_labelsize linewidth
    fill_kwargs (VDict lp) bw legend w = (Ok r, w') →
  r = energy_axes ax figsize ∧
  w_heap w' = w_heap w ∧
  (∀ s, s ∈ series → hist_kwargs_of s ##ₘ dp) ∧
  ∃ post,
    w_trace w'
    = w_trace w ++ subplots_events ax figsize
      ++ (series ≫= hist_events (energy_axes ax figsize) dp) ++ post ∧
    Forall not_hist post.
Proof.
  intros Hkind Hlp E. unfold _plot_energy in E.
  apply bind_inv_ok in E as (ax' & w1 & E1 & E).
  rewrite energy_axes_run in E1. injection E1 as <- <-.
  rewrite decide_False in E by by apply kind_hist_not_kde.
  rewrite decide_True in E by done.
  apply bind_inv_ok in E as ([] & w2 & E2 & E).
  change (finish_plot (energy_axes ax figsize) energy bfmi legend w2 = (Ok r, w'))
    in E.
  pose proof (finish_heap (energy_axes ax figsize) energy bfmi legend w2) as Hf.
  rewrite E in Hf. cbn [snd] in Hf.
  assert (r = energy_axes ax figsize) as ->.
  { revert E. unfold finish_plot. intros E.
    repeat (apply bind_inv_ok in E as (? & ? & _ & E)). by injection E as <-. }
  apply (emits_run not_hist) in E as (post & Ht & Hpost); cycle 1.
  { apply emits_finish. intros f args kw Hin. unfold not_hist. simpl.
    intros Hf'.
    repeat (apply elem_of_cons in Hin as [->|Hin];
            [by repeat (apply elem_of_cons in Hf' as [Hf'|Hf']; [done|]);
                apply elem_of_nil in Hf'|]).
    by apply elem_of_nil in Hin. }
  set (t0 := w_trace w ++ subplots_events ax figsize) in *.
  assert (w_heap w2 = w_heap w ∧
          (∀ s, s ∈ series → hist_kwargs_of s ##ₘ dp) ∧
          w_trace w2 = t0 ++ (series ≫= hist_events (energy_axes ax figsize) dp))
    as (Hh & Hd & Ht2).
  { apply (hist_loop_inv _ lp dp) in E2; [exact E2|exact Hlp]. }
  split; [done|]. split; [congruence|]. split; [done|].
  exists post. split; [|done]. rewrite Ht, Ht2. unfold t0.
  by rewrite <- !app_assoc.
Qed.


Lemma plot_energy_invalid_kind_run (ax : val) (series : list series_item)
    (energy : val) (kind : string)
    (bfmi figsize xt_labelsize linewidth fill_kwargs plot_kwargs bw
     legend : val) (w : world) :
  kind ∉ ["kde"; "hist"; "histogram"] →
  _plot_energy ax series energy kind bfmi figsize xt_labelsize linewidth
    fill_kwargs plot_kwargs bw legend w
  = (Raise (ValueError ("Plot type " +:+ kind +:+ " not recognized.")),
     World (w_heap w) (w_trace w ++ subplots_events ax figsize)).
Proof.
  intros Hk. unfold _plot_energy.
  assert (kind ≠ "kde") as Hkde by (intros ->; apply Hk; by left).
  assert (kind ∉ ["hist"; "histogram"]) as Hhist
    by (intros Hin; apply Hk; by right).
  erewrite bind_ok by apply energy_axes_run. cbv beta.
  by rewrite !decide_False by done.
Qed.

End energy_effects.

(** The two series of an energy plot, and a heap with two empty bags. *)
Definition example_series : list mpl_energyplot.series_item :=
  [mpl_energyplot.Series (VInt 1) (VStr "C0") (VStr "Marginal Energy")
     (VArray (NdArray kind_f [np.of_Z 1; np.of_Z 3]));
   mpl_energyplot.Series (VInt 1) (VStr "C5") (VStr "Energy transition")
     (VArray (NdArray kind_f [np.of_Z 2]))].

Definition example_bags_world (plot_kwargs : dict) : world :=
  World (<[1%positive := ∅]> (<[2%positive := plot_kwargs]> ∅)) [].

Definition example_energy (kind : string) (ax : val) : M val :=
  mpl_energyplot._plot_energy (H := stubs) ax example_series
    (VObj 11%positive) kind (VBool false) VNone (VInt 12) (VInt 2)
    (VDict 1%positive) (VDict 2%positive) (VFloat (np.of_Z 4)) (VBool true).


Lemma plot_energy_hist_keyword_clash_witness :
  ∃ msg,
    example_energy "hist" (VObj 8%positive)
      (example_bags_world (<["color" := VStr "r"]> ∅))
    = (Raise (TypeError msg),
       World (w_heap (example_bags_world (<["color" := VStr "r"]> ∅)))
         [ECall "flatten" [VArray (NdArray kind_f [np.of_Z 1; np.of_Z 3])] ∅]).
Proof.
  destruct (plot_energy_hist_keyword_clash (H := stubs) (VObj 8%positive)
              (mpl_energyplot.Series (VInt 1) (VStr "C0")
                 (VStr "Marginal Energy")
                 (VArray (NdArray kind_f [np.of_Z 1; np.of_Z 3])))
              [mpl_energyplot.Series (VInt 1) (VStr "C5")
                 (VStr "Energy transition")
                 (VArray (NdArray kind_f [np.of_Z 2]))]
              (VObj 11%positive) "hist" (VBool false) VNone (VInt 12) (VInt 2)
              (VDict 1%positive) 2%positive (VFloat (np.of_Z 4)) (VBool true)
              (<["color" := VStr "r"]> ∅) "color"
              (example_bags_world (<["color" := VStr "r"]> ∅)))
    as [msg E].
  - compute_done.
  - reflexivity.
  - compute_done.
  - by eexists.
  - exists msg. exact E.
Defined.

Lemma plot_energy_hist_calls_witness :
  w_heap (example_energy "hist" (VObj 8%positive)
            (example_bags_world (<["histtype" := VStr "step"]> ∅))).2
  = w_heap (example_bags_world (<["histtype" := VStr "step"]> ∅)) ∧
  ∃ post,
    w_trace (example_energy "hist" (VObj 8%positive)
               (example_bags_world (<["histtype" := VStr "step"]> ∅))).2
    = (example_series
         ≫= hist_events (H := stubs) (VObj 8%positive)
              (<["histtype" := VStr "step"]> ∅)) ++ post.
Proof.
  destruct (plot_energy_hist_calls (H := stubs) (VObj 8%positive)
              example_series (VObj 11%positive) "hist" (VBool false) VNone
              (VInt 12) (VInt 2) (VDict 1%positive) 2%positive
              (VFloat (np.of_Z 4)) (VBool true)
              (<["histtype" := VStr "step"]> ∅)
              (example_bags_world (<["histtype" := VStr "step"]> ∅))
              (example_energy "hist" (VObj 8%positive)
                 (example_bags_world (<["histtype" := VStr "step"]> ∅))).2
              (VObj 8%positive))
    as (_ & Hh & _ & post & Ht & _).
  - compute_done.
  - reflexivity.
  - by vm_compute.
  - split; [exact Hh|]. exists post. exact Ht.
Defined.

(** ** The bokeh distribution plot *)

Section dist_effects.
Context `{Collaborators}.
Import bokeh_distplot.

(** The keywords of line 47, the drawing surface of a call (the one given,
    or a new figure) and the call that makes it. *)
Definition figure_kwargs : dict :=
  <["width" := VInt 500]>
  (<["height" := VInt 500]>
  (<["output_backend" := VStr "webgl"]>
  (<["tools" := VStr tools]> ∅))).

Definition dist_axes (a : args) : val :=
  match ax a with
  | VNone => bkp_figure figure_kwargs
  | v => v
  end.

Definition figure_events (a : args) : list event :=
  match ax a with
  | VNone => [ECall "bkp.figure" [] figure_kwargs]
  | _ => []
  end.

(** The kind in force after line 50. *)
Definition effective_kind (a : args) : string :=
  if decide (kind a = "auto") then
    if decide (dtype (values a) = kind_i) then "hist" else "kde"
  else kind a.

(** Lines 88-90. *)
Definition show_and_return (a : args) (ax : val) : M val :=
  b ← py_bool (show a);
  ((if b : bool then
      call "bkp.show" [ax] (<["toolbar_location" := VStr "above"]> ∅) (Ok tt)
    else mret tt) : M unit);;
  mret ax.

Lemma dist_axes_run (a : args) w :
  (match ax a with
   | VNone =>
       let kw : dict :=
         <["width" := VInt 500]>
         (<["height" := VInt 500]>
         (<["output_backend" := VStr "webgl"]>
         (<["tools" := VStr tools]> ∅))) in
       call "bkp.figure" [] kw (Ok (bkp_figure kw))
   | ax => mret ax
   end) w
  = (Ok (dist_axes a), World (w_heap w) (w_trace w ++ figure_events a)).
Proof.
  unfold dist_axes, figure_events.
  destruct (ax a); try (unfold mret, M_ret; rewrite app_nil_r; by destruct w).
  reflexivity.
Qed.

Lemma plot_dist_hist_run (a : args) w :
  effective_kind a = "hist" →
  _plot_dist_bokeh a w
  = ((_histplot_bokeh_op (values a) (values2 a) (rotated a) (dist_axes a)
        (hist_kwargs a);; mret tt);;
     show_and_return a (dist_axes a))
      (World (w_heap w) (w_trace w ++ figure_events a)).
Proof.
  intros Hk. unfold _plot_dist_bokeh.
  erewrite bind_ok by apply dist_axes_run. cbv beta zeta.
  fold (effective_kind a). rewrite Hk. reflexivity.
Qed.


(** X9. Two inputs the histogram path of [_plot_dist_bokeh] does not take
    ([kind] "hist", or "auto" over integers): a second sample [values2]
    raises [NotImplementedError], and the default [hist_kwargs] ([None])
    raises [AttributeError], as the bag is popped from without a test.  In
    both cases the figure, when none was passed, has been created, nothing
    is shown and no dictionary is written. *)
Theorem plot_dist_hist_unsupported (a : args) (w : world) :
  effective_kind a = "hist" →
  (is_Some (values2 a) →
   _plot_dist_bokeh a w
   = (Raise (NotImplementedError "Insert hexbin plot here"),
      World (w_heap w) (w_trace w ++ figure_events a))) ∧
  (values2 a = None → hist_kwargs a = VNone →
   ∃ msg,
     _plot_dist_bokeh a w
     = (Raise (AttributeError msg),
        World (w_heap w) (w_trace w ++ figure_events a))).
Proof.
  intros Hk. split.
  - intros [v2 Hv]. rewrite plot_dist_hist_run by done. by rewrite Hv.
  - intros Hv Hh. rewrite plot_dist_hist_run by done. rewrite Hv, Hh.
    by eexists.
Qed.

(** The keywords of the [plot_kde] call of lines 63-84. *)
Definition kde_kwargs (a : args) (plot_kwargs : val) : dict :=
  <["cumulative" := cumulative a]>
  (<["rug" := rug a]>
  (<["label" := label a]>
  (<["bw" := bw a]>
  (<["quantiles" := quantiles a]>
  (<["rotated" := rotated a]>
  (<["contour" := contour a]>
  (<["legend" := VBool (negb (is_none (label a)))]>
  (<["fill_last" := fill_last a]>
  (<["plot_kwargs" := plot_kwargs]>
  (<["fill_kwargs" := fill_kwargs a]>
  (<["rug_kwargs" := rug_kwargs a]>
  (<["contour_kwargs" := contour_kwargs a]>
  (<["contourf_kwargs" := contourf_kwargs a]>
  (<["pcolormesh_kwargs" := pcolormesh_kwargs a]>
  (<["ax" := dist_axes a]>
  (<["backend" := VStr "bokeh"]>
  (<["show" := VBool false]> ∅))))))))))))))))).

(** The dictionary [plot_kde] finds behind "plot_kwargs": the caller's, or
    a new one, in both cases with a "line_color". *)
Definition line_kwargs (a : args) (h : heap) : loc * dict :=
  match plot_kwargs a with
  | VDict l =>
      let d := default ∅ (h !! l) in
      (l, <["line_color" := default (color a) (d !! "line_color")]> d)
  | _ => (fresh (dom h), <["line_color" := color a]> ∅)
  end.

Lemma plot_dist_kde_run (a : args) w :
  effective_kind a = "kde" →
  match plot_kwargs a with
  | VNone => True
  | VDict l => is_Some (w_heap w !! l)
  | _ => False
  end →
  let lk := line_kwargs a (w_heap w) in
  let kw := kde_kwargs a (VDict lk.1) in
  let pos := [VArray (values a); array_or_none (values2 a)] in
  _plot_dist_bokeh a w
  = ((call_st "plot_kde" pos kw (plot_kde pos kw);; mret tt);;
     show_and_return a (dist_axes a))
      (World (<[lk.1 := lk.2]> (w_heap w)) (w_trace w ++ figure_events a)).
Proof.
  intros Hk Hpk. unfold _plot_dist_bokeh.
  erewrite bind_ok by apply dist_axes_run. cbv beta zeta.
  fold (effective_kind a). rewrite Hk.
  rewrite decide_False by done. rewrite decide_True by done.
  unfold line_kwargs.
  destruct (plot_kwargs a) as [| | | | | |l| | | |] eqn:Epk; try done.
  - apply bind_same.
    erewrite bind_ok by (erewrite bind_ok by reflexivity; reflexivity).
    cbv beta. cbn [setdefault_of].
    erewrite bind_ok by (apply dict_setdefault_run; apply lookup_insert_eq).
    cbv beta. cbn [w_heap w_trace]. rewrite insert_insert_eq.
    rewrite lookup_empty. cbn [default from_option id]. reflexivity.
  - destruct Hpk as [d Hd]. rewrite Hd. cbn [default from_option id].
    apply bind_same.
    erewrite bind_ok by reflexivity. cbv beta. cbn [setdefault_of].
    erewrite bind_ok by (apply dict_setdefault_run; exact Hd).
    cbv beta. reflexivity.
Qed.


(** X10. On the kde path [plot_kde] is called with [backend="bokeh"],
    [show=False], [legend] set exactly when [label] is not [None], and a
    "plot_kwargs" dictionary that has a "line_color": the caller's
    dictionary, updated in place, keeps its own "line_color" and otherwise
    receives [color]; without a caller's dictionary a new one holds
    [color]. *)
Theorem plot_dist_kde_line_color (a : args) (w : world) :
  effective_kind a = "kde" →
  match plot_kwargs a with
  | VNone => True
  | VDict l => is_Some (w_heap w !! l)
  | _ => False
  end →
  ∃ l dl kw,
    _plot_dist_bokeh a w
    = ((call_st "plot_kde" [VArray (values a); array_or_none (values2 a)] kw
          (plot_kde [VArray (values a); array_or_none (values2 a)] kw);;
        mret tt);;
       show_and_return a (dist_axes a))
        (World (<[l := dl]> (w_heap w)) (w_trace w ++ figure_events a)) ∧
    kw !! "plot_kwargs" = Some (VDict l) ∧
    kw !! "legend" = Some (VBool (negb (is_none (label a)))) ∧
    kw !! "show" = Some (VBool false) ∧
    kw !! "backend" = Some (VStr "bokeh") ∧
    kw !! "ax" = Some (dist_axes a) ∧
    match plot_kwargs a with
    | VDict l0 =>
        l = l0 ∧
        ∃ d, w_heap w !! l0 = Some d ∧
             dl = <["line_color" := default (color a) (d !! "line_color")]> d
    | _ => w_heap w !! l = None ∧ dl = <["line_color" := color a]> ∅
    end.
Proof.
  intros Hk Hpk.
  exists (line_kwargs a (w_heap w)).1, (line_kwargs a (w_heap w)).2,
    (kde_kwargs a (VDict (line_kwargs a (w_heap w)).1)).
  split; [by apply plot_dist_kde_run|].
  do 5 (split; [done|]).
  unfold line_kwargs.
  destruct (plot_kwargs a) as [| | | | | |l| | | |]; try done.
  - split; [|done]. apply not_elem_of_dom, is_fresh.
  - destruct Hpk as [d Hd]. split; [done|]. exists d. by rewrite Hd.
Qed.

Lemma bind_inv {A B} (m : M A) (k : A → M B) w :
  (∃ a w1, m w = (Ok a, w1) ∧ (m ≫= k) w = k a w1) ∨
  (∃ e w1, m w = (Raise e, w1) ∧ (m ≫= k) w = (Raise e, w1)).
Proof.
  unfold mbind, M_bind. destruct (m w) as [[a|e] w1]; [left|right]; eauto.
Qed.

(** A call other than the making and the showing of the figure. *)
Definition drawing (e : event) : Prop :=
  call_name e ∉ ["bkp.show"; "bkp.figure"].

Lemma emits_histplot P values values2 rotated ax hist_kwargs :
  (∀ f args kw, f ∈ ["get_bins"; "np.histogram"; "np.cumsum"; "ax.quad"] →
                P (ECall f args kw)) →
  emits P (_histplot_bokeh_op values values2 rotated ax hist_kwargs).
Proof.
  intros HP. unfold _histplot_bokeh_op.
  destruct values2; [apply emits_raise|].
  repeat first
    [ apply emits_pop_default_of | apply emits_setitem | apply emits_mapping_of
    | apply emits_py_bool | apply emits_ret | apply emits_lift
    | apply emits_call; apply HP; compute_done
    | apply emits_call_kw; intros; apply HP; compute_done
    | apply emits_bind; [|intros ?]
    | case_match ].
Qed.

Lemma show_and_return_run (a : args) (ax : val) (w : world) :
  show_and_return a ax w
  = (Ok ax,
     World (w_heap w)
       (w_trace w ++
        if truthy (w_heap w) (show a)
        then [ECall "bkp.show" [ax] (<["toolbar_location" := VStr "above"]> ∅)]
        else [])).
Proof.
  unfold show_and_return. erewrite bind_ok by reflexivity. cbv beta.
  destruct (truthy (w_heap w) (show a)).
  - by erewrite bind_ok by apply call_ok.
  - unfold mret, M_ret. simpl. rewrite app_nil_r. by destruct w.
Qed.

(** X11. [_plot_dist_bokeh] shows the figure itself: a call that returns
    gives back the axes it drew on, and its last act is
    [bkp.show(ax, toolbar_location="above")] exactly when [show] is true;
    a call that raises shows nothing.  Nothing called in between is
    [bkp.show] or makes a figure. *)
Theorem plot_dist_show (a : args) (w : world) :
  ∃ t shown,
    w_trace (_plot_dist_bokeh a w).2
    = w_trace w ++ figure_events a ++ t ++ shown ∧
    Forall drawing t ∧
    match (_plot_dist_bokeh a w).1 with
    | Ok r =>
        r = dist_axes a ∧
        shown = if truthy (w_heap (_plot_dist_bokeh a w).2) (show a)
                then [ECall "bkp.show" [dist_axes a]
                        (<["toolbar_location" := VStr "above"]> ∅)]
                else []
    | Raise _ => shown = []
    end.
Proof.
  unfold _plot_dist_bokeh.
  erewrite bind_ok by apply dist_axes_run. cbv beta zeta.
  fold (effective_kind a).
  set (w0 := World _ _).
  match goal with
  | |- context [(?m ≫= ?k) w0] =>
      change k with (λ _ : (), show_and_return a (dist_axes a));
      assert (emits drawing m) as Hm;
      [|destruct (bind_inv m (λ _ : (), show_and_return a (dist_axes a)) w0)
          as [(u & w1 & E1 & ->)|(e & w1 & E1 & ->)];
        apply (emits_run drawing) in E1 as (t & Ht & Pt); try exact Hm;
        clear Hm]
  end.
  { case_decide; [|case_decide].
    - apply emits_bind; [|intros; apply emits_ret].
      apply emits_histplot. intros f args kw Hf. unfold drawing. simpl.
      intros Hin. 
      repeat (apply elem_of_cons in Hf as [->|Hf];
              [by repeat (apply elem_of_cons in Hin as [Hin|Hin]; [done|]);
                  apply elem_of_nil in Hin|]).
      by apply elem_of_nil in Hf.
    - repeat first
        [ apply emits_dict_new | apply emits_setdefault_of | apply emits_ret
        | apply emits_call_st; compute_done
        | apply emits_bind; [|intros ?] | case_match ].
    - apply emits_raise. }
  - exists t. cbn [w_trace w0] in Ht. rewrite show_and_return_run.
    cbn [fst snd w_heap w_trace]. eexists. split; [|split; [done|done]].
    rewrite Ht. by rewrite <- !app_assoc.
  - exists t, []. cbn [fst snd]. cbn [w_trace w0] in Ht. rewrite Ht.
    rewrite <- !app_assoc. rewrite app_nil_r. done.
Qed.


Lemma plot_dist_invalid_kind_run (a : args) (w : world) :
  kind a ∉ ["auto"; "kde"; "hist"] →
  _plot_dist_bokeh a w
  = (Raise (TypeError (kind_message (kind a))),
     World (w_heap w) (w_trace w ++ figure_events a)).
Proof.
  intros Hk. unfold _plot_dist_bokeh.
  assert (kind a ≠ "auto") as Hauto by (intros E; apply Hk; rewrite E; by left).
  assert (kind a ≠ "hist") as Hhist
    by (intros E; apply Hk; rewrite E; by do 2 right; left).
  assert (kind a ≠ "kde") as Hkde
    by (intros E; apply Hk; rewrite E; by right; left).
  erewrite bind_ok by apply dist_axes_run. cbv beta zeta.
  rewrite (decide_False (P := kind a = "auto")) by done.
  by rewrite !decide_False by done.
Qed.

End dist_effects.

Lemma plot_dist_hist_unsupported_witness :
  ∃ msg,
    bokeh_distplot._plot_dist_bokeh (H := stubs)
      (example_dist "auto" kind_i VNone) example_world
    = (Raise (AttributeError msg), example_world).
Proof.
  destruct (proj2 (plot_dist_hist_unsupported (H := stubs)
                     (example_dist "auto" kind_i VNone) example_world
                     eq_refl) eq_refl eq_refl) as [msg E].
  exists msg. rewrite E. reflexivity.
Defined.

Lemma plot_dist_kde_line_color_witness :
  ∃ l kw,
    bokeh_distplot._plot_dist_bokeh (H := stubs)
      (example_dist "kde" kind_f VNone) example_world
    = ((call_st "plot_kde"
          [VArray (NdArray kind_f [np.of_Z 1; np.of_Z 2; np.of_Z 3]); VNone]
          kw
          (plot_kde (Collaborators := stubs)
             [VArray (NdArray kind_f [np.of_Z 1; np.of_Z 2; np.of_Z 3]); VNone]
             kw);; mret tt);;
       show_and_return (example_dist "kde" kind_f VNone) (VObj 12%positive))
        (World (<[l := <["line_color" := VStr "C0"]> ∅]>
                  (w_heap example_world)) []) ∧
    kw !! "plot_kwargs" = Some (VDict l) ∧
    w_heap example_world !! l = None.
Proof.
  destruct (plot_dist_kde_line_color (H := stubs)
              (example_dist "kde" kind_f VNone) example_world eq_refl I)
    as (l & dl & kw & E & Hpk & _ & _ & _ & _ & Hf & ->).
  exists l, kw. split; [exact E|]. split; [exact Hpk|exact Hf].
Defined.

(** ** The order of the kind check *)

Section kind_checks.
Context `{Collaborators}.

(** X8. Both backends check [kind] after the drawing surface exists.  When
    [kind] is rejected and no axes were passed, the figure has been
    created by the time the error is raised (one [bkp.figure] call, one
    [plt.subplots] call); with axes passed nothing was called.  In both
    cases no dictionary was written. *)
Theorem kind_checked_after_figure (a : bokeh_distplot.args) (w : world)
    (ax : val) (series : list mpl_energyplot.series_item)
    (energy : val) (kind_e : string)
    (bfmi figsize xt_labelsize linewidth fill_kwargs plot_kwargs bw
     legend : val) :
  bokeh_distplot.kind a ∉ ["auto"; "kde"; "hist"] →
  kind_e ∉ ["kde"; "hist"; "histogram"] →
  bokeh_distplot._plot_dist_bokeh a w
  = (Raise (TypeError (bokeh_distplot.kind_message (bokeh_distplot.kind a))),
     World (w_heap w)
       (w_trace w ++
        match bokeh_distplot.ax a with
        | VNone => [ECall "bkp.figure" [] figure_kwargs]
        | _ => []
        end)) ∧
  mpl_energyplot._plot_energy ax series energy kind_e bfmi figsize
    xt_labelsize linewidth fill_kwargs plot_kwargs bw legend w
  = (Raise (ValueError ("Plot type " +:+ kind_e +:+ " not recognized.")),
     World (w_heap w)
       (w_trace w ++
        match ax with
        | VNone => [ECall "plt.subplots" [] (subplots_kwargs figsize)]
        | _ => []
        end)).
Proof.
  intros Hd He. split.
  - by apply plot_dist_invalid_kind_run.
  - by apply plot_energy_invalid_kind_run.
Qed.

End kind_checks.

Lemma kind_checked_after_figure_witness :
  bokeh_distplot._plot_dist_bokeh (H := stubs)
    (bokeh_distplot.Args example_values None (VStr "C0") "bogus"
       (VBool false) VNone (VBool false) (VBool false) (VFloat (np.of_Z 4))
       VNone (VBool true) (VBool true) VNone VNone VNone VNone VNone VNone
       VNone VNone (VBool true)) example_world
  = (Raise (TypeError (bokeh_distplot.kind_message "bogus")),
     World (w_heap example_world) [ECall "bkp.figure" [] figure_kwargs]) ∧
  mpl_energyplot._plot_energy (H := stubs) VNone [] VNone "bogus"
    (VBool true) VNone VNone VNone VNone VNone VNone VNone example_world
  = (Raise (ValueError "Plot type bogus not recognized."),
     World (w_heap example_world)
       [ECall "plt.subplots" [] (subplots_kwargs VNone)]).
Proof.
  apply (kind_checked_after_figure (H := stubs)
           (bokeh_distplot.Args example_values None (VStr "C0") "bogus"
              (VBool false) VNone (VBool false) (VBool false)
              (VFloat (np.of_Z 4)) VNone (VBool true) (VBool true) VNone VNone
              VNone VNone VNone VNone VNone VNone (VBool true))
           example_world VNone [] VNone "bogus" (VBool true) VNone VNone VNone
           VNone VNone VNone VNone); compute_done.
Defined.

(** ** The histogram of the bokeh distribution plot *)

Ltac pop_run :=
  erewrite bind_ok by
    (apply pop_default_run; first [eassumption | apply lookup_insert_eq]);
  cbv beta; cbn [w_heap w_trace]; rewrite ?insert_insert_eq.

Ltac test_run :=
  erewrite bind_ok by reflexivity; cbv beta; cbn [w_heap w_trace].

Section histplot_effects.
Context `{Collaborators}.
Import bokeh_distplot.

(** The keywords [ax.quad] is given explicitly. *)
Definition quad_kwargs (rotated : bool) (heights : ndarray)
    (edges : list pyfloat) : dict :=
  if rotated then
    <["top" := VArray (NdArray kind_f (removelast edges))]>
    (<["bottom" := VArray (NdArray kind_f (tail edges))]>
    (<["left" := VInt 0]>
    (<["right" := VArray heights]> ∅)))
  else
    <["top" := VArray heights]>
    (<["bottom" := VInt 0]>
    (<["left" := VArray (NdArray kind_f (removelast edges))]>
    (<["right" := VArray (NdArray kind_f (tail edges))]> ∅))).

(** What is left of the bag when [ax.quad] is called. *)
Definition consumed (b1 b2 : bool) (d : dict) : dict :=
  delete "cumulative" (delete "density" (delete "bins" (cleaned b1 b2 d))).

(** The call [get_bins] is made when the bag has no "bins", or [None]. *)
Definition bins_events (d : dict) (values : ndarray) : list event :=
  match d !! "bins" with
  | None | Some VNone => [ECall "get_bins" [VArray values] ∅]
  | Some _ => []
  end.

Lemma requested_bins_trace d values w :
  (λ bins0 : val,
     match bins0 with
     | VNone => call "get_bins" [VArray values] ∅ (get_bins values)
     | bins => mret bins
     end) (default VNone (d !! "bins")) w
  = (requested_bins d values,
     World (w_heap w) (w_trace w ++ bins_events d values)).
Proof.
  unfold requested_bins, bins_events. 
  destruct (d !! "bins") as [[]|]; simpl;
    try (unfold mret, M_ret; rewrite app_nil_r; by destruct w);
    by destruct (get_bins values).
Qed.

Lemma heights_run (c : bool) (hist : ndarray) (w : world) :
  ((if c then
      hist ← call "np.cumsum" [VArray hist] ∅ (Ok (np.cumsum hist));
      lift (np.idiv_last hist)
    else mret hist) : M ndarray) w
  = (if c then np.idiv_last (np.cumsum hist) else Ok hist,
     World (w_heap w)
       (w_trace w ++ if c then [ECall "np.cumsum" [VArray hist] ∅] else [])).
Proof.
  destruct c.
  - by erewrite bind_ok by apply call_ok.
  - unfold mret, M_ret. rewrite app_nil_r. by destruct w.
Qed.

Lemma histplot_inv (values : ndarray) (rotated ax : val) (l : loc) (d : dict)
    (w w' : world) (r : val) :
  w_heap w !! l = Some d →
  _histplot_bokeh_op values None rotated ax (VDict l) w = (Ok r, w') →
  ∃ h1 h2 h3 h4 bins hist edges heights,
    let b1 := truthy h1 (default VNone (d !! "label")) in
    let b2 := truthy h2 (default (VBool false) (d !! "color")) in
    let c := truthy h3 (default (VBool false) (d !! "cumulative")) in
    let kw := quad_kwargs (truthy h4 rotated) heights edges in
    requested_bins d values = Ok bins ∧
    np_histogram values true bins = Ok (hist, edges) ∧
    (if c then np.idiv_last (np.cumsum hist) else Ok hist) = Ok heights ∧
    kw ##ₘ consumed b1 b2 d ∧
    r = ax ∧
    w_heap w' = <[l := consumed b1 b2 d]> (w_heap w) ∧
    w_trace w'
    = w_trace w ++ bins_events d values
      ++ [ECall "np.histogram" [VArray values]
            (<["density" := VBool true]> (<["bins" := bins]> ∅))]
      ++ (if c then [ECall "np.cumsum" [VArray hist] ∅] else [])
      ++ [ECall "ax.quad" [ax] (kw ∪ consumed b1 b2 d)].
Proof.
  intros Hl E. unfold _histplot_bokeh_op in E. revert E.
  pop_run. test_run.
  erewrite bind_ok by (apply maybe_set_run; apply lookup_insert_eq).
  cbv beta; cbn [w_heap w_trace]; rewrite ?insert_insert_eq.
  set (h1 := <[l := delete "label" d]> (w_heap w)).
  set (b1 := truthy h1 _).
  pop_run. test_run.
  erewrite bind_ok by (apply maybe_set2_run; apply lookup_insert_eq).
  cbv beta; cbn [w_heap w_trace]; rewrite ?insert_insert_eq.
  match goal with |- context [truthy ?h ?v] =>
    lazymatch h with context [delete "color"] => set (h2 := h) end end.
  assert ((if b1 then <["legend_label" := default VNone (d !! "label")]>
                        (delete "label" d) else delete "label" d) !! "color"
          = d !! "color") as Hcol.
  { destruct b1; rewrite ?lookup_insert_ne by done;
      by rewrite lookup_delete_ne by done. }
  set (b2 := truthy h2 _).
  do 4 pop_run.
  change (delete "orientation" _) with (cleaned b1 b2 d).
  pop_run. rewrite (cleaned_lookup b1 b2 d "bins") by compute_done.
  assert (b2 = truthy h2 (default (VBool false) (d !! "color"))) as Eb2
    by (subst b2; by rewrite Hcol).
  clearbody b2. clear Hcol.
  match goal with
  | |- context [(_ ≫= _) ?W] => pose proof (requested_bins_trace d values W) as Et
  end.
  destruct (requested_bins d values) as [bins|e] eqn:Ebins;
    [|by erewrite bind_raise by exact Et].
  erewrite bind_ok by exact Et. cbv beta; cbn [w_heap w_trace].
  pop_run. rewrite lookup_delete_ne by done. rewrite cleaned_density.
  cbn [default from_option id]. test_run. cbn [truthy].
  destruct (np_histogram values true bins) as [[hist edges]|e] eqn:Ehist;
    [|by erewrite bind_raise by apply call_raise].
  erewrite bind_ok by apply call_ok. cbv beta iota. cbn [w_heap w_trace].
  pop_run. rewrite !lookup_delete_ne by done.
  rewrite (cleaned_lookup b1 b2 d "cumulative") by compute_done.
  test_run.
  match goal with |- context [truthy ?h (default (VBool false) (d !! "cumulative"))] =>
    set (h3 := h) end.
  set (c := truthy h3 _).
  change (delete "cumulative" _) with (consumed b1 b2 d).
  match goal with
  | |- context [(_ ≫= _) ?W] => pose proof (heights_run c hist W) as Eh
  end.
  destruct (if c then np.idiv_last (np.cumsum hist) else Ok hist)
    as [heights|e] eqn:Ehts;
    [|by erewrite bind_raise by exact Eh].
  erewrite bind_ok by exact Eh. clear Eh. cbv beta; cbn [w_heap w_trace].
  erewrite bind_ok by (apply dict_read_run; apply lookup_insert_eq).
  cbv beta. test_run.
  destruct (truthy h3 rotated) eqn:Er.
  all: unfold call_kw at 1, kw_merge.
  all: match goal with |- context [decide (?e ##ₘ ?x)] =>
         destruct (decide (e ##ₘ x)) as [Hdisj|Hdisj]; [|done] end.
  all: erewrite bind_ok by reflexivity; cbv beta.
  all: intros [= <- <-].
  all: exists h1, h2, h3, h3, bins, hist, edges, heights.
  all: cbv zeta; fold b1; rewrite <- Eb2; fold c; rewrite Er.
  all: split; [done|]; split; [done|]; split; [done|]; split; [done|].
  all: split; [done|]; cbn [w_heap w_trace].
  all: split; [done|]; rewrite <- !app_assoc. 
  all: reflexivity.
Qed.

(** The keys lines 98-118 remove from the bag. *)
Definition popped_keys : list string :=
  ["label"; "color"; "rwidth"; "align"; "density"; "orientation"; "bins";
   "cumulative"].

Ltac lookup_steps :=
  repeat first
    [ rewrite lookup_delete_eq
    | rewrite lookup_delete_ne by done
    | rewrite lookup_insert_eq
    | rewrite lookup_insert_ne by done ].

Lemma consumed_popped b1 b2 d k :
  k ∈ popped_keys → consumed b1 b2 d !! k = None.
Proof.
  intros Hk. unfold popped_keys in Hk. unfold consumed, cleaned.
  repeat (apply elem_of_cons in Hk as [->|Hk];
          [destruct b1, b2; by lookup_steps|]).
  by apply elem_of_nil in Hk.
Qed.

Lemma consumed_lookup b1 b2 d k :
  k ∉ popped_keys → k ∉ ["legend_label"; "fill_color"; "line_color"] →
  consumed b1 b2 d !! k = d !! k.
Proof.
  intros Hp Hn. unfold consumed.
  assert (∀ k', k' ∈ popped_keys → k' ≠ k) as Hne by (intros k' ? ->; done).
  rewrite !lookup_delete_ne by (apply Hne; compute_done).
  apply cleaned_lookup. intros Hin. 
  repeat (apply elem_of_cons in Hin as [->|Hin];
          [first [by apply Hp; compute_done | by apply Hn; compute_done]|]).
  by apply elem_of_nil in Hin.
Qed.

Lemma consumed_legend_label b1 b2 d :
  consumed b1 b2 d !! "legend_label"
  = if b1 then Some (default VNone (d !! "label")) else d !! "legend_label".
Proof. unfold consumed, cleaned. destruct b1, b2; by lookup_steps. Qed.

Lemma consumed_colors b1 b2 d k :
  k ∈ ["fill_color"; "line_color"] →
  consumed b1 b2 d !! k
  = if b2 then Some (default (VBool false) (d !! "color")) else d !! k.
Proof.
  intros Hk. unfold consumed, cleaned.
  repeat (apply elem_of_cons in Hk as [->|Hk];
          [destruct b1, b2; by lookup_steps|]).
  by apply elem_of_nil in Hk.
Qed.

Lemma quad_kwargs_lookup_None rot heights edges k :
  k ∉ ["top"; "bottom"; "left"; "right"] →
  quad_kwargs rot heights edges !! k = None.
Proof.
  intros Hk. unfold quad_kwargs.
  assert (∀ k', k' ∈ ["top"; "bottom"; "left"; "right"] → k' ≠ k) as Hne
    by (intros k' ? ->; done).
  destruct rot; by rewrite !lookup_insert_ne by (apply Hne; compute_done).
Qed.

Lemma quad_bag_lookup rot heights edges (bag : dict) k :
  k ∉ ["top"; "bottom"; "left"; "right"] →
  (quad_kwargs rot heights edges ∪ bag) !! k = bag !! k.
Proof.
  intros Hk. apply lookup_union_r. by apply quad_kwargs_lookup_None.
Qed.


Lemma trace_last (t0 t1 t2 t3 : list event) (e : event) :
  list.last (t0 ++ t1 ++ t2 ++ t3 ++ [e]) = Some e.
Proof. rewrite !app_assoc. apply last_snoc. Qed.

(** X12. [_histplot_bokeh_op] uses up the bag it is given: after a call
    that returns, the caller's [hist_kwargs] has lost "label", "color",
    "rwidth", "align", "density", "orientation", "bins" and "cumulative".
    Entries under other keys (the three it may add apart) are as they
    were, and so is every other dictionary. *)
Theorem histplot_consumes_hist_kwargs (values : ndarray) (rotated ax : val)
    (l : loc) (d : dict) (w w' : world) (r : val) :
  w_heap w !! l = Some d →
  _histplot_bokeh_op values None rotated ax (VDict l) w = (Ok r, w') →
  ∃ d',
    w_heap w' = <[l := d']> (w_heap w) ∧
    (∀ k, k ∈ popped_keys → d' !! k = None) ∧
    (∀ k, k ∉ popped_keys →
          k ∉ ["legend_label"; "fill_color"; "line_color"] →
          d' !! k = d !! k).
Proof.
  intros Hl E.
  destruct (histplot_inv values rotated ax l d w w' r Hl E)
    as (h1 & h2 & h3 & h4 & bins & hist & edges & heights & Hinv).
  cbv zeta in Hinv. destruct Hinv as (_ & _ & _ & _ & _ & Hh & _).
  eexists. split; [exact Hh|]. split.
  - intros k. apply consumed_popped.
  - intros k. apply consumed_lookup.
Qed.

(** X13. What [ax.quad] receives from the bag: none of the eight keys
    removed; a non-empty "label" as "legend_label", and a non-empty
    "color" as both "fill_color" and "line_color".  With no "label", or no
    "color", these keywords are the caller's own, if any. *)
Theorem histplot_renames_label_and_color (values : ndarray)
    (rotated ax : val) (l : loc) (d : dict) (w w' : world) (r : val) :
  w_heap w !! l = Some d →
  _histplot_bokeh_op values None rotated ax (VDict l) w = (Ok r, w') →
  ∃ kw,
    list.last (w_trace w') = Some (ECall "ax.quad" [ax] kw) ∧
    (∀ k, k ∈ popped_keys → kw !! k = None) ∧
    (∀ s, d !! "label" = Some (VStr s) → s ≠ "" →
          kw !! "legend_label" = Some (VStr s)) ∧
    (∀ s, d !! "color" = Some (VStr s) → s ≠ "" →
          kw !! "fill_color" = Some (VStr s) ∧
          kw !! "line_color" = Some (VStr s)) ∧
    (d !! "label" = None → kw !! "legend_label" = d !! "legend_label") ∧
    (d !! "color" = None →
     kw !! "fill_color" = d !! "fill_color" ∧
     kw !! "line_color" = d !! "line_color").
Proof.
  intros Hl E.
  destruct (histplot_inv values rotated ax l d w w' r Hl E)
    as (h1 & h2 & h3 & h4 & bins & hist & edges & heights & Hinv).
  cbv zeta in Hinv. destruct Hinv as (_ & _ & _ & _ & _ & _ & Ht).
  eexists. split; [rewrite Ht; apply trace_last|].
  split.
  { intros k Hk. unfold popped_keys in Hk.
    repeat (apply elem_of_cons in Hk as [->|Hk];
            [rewrite quad_bag_lookup by compute_done;
             apply consumed_popped; compute_done|]).
    by apply elem_of_nil in Hk. }
  split.
  { intros s Hs Hne. rewrite quad_bag_lookup by compute_done.
    rewrite consumed_legend_label, Hs. simpl.
    by rewrite bool_decide_eq_false_2. }
  split.
  { intros s Hs Hne.
    rewrite !quad_bag_lookup by compute_done.
    rewrite !consumed_colors by compute_done. rewrite Hs. simpl.
    by rewrite bool_decide_eq_false_2. }
  split.
  { intros Hn. rewrite quad_bag_lookup by compute_done.
    by rewrite consumed_legend_label, Hn. }
  intros Hn. rewrite !quad_bag_lookup by compute_done.
  rewrite !consumed_colors by compute_done. by rewrite Hn.
Qed.


(** X14. A "density" entry of [hist_kwargs] has no effect: it is removed
    (line 110) before it is read (line 116), so a call that returns has
    called [np.histogram] once, with [density=True], and [ax.quad] gets no
    "density". *)
Theorem histplot_density_is_ignored (values : ndarray) (rotated ax : val)
    (l : loc) (d : dict) (w w' : world) (r : val) :
  w_heap w !! l = Some d →
  _histplot_bokeh_op values None rotated ax (VDict l) w = (Ok r, w') →
  ∃ bins hist edges t1 t2 kw,
    np_histogram values true bins = Ok (hist, edges) ∧
    w_trace w'
    = w_trace w ++ t1
      ++ ECall "np.histogram" [VArray values]
           (<["density" := VBool true]> (<["bins" := bins]> ∅)) :: t2 ∧
    Forall (λ e, call_name e ≠ "np.histogram") (t1 ++ t2) ∧
    list.last (w_trace w') = Some (ECall "ax.quad" [ax] kw) ∧
    kw !! "density" = None.
Proof.
  intros Hl E.
  destruct (histplot_inv values rotated ax l d w w' r Hl E)
    as (h1 & h2 & h3 & h4 & bins & hist & edges & heights & Hinv).
  cbv zeta in Hinv. destruct Hinv as (_ & Hh & _ & _ & _ & _ & Ht).
  eexists bins, hist, edges, (bins_events d values), _, _.
  split; [exact Hh|]. split; [exact Ht|].
  split.
  { apply Forall_app. split.
    - unfold bins_events. repeat case_match; by repeat constructor.
    - apply Forall_app. split; [case_match|]; by repeat constructor. }
  split; [rewrite Ht; apply trace_last|].
  rewrite quad_bag_lookup by compute_done. apply consumed_popped. compute_done.
Qed.

Lemma bins_of_length (edges : list pyfloat) :
  length (np.bins_of edges) = length (tail edges).
Proof.
  unfold np.bins_of. rewrite length_zip_with.
  destruct edges as [|x edges]; [done|]. cbn [tail length]. lia.
Qed.

Lemma removelast_length {A} (l : list A) :
  length (removelast l) = length (tail l).
Proof.
  destruct l as [|x l]; [done|]. simpl tail.
  revert x. induction l as [|y l IH]; intros x; [done|].
  change (removelast (x :: y :: l)) with (x :: removelast (y :: l)).
  cbn [length]. f_equal. apply IH.
Qed.

Lemma histogram_length vals density edges hist :
  np.histogram vals density edges = Ok hist →
  length (elems hist) = length (tail edges).
Proof.
  unfold np.histogram. destruct (np.decreasing_somewhere edges); [done|].
  destruct density; intros [= <-]; simpl.
  - rewrite length_fmap, length_zip_with, length_fmap, counts_length.
    rewrite bins_of_length. lia.
  - by rewrite length_fmap, counts_length, bins_of_length.
Qed.

Lemma cumsum_from_length acc l : length (np.cumsum_from acc l) = length l.
Proof. revert acc. induction l as [|x l IH]; intros acc; simpl; [done|]. by rewrite IH. Qed.

Lemma cumsum_length a : length (elems (np.cumsum a)) = length (elems a).
Proof.
  unfold np.cumsum. simpl. destruct (elems a); [done|].
  simpl. by rewrite cumsum_from_length.
Qed.

Lemma idiv_last_length a b :
  np.idiv_last a = Ok b → length (elems b) = length (elems a).
Proof.
  unfold np.idiv_last. destruct (list.last (elems a)); [|done].
  destruct (dtype a); try done. intros [= <-]. simpl. by rewrite length_fmap.
Qed.

(** X16. A call that returns gives back [ax], and its [ax.quad] call
    draws one bar per bin: the heights and the two edge sequences
    [edges[:-1]] and [edges[1:]] have the same length.  Upright, the
    heights are "top" over a "bottom" of 0, between the "left" and
    "right" edges; rotated, they are "right" from a "left" of 0, with the
    lower edges as "top" and the upper edges as "bottom". *)
Theorem histplot_bar_geometry (values : ndarray) (rot : bool) (ax : val)
    (l : loc) (d : dict) (w w' : world) (r : val) :
  w_heap w !! l = Some d →
  _histplot_bokeh_op values None (VBool rot) ax (VDict l) w = (Ok r, w') →
  ∃ kw heights edges,
    r = ax ∧
    list.last (w_trace w') = Some (ECall "ax.quad" [ax] kw) ∧
    kw !! (if rot then "right" else "top") = Some (VArray heights) ∧
    kw !! (if rot then "left" else "bottom") = Some (VInt 0) ∧
    kw !! (if rot then "top" else "left")
    = Some (VArray (NdArray kind_f (removelast edges))) ∧
    kw !! (if rot then "bottom" else "right")
    = Some (VArray (NdArray kind_f (tail edges))) ∧
    length (elems heights) = length (removelast edges) ∧
    length (elems heights) = length (tail edges).
Proof.
  intros Hl E.
  destruct (histplot_inv values (VBool rot) ax l d w w' r Hl E)
    as (h1 & h2 & h3 & h4 & bins & hist & edges & heights & Hinv).
  cbv zeta in Hinv. cbn [truthy] in Hinv.
  destruct Hinv as (_ & Hh & Hhts & _ & Hr & _ & Ht).
  assert (length (elems heights) = length (tail edges)) as Hlen.
  { unfold np_histogram in Hh.
    destruct (bin_edges values bins) as [es|]; [|done].
    destruct (np.histogram (elems values) true es) as [hi|] eqn:Ehi; [|done].
    injection Hh as -> ->. apply histogram_length in Ehi.
    destruct (truthy h3 _).
    - apply idiv_last_length in Hhts. by rewrite Hhts, cumsum_length.
    - by injection Hhts as <-. }
  exists (quad_kwargs rot heights edges
          ∪ consumed (truthy h1 (default VNone (d !! "label")))
              (truthy h2 (default (VBool false) (d !! "color"))) d),
    heights, edges.
  split; [done|]. split; [rewrite Ht; apply trace_last|].
  rewrite removelast_length.
  destruct rot; repeat (split; [by apply lookup_union_Some_l|]); done.
Qed.


(** X15. The caller's "bins" are the ones used, and then [get_bins] is
    not called; with no "bins", or [None], [get_bins(values)] is called
    first and [np.histogram] gets its result. *)
Theorem histplot_bins (values : ndarray) (rotated ax : val)
    (l : loc) (d : dict) (w w' : world) (r : val) :
  w_heap w !! l = Some d →
  _histplot_bokeh_op values None rotated ax (VDict l) w = (Ok r, w') →
  ∃ bins t,
    w_trace w'
    = w_trace w ++ bins_events d values
      ++ ECall "np.histogram" [VArray values]
           (<["density" := VBool true]> (<["bins" := bins]> ∅)) :: t ∧
    Forall (λ e, call_name e ≠ "get_bins") t ∧
    match d !! "bins" with
    | None | Some VNone =>
        get_bins values = Ok bins ∧
        bins_events d values = [ECall "get_bins" [VArray values] ∅]
    | Some given => bins = given ∧ bins_events d values = []
    end.
Proof.
  intros Hl E.
  destruct (histplot_inv values rotated ax l d w w' r Hl E)
    as (h1 & h2 & h3 & h4 & bins & hist & edges & heights & Hinv).
  cbv zeta in Hinv. destruct Hinv as (Hb & _ & _ & _ & _ & _ & Ht).
  exists bins. eexists. split; [exact Ht|]. split.
  { apply Forall_app. split; [case_match|]; by repeat constructor. }
  unfold requested_bins, bins_events in *.
  destruct (d !! "bins") as [[]|]; try done; by injection Hb as <-.
Qed.

End histplot_effects.

(** A bag with a label, a colour, a "density" of [False], the caller's
    bins and one keyword for the glyphs. *)
Definition example_bag : dict :=
  <["label" := VStr "x"]>
  (<["color" := VStr "red"]>
  (<["density" := VBool false]>
  (<["bins" := VSeq [VInt 0; VInt 2; VInt 4]]>
  (<["line_width" := VInt 2]> ∅)))).

Definition example_bag_world : world :=
  World (<[1%positive := example_bag]> ∅) [].

Definition example_histplot (rotated : bool) : M val :=
  bokeh_distplot._histplot_bokeh_op (H := stubs) example_values None
    (VBool rotated) (VObj 12%positive) (VDict 1%positive).

Lemma histplot_consumes_hist_kwargs_witness :
  ∃ d',
    w_heap (example_histplot false example_bag_world).2
    = <[1%positive := d']> (w_heap example_bag_world) ∧
    d' !! "bins" = None ∧ d' !! "label" = None ∧
    d' !! "line_width" = Some (VInt 2).
Proof.
  destruct (histplot_consumes_hist_kwargs (H := stubs) example_values
              (VBool false) (VObj 12%positive) 1%positive example_bag
              example_bag_world (example_histplot false example_bag_world).2
              (VObj 12%positive)) as (d' & Hh & Hp & Hk).
  - reflexivity.
  - by vm_compute.
  - exists d'. split; [exact Hh|].
    split; [apply Hp; compute_done|]. split; [apply Hp; compute_done|].
    rewrite Hk by compute_done. reflexivity.
Defined.

Lemma histplot_renames_label_and_color_witness :
  ∃ kw,
    list.last (w_trace (example_histplot false example_bag_world).2)
    = Some (ECall "ax.quad" [VObj 12%positive] kw) ∧
    kw !! "label" = None ∧ kw !! "color" = None ∧
    kw !! "legend_label" = Some (VStr "x") ∧
    kw !! "fill_color" = Some (VStr "red") ∧
    kw !! "line_color" = Some (VStr "red").
Proof.
  destruct (histplot_renames_label_and_color (H := stubs) example_values
              (VBool false) (VObj 12%positive) 1%positive example_bag
              example_bag_world (example_histplot false example_bag_world).2
              (VObj 12%positive)) as (kw & Hl & Hp & Hlab & Hcol & _).
  - reflexivity.
  - by vm_compute.
  - exists kw. split; [exact Hl|].
    split; [apply Hp; compute_done|]. split; [apply Hp; compute_done|].
    split; [by apply Hlab|]. by apply Hcol.
Defined.

Lemma histplot_density_is_ignored_witness :
  example_bag !! "density" = Some (VBool false) ∧
  ∃ bins t1 t2,
    w_trace (example_histplot false example_bag_world).2
    = t1 ++ ECall "np.histogram" [VArray example_values]
              (<["density" := VBool true]> (<["bins" := bins]> ∅)) :: t2.
Proof.
  split; [reflexivity|].
  destruct (histplot_density_is_ignored (H := stubs) example_values
              (VBool false) (VObj 12%positive) 1%positive example_bag
              example_bag_world (example_histplot false example_bag_world).2
              (VObj 12%positive))
    as (bins & hist & edges & t1 & t2 & kw & _ & Ht & _).
  - reflexivity.
  - by vm_compute.
  - exists bins, t1, t2. exact Ht.
Defined.

Lemma histplot_bins_witness :
  ∃ t,
    w_trace (example_histplot false example_bag_world).2
    = ECall "np.histogram" [VArray example_values]
        (<["density" := VBool true]>
         (<["bins" := VSeq [VInt 0; VInt 2; VInt 4]]> ∅)) :: t.
Proof.
  destruct (histplot_bins (H := stubs) example_values
              (VBool false) (VObj 12%positive) 1%positive example_bag
              example_bag_world (example_histplot false example_bag_world).2
              (VObj 12%positive)) as (bins & t & Ht & _ & Hb).
  - reflexivity.
  - by vm_compute.
  - destruct Hb as [-> Hev]. rewrite Hev in Ht. exists t. exact Ht.
Defined.

Lemma histplot_bar_geometry_witness :
  ∃ kw heights edges,
    list.last (w_trace (example_histplot true example_bag_world).2)
    = Some (ECall "ax.quad" [VObj 12%positive] kw) ∧
    kw !! "right" = Some (VArray heights) ∧
    kw !! "left" = Some (VInt 0) ∧
    kw !! "top" = Some (VArray (NdArray kind_f (removelast edges))) ∧
    kw !! "bottom" = Some (VArray (NdArray kind_f (tail edges))) ∧
    length (elems heights) = length (tail edges).
Proof.
  destruct (histplot_bar_geometry (H := stubs) example_values
              true (VObj 12%positive) 1%positive example_bag
              example_bag_world (example_histplot true example_bag_world).2
              (VObj 12%positive))
    as (kw & heights & edges & _ & Hl & H1 & H2 & H3 & H4 & _ & H6).
  - reflexivity.
  - by vm_compute.
  - exists kw, heights, edges. repeat (split; [assumption|]). assumption.
Defined.

(** *** Reuse of the bag *)

Section histplot_reuse.
Context `{Collaborators}.
Import bokeh_distplot.

Lemma consumed_again (D : dict) :
  (∀ k, k ∈ popped_keys → D !! k = None) → consumed false false D = D.
Proof.
  intros HD. unfold consumed, cleaned. cbv zeta.
  rewrite (delete_id D "label") by (apply HD; compute_done).
  rewrite (delete_id D "color") by (apply HD; compute_done).
  rewrite (delete_id D "rwidth") by (apply HD; compute_done).
  rewrite (delete_id D "align") by (apply HD; compute_done).
  rewrite (delete_id D "density") by (apply HD; compute_done).
  rewrite (delete_id D "orientation") by (apply HD; compute_done).
  rewrite (delete_id D "bins") by (apply HD; compute_done).
  rewrite (delete_id D "density") by (apply HD; compute_done).
  by rewrite (delete_id D "cumulative") by (apply HD; compute_done).
Qed.

(** X17. A bag that went through [_histplot_bokeh_op] once is not the
    bag the caller made.  Passed again, it asks for no bins and no
    cumulative sums any more: the second call takes its bins from
    [get_bins], draws plain densities, and hands [ax.quad] the remaining
    keywords of the first call ("legend_label" and the colours included);
    it changes no dictionary. *)
Theorem histplot_reuse (values values' : ndarray)
    (rotated rotated' ax ax' : val) (l : loc) (d : dict)
    (w w1 w2 : world) (r1 r2 : val) :
  w_heap w !! l = Some d →
  _histplot_bokeh_op values None rotated ax (VDict l) w = (Ok r1, w1) →
  _histplot_bokeh_op values' None rotated' ax' (VDict l) w1 = (Ok r2, w2) →
  ∃ bins kw1 kw2,
    list.last (w_trace w1) = Some (ECall "ax.quad" [ax] kw1) ∧
    get_bins values' = Ok bins ∧
    w_trace w2
    = w_trace w1
      ++ [ECall "get_bins" [VArray values'] ∅;
          ECall "np.histogram" [VArray values']
            (<["density" := VBool true]> (<["bins" := bins]> ∅));
          ECall "ax.quad" [ax'] kw2] ∧
    (∀ k, k ∉ ["top"; "bottom"; "left"; "right"] → kw2 !! k = kw1 !! k) ∧
    w_heap w2 = w_heap w1.
Proof.
  intros Hl E1 E2.
  destruct (histplot_inv values rotated ax l d w w1 r1 Hl E1)
    as (h1 & h2 & h3 & h4 & bins1 & hist1 & edges1 & heights1 & Hinv).
  cbv zeta in Hinv. destruct Hinv as (_ & _ & _ & _ & _ & Hh1 & Ht1).
  set (D := consumed _ _ d) in *.
  assert (∀ k, k ∈ popped_keys → D !! k = None) as HD
    by (intros k; apply consumed_popped).
  assert (w_heap w1 !! l = Some D) as Hl1
    by (rewrite Hh1; apply lookup_insert_eq).
  destruct (histplot_inv values' rotated' ax' l D w1 w2 r2 Hl1 E2)
    as (h1' & h2' & h3' & h4' & bins & hist & edges & heights & Hinv).
  cbv zeta in Hinv.
  rewrite (HD "label"), (HD "color"), (HD "cumulative") in Hinv
    by compute_done.
  cbn [default from_option id truthy] in Hinv.
  rewrite consumed_again in Hinv by done.
  destruct Hinv as (Hb & _ & _ & _ & _ & Hh2 & Ht2).
  unfold requested_bins, bins_events in *.
  rewrite (HD "bins") in Hb, Ht2 by compute_done.
  eexists bins, _, _. split; [rewrite Ht1; apply trace_last|].
  split; [exact Hb|]. split; [exact Ht2|]. split.
  - intros k Hk. by rewrite !quad_bag_lookup.
  - rewrite Hh2, Hh1. by rewrite insert_insert_eq.
Qed.

End histplot_reuse.

Lemma histplot_reuse_witness :
  ∃ kw1 kw2,
    list.last (w_trace (example_histplot false example_bag_world).2)
    = Some (ECall "ax.quad" [VObj 12%positive] kw1) ∧
    w_trace (example_histplot false
               (example_histplot false example_bag_world).2).2
    = w_trace (example_histplot false example_bag_world).2
      ++ [ECall "get_bins" [VArray example_values] ∅;
          ECall "np.histogram" [VArray example_values]
            (<["density" := VBool true]>
             (<["bins" := VSeq [VInt 0; VInt 1]]> ∅));
          ECall "ax.quad" [VObj 12%positive] kw2] ∧
    kw2 !! "legend_label" = kw1 !! "legend_label".
Proof.
  destruct (histplot_reuse (H := stubs) example_values example_values
              (VBool false) (VBool false) (VObj 12%positive)
              (VObj 12%positive) 1%positive example_bag example_bag_world
              (example_histplot false example_bag_world).2
              (example_histplot false
                 (example_histplot false example_bag_world).2).2
              (VObj 12%positive) (VObj 12%positive))
    as (bins & kw1 & kw2 & Hl & Hb & Ht & Hk & _).
  - reflexivity.
  - by vm_compute.
  - by vm_compute.
  - injection Hb as <-. exists kw1, kw2. split; [exact Hl|].
    split; [exact Ht|]. apply Hk. compute_done.
Defined.

(** *** The bars as a density *)

Section density_area.
Local Open Scope Qc_scope.





End density_area.

Section histplot_density.
Context `{Collaborators}.
Import bokeh_distplot.


End histplot_density.

